(** * CoCoChain: consensus, semantic verification and handover

    A shallow embedding of the simulation core of the CoCoChain repository
    (CoCoChainApp.cc, VehicleApp.cc, RSUApp.cc and their headers), followed
    by the properties of its natural-language specification.

    Conventions of the embedding.
    - [uint64_t] values are [Z] reduced modulo 2^64 ([wrap64]); [int]
      values are [Z], the conversion from a container size being written
      out ([int_of_size]).
    - [double] is an abstract type with the operations the code uses
      ([DoubleArith]); it is instantiated with Rocq's primitive binary64
      floats, which are the arithmetic of the code, and with the real
      numbers, which idealise them and serve for the geometry of the RSUs
      and the handover rate only.
    - [std::map] is [gmap], [std::set] is [gset], [std::vector] is [list].
    - [simtime_t] is the raw tick count (picoseconds) as [Z]; the current
      simulation time is an argument of every entry point.
    - the random generators are oracles indexed by the number of draws made
      so far; emitted statistics and broadcast packets are appended to logs
      kept in the state. *)

From Stdlib Require Import ZArith Lia String Ascii.
From Stdlib Require Import Floats.PrimFloat Floats.FloatOps Floats.SpecFloat Uint63.
From Stdlib Require Import Floats.FloatAxioms.
From Stdlib Require Import HexadecimalString Reals Lra.
From stdpp Require Import gmap strings list pretty.

Local Open Scope Z_scope.

(** ** Machine integers *)

(** Arithmetic on [uint64_t] wraps modulo 2^64. *)
Definition wrap64 (z : Z) : Z := z mod 2 ^ 64.

Definition INT_MIN : Z := - 2 ^ 31.
Definition INT_MAX : Z := 2 ^ 31 - 1.

(** Conversion of an out-of-range value to [int] (two's complement). *)
Definition wrap_int (z : Z) : Z := (z + 2 ^ 31) mod 2 ^ 32 - 2 ^ 31.

(** [int n = v.size();] *)
Definition int_of_size (n : nat) : Z := wrap_int (Z.of_nat n).

(** ** Doubles *)

(** The operations on [double] that the code uses.  [deqb] and [dltb] are
    the C++ operators [==] and [<]. *)
Class DoubleArith (D : Type) := {
  dadd : D -> D -> D;
  dsub : D -> D -> D;
  dmul : D -> D -> D;
  ddiv : D -> D -> D;
  dsqrt : D -> D;
  dabs : D -> D;
  deqb : D -> D -> bool;
  dltb : D -> D -> bool;
  d_of_Z : Z -> D
}.

(** Decimal literals: [dlit m k] is the double closest to m / 10^k; with
    correctly rounded division this is the quotient of two exact integers. *)
Definition dlit {D} `{DoubleArith D} (m : Z) (k : nat) : D :=
  match k with
  | O => d_of_Z m
  | _ => ddiv (d_of_Z m) (d_of_Z (10 ^ Z.of_nat k))
  end.

(** Input and output conversions of a double: the text written by
    [oss << std::fixed << std::setprecision(6) << val], and
    [static_cast<int>(val)], which truncates toward zero and is undefined
    ([None]) for a NaN, an infinity or a value outside the range of [int]. *)
Class DoubleIO (D : Type) := {
  fixed6 : D -> string;
  d_to_int : D -> option Z
}.

(** *** Binary64 instance *)

Definition float_of_Z (z : Z) : float :=
  if z <? 0 then PrimFloat.opp (PrimFloat.of_uint63 (Uint63.of_Z (- z)))
  else PrimFloat.of_uint63 (Uint63.of_Z z).

#[export] Instance float_arith : DoubleArith float := {
  dadd := PrimFloat.add;
  dsub := PrimFloat.sub;
  dmul := PrimFloat.mul;
  ddiv := PrimFloat.div;
  dsqrt := PrimFloat.sqrt;
  dabs := PrimFloat.abs;
  deqb := PrimFloat.eqb;
  dltb := PrimFloat.ltb;
  d_of_Z := float_of_Z
}.

(** Truncation toward zero of the exact value of a finite float. *)
Definition SF_trunc (f : spec_float) : option Z :=
  match f with
  | S754_zero _ => Some 0
  | S754_finite s m e =>
      let mag := Z.shiftl (Z.pos m) e in
      Some (if s then - mag else mag)
  | _ => None
  end.

(** Rounding up of the exact value of a finite float (used by the
    specification's reading of the vote threshold). *)
Definition SF_ceil (f : spec_float) : option Z :=
  match f with
  | S754_zero _ => Some 0
  | S754_finite s m e =>
      if 0 <=? e then Some ((if s then -1 else 1) * Z.pos m * 2 ^ e)
      else
        let den := 2 ^ (- e) in
        Some (if s then - (Z.pos m / den) else - ((- Z.pos m) / den))
  | _ => None
  end.

Definition in_int_range (z : Z) : bool := (INT_MIN <=? z) && (z <=? INT_MAX).

Definition float_to_int (f : float) : option Z :=
  match SF_trunc (Prim2SF f) with
  | Some z => if in_int_range z then Some z else None
  | None => None
  end.

Definition sign_string (s : bool) : string := if s then "-" else EmptyString.

(** Rounding of num/den (num >= 0, den > 0) to the nearest integer, ties to
    even: the rounding printf applies to the exact binary value. *)
Definition round_half_even (num den : Z) : Z :=
  let q := num / den in
  let r := num mod den in
  if 2 * r <? den then q
  else if den <? 2 * r then q + 1
  else if Z.even q then q else q + 1.

Fixpoint zeros (n : nat) : string :=
  match n with
  | O => EmptyString
  | S n' => String "0" (zeros n')
  end.

(** Left padding with zeros to a width of [n] characters. *)
Definition zero_pad (n : nat) (s : string) : string :=
  zeros (n - String.length s) +:+ s.

Definition fixed6_mag (num den : Z) : string :=
  let n := round_half_even (num * 10 ^ 6) den in
  pretty (n / 10 ^ 6) +:+ "." +:+ zero_pad 6 (pretty (n mod 10 ^ 6)).

(** A NaN is printed with its sign, "nan" or "-nan".  The type [float] has
    one NaN and does not keep the sign, so the rendering takes it as a
    parameter, [nan_sign]: the sign of the NaN that the platform's
    arithmetic produces from operands that are not NaNs (set on x86-64,
    clear on AArch64).  The code never negates a double or prints an
    absolute value, so every NaN it prints has that sign. *)
Definition float_fixed6 (nan_sign : bool) (f : float) : string :=
  match Prim2SF f with
  | S754_zero s => sign_string s +:+ "0.000000"
  | S754_infinity s => sign_string s +:+ "inf"
  | S754_nan => sign_string nan_sign +:+ "nan"
  | S754_finite s m e =>
      sign_string s +:+
      (if 0 <=? e then fixed6_mag (Z.pos m * 2 ^ e) 1
       else fixed6_mag (Z.pos m) (2 ^ (- e)))
  end.

Definition float_io_with (nan_sign : bool) : DoubleIO float := {|
  fixed6 := float_fixed6 nan_sign;
  d_to_int := float_to_int
|}.

(** The instance used for evaluation is that of x86-64. *)
#[export] Instance float_io : DoubleIO float := float_io_with true.

(** *** Real-number instance (exact arithmetic, no rounding and no NaN) *)

#[export] Instance R_arith : DoubleArith R := {
  dadd := Rplus;
  dsub := Rminus;
  dmul := Rmult;
  ddiv := Rdiv;
  dsqrt := sqrt;
  dabs := Rabs;
  deqb := fun x y => if Req_dec_T x y then true else false;
  dltb := fun x y => if Rlt_dec x y then true else false;
  d_of_Z := IZR
}.

(** ** Environment of a node *)

(** What the code takes from its platform: [std::hash<std::string>]
    (implementation-defined), the random generators, and the function that
    an unqualified call of [abs] names.  A generator is an
    oracle: its argument [k] is the number of calls made before this one.
    [conceptDist] and [corruptionDist] share the node's [std::mt19937] and
    one count, [uniform] and [intuniform] are the simulator's and share
    another. *)
Class Platform (D : Type) := {
  hasher : string -> N;
  conceptDist : nat -> D;
  corruptionDist : nat -> D;
  uniform : nat -> D -> D -> D;
  intuniform : nat -> Z -> Z -> Z;
  unqualified_abs : D -> D
}.

(** [unqualified_abs val] is the value of the call [abs(val)] that
    [isTopKConcept] writes without [std::], as the comparison with 0.8
    reads it.  Which function the call names is decided by headers that
    are not part of the sources: with the overloads of [std::abs] visible
    at global scope it is the absolute value of the double
    ([abs_of_double]); with only the C library's [int abs(int)] visible the
    argument is converted to [int] first ([abs_of_int], where [undefined]
    stands for what the platform gives when the conversion or the negation
    of [INT_MIN] is undefined). *)
Definition abs_of_double {D} `{DoubleArith D} (val : D) : D := dabs val.

Definition abs_of_int {D} `{DoubleArith D} `{DoubleIO D} (undefined val : D) : D :=
  match d_to_int val with
  | Some z => if z =? INT_MIN then undefined else d_of_Z (Z.abs z)
  | None => undefined
  end.

(** Simulation time in ticks of one picosecond. *)
Definition SECOND : Z := 10 ^ 12.

(** [t.inUnit(SIMTIME_US)] and [SimTime(n, SIMTIME_US)]. *)
Definition inUnitUS (t : Z) : Z := Z.quot t (10 ^ 6).
Definition fromUS (n : Z) : Z := n * 10 ^ 6.

(** [result << std::hex << hash] *)
Definition hex (n : N) : string :=
  HexadecimalString.NilEmpty.string_of_uint (N.to_hex_uint n).

(** ** CoCoChainApp *)

Module CoCoChainApp.
Section App.
Context {D : Type} {DA : DoubleArith D} {DIO : DoubleIO D} {P : Platform D}.

Record ConceptVector := {
  data : list D;
  cv_timestamp : Z;
  cv_nodeId : Z;
  isCorrupted : bool;
  isTopK : bool
}.

Record Transaction := {
  tx_id : Z;
  conceptVector : ConceptVector;
  semanticDigest : string;
  tx_timestamp : Z;
  originator : Z;
  verified : bool
}.

Inductive MsgType := PROPOSE | VOTE | COMMIT | OtherType (n : Z).

Definition is_VOTE (t : MsgType) : bool :=
  match t with VOTE => true | _ => false end.

(** [static_cast<ConsensusMessage::Type>(type)] *)
Definition type_of_int (n : Z) : MsgType :=
  match n with
  | 0 => PROPOSE
  | 1 => VOTE
  | 2 => COMMIT
  | _ => OtherType n
  end.

Record ConsensusMessage := {
  msg_type : MsgType;
  transactionId : Z;
  senderId : Z;
  vote : bool;
  msg_semanticDigest : string;
  msg_timestamp : Z
}.

(** Samples given to [emit].  The transaction id of a latency sample and
    the integer divisor of a false-positive rate are not part of the
    emitted value; they are kept to state properties of the samples. *)
Inductive Signal :=
| endToEndLatency (txId : Z) (latency : Z)
| consensusOverhead (n : Z)
| malformedDetected (n : Z)
| falsePositiveRate (fpr : D) (divisor : Z)
| throughput (n : Z).

(** Broadcast packets, by content. *)
Inductive Packet :=
| TransactionPacket (id originator timestamp : Z)
| ConsensusPacket (m : ConsensusMessage).

(** Decoded content of a received packet. *)
Inductive Wire :=
| WTransaction (id originator timestamp : Z)
| WConsensus (type : Z) (transactionId senderId : Z) (vote : bool) (timestamp : Z)
| WOther.

Record Params := {
  getId : Z;
  messageInterval : Z;
  corruptionProbability : D;
  bftThreshold : D;
  semanticVerification : bool;
  maxTransactionAge : Z;
  cosineSimilarityThreshold : D;
  enablePbftComparison : bool
}.

Record State := {
  params : Params;
  pendingTransactions : gmap Z Transaction;
  consensusVotes : gmap Z (list ConsensusMessage);
  confirmedTransactions : gset Z;
  adversarialNodes : gset Z;
  transactionStartTimes : gmap Z Z;
  totalMessagesReceived : Z;
  totalMalformedDetected : Z;
  totalFalsePositives : Z;
  totalValidTransactions : Z;
  totalThroughput : Z;
  lastThroughputUpdate : Z;
  transactionCounter : Z;
  rngCalls : nat;
  omnetCalls : nat;
  signals : list Signal;
  sent : list Packet
}.

(** *** Field updates *)

Definition set_pendingTransactions (f : gmap Z Transaction -> gmap Z Transaction) (s : State) : State :=
  {| params := params s; pendingTransactions := f (pendingTransactions s);
     consensusVotes := consensusVotes s; confirmedTransactions := confirmedTransactions s;
     adversarialNodes := adversarialNodes s; transactionStartTimes := transactionStartTimes s;
     totalMessagesReceived := totalMessagesReceived s; totalMalformedDetected := totalMalformedDetected s;
     totalFalsePositives := totalFalsePositives s; totalValidTransactions := totalValidTransactions s;
     totalThroughput := totalThroughput s; lastThroughputUpdate := lastThroughputUpdate s;
     transactionCounter := transactionCounter s; rngCalls := rngCalls s; omnetCalls := omnetCalls s;
     signals := signals s; sent := sent s |}.

Definition set_consensusVotes (f : gmap Z (list ConsensusMessage) -> gmap Z (list ConsensusMessage)) (s : State) : State :=
  {| params := params s; pendingTransactions := pendingTransactions s;
     consensusVotes := f (consensusVotes s); confirmedTransactions := confirmedTransactions s;
     adversarialNodes := adversarialNodes s; transactionStartTimes := transactionStartTimes s;
     totalMessagesReceived := totalMessagesReceived s; totalMalformedDetected := totalMalformedDetected s;
     totalFalsePositives := totalFalsePositives s; totalValidTransactions := totalValidTransactions s;
     totalThroughput := totalThroughput s; lastThroughputUpdate := lastThroughputUpdate s;
     transactionCounter := transactionCounter s; rngCalls := rngCalls s; omnetCalls := omnetCalls s;
     signals := signals s; sent := sent s |}.

Definition set_confirmedTransactions (f : gset Z -> gset Z) (s : State) : State :=
  {| params := params s; pendingTransactions := pendingTransactions s;
     consensusVotes := consensusVotes s; confirmedTransactions := f (confirmedTransactions s);
     adversarialNodes := adversarialNodes s; transactionStartTimes := transactionStartTimes s;
     totalMessagesReceived := totalMessagesReceived s; totalMalformedDetected := totalMalformedDetected s;
     totalFalsePositives := totalFalsePositives s; totalValidTransactions := totalValidTransactions s;
     totalThroughput := totalThroughput s; lastThroughputUpdate := lastThroughputUpdate s;
     transactionCounter := transactionCounter s; rngCalls := rngCalls s; omnetCalls := omnetCalls s;
     signals := signals s; sent := sent s |}.

Definition set_adversarialNodes (f : gset Z -> gset Z) (s : State) : State :=
  {| params := params s; pendingTransactions := pendingTransactions s;
     consensusVotes := consensusVotes s; confirmedTransactions := confirmedTransactions s;
     adversarialNodes := f (adversarialNodes s); transactionStartTimes := transactionStartTimes s;
     totalMessagesReceived := totalMessagesReceived s; totalMalformedDetected := totalMalformedDetected s;
     totalFalsePositives := totalFalsePositives s; totalValidTransactions := totalValidTransactions s;
     totalThroughput := totalThroughput s; lastThroughputUpdate := lastThroughputUpdate s;
     transactionCounter := transactionCounter s; rngCalls := rngCalls s; omnetCalls := omnetCalls s;
     signals := signals s; sent := sent s |}.

Definition set_transactionStartTimes (f : gmap Z Z -> gmap Z Z) (s : State) : State :=
  {| params := params s; pendingTransactions := pendingTransactions s;
     consensusVotes := consensusVotes s; confirmedTransactions := confirmedTransactions s;
     adversarialNodes := adversarialNodes s; transactionStartTimes := f (transactionStartTimes s);
     totalMessagesReceived := totalMessagesReceived s; totalMalformedDetected := totalMalformedDetected s;
     totalFalsePositives := totalFalsePositives s; totalValidTransactions := totalValidTransactions s;
     totalThroughput := totalThroughput s; lastThroughputUpdate := lastThroughputUpdate s;
     transactionCounter := transactionCounter s; rngCalls := rngCalls s; omnetCalls := omnetCalls s;
     signals := signals s; sent := sent s |}.

(** The integer members, updated together. *)
Record Counters := {
  c_messagesReceived : Z;
  c_malformedDetected : Z;
  c_falsePositives : Z;
  c_validTransactions : Z;
  c_throughput : Z;
  c_lastThroughputUpdate : Z;
  c_transactionCounter : Z
}.

Definition counters (s : State) : Counters :=
  {| c_messagesReceived := totalMessagesReceived s;
     c_malformedDetected := totalMalformedDetected s;
     c_falsePositives := totalFalsePositives s;
     c_validTransactions := totalValidTransactions s;
     c_throughput := totalThroughput s;
     c_lastThroughputUpdate := lastThroughputUpdate s;
     c_transactionCounter := transactionCounter s |}.

Definition set_counters (c : Counters) (s : State) : State :=
  {| params := params s; pendingTransactions := pendingTransactions s;
     consensusVotes := consensusVotes s; confirmedTransactions := confirmedTransactions s;
     adversarialNodes := adversarialNodes s; transactionStartTimes := transactionStartTimes s;
     totalMessagesReceived := c_messagesReceived c; totalMalformedDetected := c_malformedDetected c;
     totalFalsePositives := c_falsePositives c; totalValidTransactions := c_validTransactions c;
     totalThroughput := c_throughput c; lastThroughputUpdate := c_lastThroughputUpdate c;
     transactionCounter := c_transactionCounter c; rngCalls := rngCalls s; omnetCalls := omnetCalls s;
     signals := signals s; sent := sent s |}.

Definition set_totalMessagesReceived (v : Z) (s : State) : State :=
  let c := counters s in
  set_counters {| c_messagesReceived := v; c_malformedDetected := c_malformedDetected c;
                  c_falsePositives := c_falsePositives c; c_validTransactions := c_validTransactions c;
                  c_throughput := c_throughput c; c_lastThroughputUpdate := c_lastThroughputUpdate c;
                  c_transactionCounter := c_transactionCounter c |} s.

Definition set_totalMalformedDetected (v : Z) (s : State) : State :=
  let c := counters s in
  set_counters {| c_messagesReceived := c_messagesReceived c; c_malformedDetected := v;
                  c_falsePositives := c_falsePositives c; c_validTransactions := c_validTransactions c;
                  c_throughput := c_throughput c; c_lastThroughputUpdate := c_lastThroughputUpdate c;
                  c_transactionCounter := c_transactionCounter c |} s.

Definition set_totalFalsePositives (v : Z) (s : State) : State :=
  let c := counters s in
  set_counters {| c_messagesReceived := c_messagesReceived c; c_malformedDetected := c_malformedDetected c;
                  c_falsePositives := v; c_validTransactions := c_validTransactions c;
                  c_throughput := c_throughput c; c_lastThroughputUpdate := c_lastThroughputUpdate c;
                  c_transactionCounter := c_transactionCounter c |} s.

Definition set_totalValidTransactions (v : Z) (s : State) : State :=
  let c := counters s in
  set_counters {| c_messagesReceived := c_messagesReceived c; c_malformedDetected := c_malformedDetected c;
                  c_falsePositives := c_falsePositives c; c_validTransactions := v;
                  c_throughput := c_throughput c; c_lastThroughputUpdate := c_lastThroughputUpdate c;
                  c_transactionCounter := c_transactionCounter c |} s.

Definition set_totalThroughput (v : Z) (s : State) : State :=
  let c := counters s in
  set_counters {| c_messagesReceived := c_messagesReceived c; c_malformedDetected := c_malformedDetected c;
                  c_falsePositives := c_falsePositives c; c_validTransactions := c_validTransactions c;
                  c_throughput := v; c_lastThroughputUpdate := c_lastThroughputUpdate c;
                  c_transactionCounter := c_transactionCounter c |} s.

Definition set_lastThroughputUpdate (v : Z) (s : State) : State :=
  let c := counters s in
  set_counters {| c_messagesReceived := c_messagesReceived c; c_malformedDetected := c_malformedDetected c;
                  c_falsePositives := c_falsePositives c; c_validTransactions := c_validTransactions c;
                  c_throughput := c_throughput c; c_lastThroughputUpdate := v;
                  c_transactionCounter := c_transactionCounter c |} s.

Definition set_transactionCounter (v : Z) (s : State) : State :=
  let c := counters s in
  set_counters {| c_messagesReceived := c_messagesReceived c; c_malformedDetected := c_malformedDetected c;
                  c_falsePositives := c_falsePositives c; c_validTransactions := c_validTransactions c;
                  c_throughput := c_throughput c; c_lastThroughputUpdate := c_lastThroughputUpdate c;
                  c_transactionCounter := v |} s.

(** Outputs and generator positions. *)
Definition set_io (r o : nat) (sg : list Signal) (pk : list Packet) (s : State) : State :=
  {| params := params s; pendingTransactions := pendingTransactions s;
     consensusVotes := consensusVotes s; confirmedTransactions := confirmedTransactions s;
     adversarialNodes := adversarialNodes s; transactionStartTimes := transactionStartTimes s;
     totalMessagesReceived := totalMessagesReceived s; totalMalformedDetected := totalMalformedDetected s;
     totalFalsePositives := totalFalsePositives s; totalValidTransactions := totalValidTransactions s;
     totalThroughput := totalThroughput s; lastThroughputUpdate := lastThroughputUpdate s;
     transactionCounter := transactionCounter s; rngCalls := r; omnetCalls := o;
     signals := sg; sent := pk |}.

Definition set_rngCalls (r : nat) (s : State) : State :=
  set_io r (omnetCalls s) (signals s) (sent s) s.
Definition set_omnetCalls (o : nat) (s : State) : State :=
  set_io (rngCalls s) o (signals s) (sent s) s.
(** [emit(signal, value)] *)
Definition emit (x : Signal) (s : State) : State :=
  set_io (rngCalls s) (omnetCalls s) (signals s ++ [x]) (sent s) s.
(** [socket.sendTo(packet, Ipv4Address::ALLONES_ADDRESS, localPort)] *)
Definition sendTo (p : Packet) (s : State) : State :=
  set_io (rngCalls s) (omnetCalls s) (signals s) (sent s ++ [p]) s.

(** *** Concept vectors *)

Definition set_data (l : list D) (cv : ConceptVector) : ConceptVector :=
  {| data := l; cv_timestamp := cv_timestamp cv; cv_nodeId := cv_nodeId cv;
     isCorrupted := isCorrupted cv; isTopK := isTopK cv |}.

Definition set_flags (corrupted topK : bool) (cv : ConceptVector) : ConceptVector :=
  {| data := data cv; cv_timestamp := cv_timestamp cv; cv_nodeId := cv_nodeId cv;
     isCorrupted := corrupted; isTopK := topK |}.

(** Ten draws of [conceptDist(rng)]; [isTopK] keeps the constructor's
    [false]. *)
Definition generateConceptVector (now : Z) (s : State) : ConceptVector * State :=
  let k := rngCalls s in
  ({| data := map (fun i => conceptDist (k + i)%nat) (seq 0 10);
      cv_timestamp := inUnitUS now;
      cv_nodeId := getId (params s);
      isCorrupted := false;
      isTopK := false |},
   set_rngCalls (k + 10)%nat s).

(** [val *= (1.0 + uniform(-0.5, 0.5))] for each coordinate in turn. *)
Fixpoint corruptLoop (k : nat) (l : list D) : list D :=
  match l with
  | [] => []
  | val :: l' =>
      dmul val (dadd (d_of_Z 1) (uniform k (dlit (-5) 1) (dlit 5 1)))
      :: corruptLoop (S k) l'
  end.

Definition corruptConceptVector (cv : ConceptVector) (s : State) : ConceptVector * State :=
  (set_data (corruptLoop (omnetCalls s) (data cv)) (set_flags true (isTopK cv) cv),
   set_omnetCalls (omnetCalls s + length (data cv))%nat s).

(** The text accumulated by [oss << val << ";"] over the coordinates. *)
Definition renderData (l : list D) : string :=
  foldr (fun val acc => fixed6 val +:+ ";" +:+ acc) EmptyString l.

Definition computeSemanticDigest (cv : ConceptVector) : string :=
  hex (hasher (renderData (data cv))).

(** The three accumulators of the loop of [calculateCosineSimilarity]:
    dot product and squared norms, over the indices below [a.size()]. *)
Fixpoint cosineLoop (a b : list D) (acc : D * D * D) : D * D * D :=
  match a, b with
  | x :: a', y :: b' =>
      let '(dotProduct, normA, normB) := acc in
      cosineLoop a' b' (dadd dotProduct (dmul x y), dadd normA (dmul x x), dadd normB (dmul y y))
  | _, _ => acc
  end.

Definition cosineSums (a b : list D) : D * D * D :=
  cosineLoop a b (d_of_Z 0, d_of_Z 0, d_of_Z 0).

(** The divisor of the last line, [sqrt(normA) * sqrt(normB)]. *)
Definition cosineDivisor (a b : list D) : D :=
  let '(_, normA, normB) := cosineSums a b in
  dmul (dsqrt normA) (dsqrt normB).

Definition calculateCosineSimilarity (a b : list D) : D :=
  if negb (length a =? length b)%nat then d_of_Z 0
  else
    let '(dotProduct, normA, normB) := cosineSums a b in
    if deqb normA (d_of_Z 0) || deqb normB (d_of_Z 0) then d_of_Z 0
    else ddiv dotProduct (dmul (dsqrt normA) (dsqrt normB)).

Definition isTopKConcept (cv : ConceptVector) : bool :=
  if existsb (fun val => dltb (dlit 8 1) (unqualified_abs val)) (data cv) then true
  else isTopK cv.

(** Population variance as the code accumulates it. *)
Definition variance (l : list D) : D :=
  let n := d_of_Z (Z.of_nat (length l)) in
  let mean := ddiv (fold_left dadd l (d_of_Z 0)) n in
  ddiv (fold_left (fun acc val => dadd acc (dmul (dsub val mean) (dsub val mean))) l (d_of_Z 0)) n.

Definition verifySemanticIntegrity (now : Z) (tx : Transaction) (s : State) : bool * State :=
  if negb (semanticVerification (params s)) then (true, s)
  else
    let computedDigest := computeSemanticDigest (conceptVector tx) in
    let isValid := String.eqb computedDigest (semanticDigest tx) in
    if isValid then
      let isValid := negb (dltb (dlit 2 0) (variance (data (conceptVector tx)))) in
      if isValid && isTopKConcept (conceptVector tx) then
        let '(refVector, s1) := generateConceptVector now s in
        let similarity := calculateCosineSimilarity (data (conceptVector tx)) (data refVector) in
        if dltb similarity (cosineSimilarityThreshold (params s)) then (false, s1)
        else (true, s1)
      else (isValid, s)
    else (false, s).

(** *** Adversarial behaviour *)

Definition isAdversarialNode (s : State) : bool :=
  bool_decide (getId (params s) ∈ adversarialNodes s).

(** [std::max_element]: position of the first largest element. *)
Fixpoint max_element_from (best : nat) (bestv : D) (i : nat) (l : list D) : nat :=
  match l with
  | [] => best
  | v :: l' =>
      if dltb bestv v then max_element_from i v (S i) l'
      else max_element_from best bestv (S i) l'
  end.

Definition max_element (l : list D) : option nat :=
  match l with
  | [] => None
  | v :: l' => Some (max_element_from 0 v 1 l')
  end.

(** [val += uniform(-0.1, 0.1)] for every coordinate but the one at
    [imax]; returns the new coordinates and the generator position. *)
Fixpoint noiseLoop (k i imax : nat) (l : list D) : list D * nat :=
  match l with
  | [] => ([], k)
  | val :: l' =>
      if (i =? imax)%nat then
        let '(r, k') := noiseLoop k (S i) imax l' in (val :: r, k')
      else
        let '(r, k') := noiseLoop (S k) (S i) imax l' in
        (dadd val (uniform k (dlit (-1) 1) (dlit 1 1)) :: r, k')
  end.

Definition manipulateTopKVector (cv : ConceptVector) (s : State) : ConceptVector * State :=
  let cv := set_flags true true cv in
  match max_element (data cv) with
  | None => (cv, s)
  | Some imax =>
      let k := omnetCalls s in
      let amplified := alter (fun v => dmul v (uniform k (dlit 15 1) (dlit 3 0))) imax (data cv) in
      let '(noisy, k') := noiseLoop (S k) 0 imax amplified in
      (set_data noisy cv, set_omnetCalls k' s)
  end.

(** An index outside the vector is undefined behaviour in
    [cv.data[idx] = ...]; the model then leaves the vector as it is. *)
Definition injectMalformedVector (cv : ConceptVector) (s : State) : ConceptVector * State :=
  let '(cv, s) := corruptConceptVector cv s in
  let k := omnetCalls s in
  let '(cv, s) :=
    if dltb (uniform k (d_of_Z 0) (d_of_Z 1)) (dlit 5 1) then
      let idx := intuniform (S k) 0 (wrap_int (Z.of_nat (length (data cv)) - 1)) in
      let v := uniform (S (S k)) (d_of_Z (-10)) (d_of_Z 10) in
      (if (0 <=? idx) && (idx <? Z.of_nat (length (data cv)))
       then set_data (<[Z.to_nat idx := v]> (data cv)) cv else cv,
       set_omnetCalls (k + 3)%nat s)
    else (cv, set_omnetCalls (k + 1)%nat s) in
  let k := omnetCalls s in
  if dltb (uniform k (d_of_Z 0) (d_of_Z 1)) (dlit 3 1) then
    manipulateTopKVector (set_flags (isCorrupted cv) true cv) (set_omnetCalls (S k) s)
  else (cv, set_omnetCalls (S k) s).

(** *** Metrics *)

Definition updateThroughputMetrics (now : Z) (s : State) : State :=
  if SECOND <=? now - lastThroughputUpdate s then
    set_lastThroughputUpdate now
      (set_totalThroughput 0 (emit (throughput (totalThroughput s)) s))
  else s.

Definition updateFalsePositiveRate (wasValid wasRejected : bool) (s : State) : State :=
  let s := if wasValid && wasRejected
           then set_totalFalsePositives (totalFalsePositives s + 1) s else s in
  if 0 <? totalValidTransactions s + totalMalformedDetected s then
    let fpr := ddiv (d_of_Z (totalFalsePositives s))
                    (d_of_Z (totalValidTransactions s + totalFalsePositives s)) in
    emit (falsePositiveRate fpr (totalValidTransactions s + totalFalsePositives s)) s
  else s.

(** [recordScalar(name, value)] calls of [finish], in order. *)
Definition finish (s : State) : list (string * D) :=
  [("Total messages received", d_of_Z (totalMessagesReceived s));
   ("Total malformed detected", d_of_Z (totalMalformedDetected s));
   ("Total false positives", d_of_Z (totalFalsePositives s));
   ("Total valid transactions", d_of_Z (totalValidTransactions s));
   ("Confirmed transactions", d_of_Z (Z.of_nat (size (confirmedTransactions s))))]
  ++ (if 0 <? totalValidTransactions s + totalFalsePositives s then
        [("Final FPR", ddiv (d_of_Z (totalFalsePositives s))
                            (d_of_Z (totalValidTransactions s + totalFalsePositives s)))]
      else []).

(** *** Consensus *)

Definition processPbftConsensus (tx : Transaction) (s : State) : bool * State :=
  let isValid := negb (isCorrupted (conceptVector tx)) in
  let k := omnetCalls s in
  (if dltb (uniform k (d_of_Z 0) (d_of_Z 1)) (dlit 67 2) then isValid else false,
   set_omnetCalls (S k) s).

Definition processCocoChainConsensus (now : Z) (tx : Transaction) (s : State) : bool * State :=
  let '(ok, s) := verifySemanticIntegrity now tx s in
  if negb ok then (false, s)
  else
    let '(rejected, s) :=
      if isTopKConcept (conceptVector tx) then
        let '(refVector, s) := generateConceptVector now s in
        let similarity := calculateCosineSimilarity (data (conceptVector tx)) (data refVector) in
        if dltb similarity (cosineSimilarityThreshold (params s)) then
          (true,
           if negb (isCorrupted (conceptVector tx)) then
             updateFalsePositiveRate true true
               (set_totalFalsePositives (totalFalsePositives s + 1) s)
           else s)
        else (false, s)
      else (false, s) in
    if rejected then (false, s)
    else if isCorrupted (conceptVector tx) then
      (true, emit (malformedDetected 1)
               (set_totalMalformedDetected (totalMalformedDetected s + 1) s))
    else
      (true, updateFalsePositiveRate true false
               (set_totalValidTransactions (totalValidTransactions s + 1) s)).

(** [tx.id = ++transactionCounter + (getId() * 1000000ULL)], where
    [counter] is the value of the counter before the increment. *)
Definition transactionIdOf (nodeId counter : Z) : Z :=
  wrap64 (wrap64 (counter + 1) + wrap64 (wrap64 nodeId * 1000000)).

Definition sendTransaction (now : Z) (s : State) : State :=
  let id := transactionIdOf (getId (params s)) (transactionCounter s) in
  let s := set_transactionCounter (wrap64 (transactionCounter s + 1)) s in
  let '(cv, s) := generateConceptVector now s in
  let '(cv, s) := if isAdversarialNode s then injectMalformedVector cv s else (cv, s) in
  let tx := {| tx_id := id; conceptVector := cv;
               semanticDigest := computeSemanticDigest cv;
               tx_timestamp := inUnitUS now;
               originator := getId (params s); verified := false |} in
  let s := set_transactionStartTimes <[tx_id tx := now]> s in
  let s := updateThroughputMetrics now (set_totalThroughput (totalThroughput s + 1) s) in
  sendTo (TransactionPacket (tx_id tx) (originator tx) (tx_timestamp tx)) s.

Definition startConsensus (now : Z) (tx : Transaction) (s : State) : State :=
  let '(v, s) := verifySemanticIntegrity now tx s in
  sendTo (ConsensusPacket {| msg_type := VOTE; transactionId := tx_id tx;
                             senderId := getId (params s); vote := v;
                             msg_semanticDigest := EmptyString;
                             msg_timestamp := inUnitUS now |}) s.

Definition processReceivedTransaction (now : Z) (tx : Transaction) (s : State) : State :=
  if originator tx =? getId (params s) then s
  else
    let age := now - fromUS (tx_timestamp tx) in
    if maxTransactionAge (params s) <? age then s
    else
      let '(cocoChainResult, s) := processCocoChainConsensus now tx s in
      let s := if enablePbftComparison (params s)
               then snd (processPbftConsensus tx s) else s in
      if negb cocoChainResult then s
      else startConsensus now tx (set_pendingTransactions <[tx_id tx := tx]> s).

Definition finalizeTransaction (now : Z) (txId : Z) (s : State) : State :=
  if bool_decide (txId ∈ confirmedTransactions s) then s
  else
    let s := set_confirmedTransactions (fun c => c ∪ {[txId]}) s in
    let s :=
      match transactionStartTimes s !! txId with
      | Some started =>
          set_transactionStartTimes (delete txId)
            (emit (endToEndLatency txId (now - started)) s)
      | None => s
      end in
    set_consensusVotes (delete txId) (set_pendingTransactions (delete txId) s).

(** [static_cast<int>(estimatedNetworkSize * bftThreshold)] with
    [estimatedNetworkSize = 100]. *)
Definition requiredVotes (p : Params) : option Z :=
  d_to_int (dmul (d_of_Z 100) (bftThreshold p)).

(** The vote list of a transaction; absent entries read as empty, as
    [consensusVotes[id]] creates them. *)
Definition votesOf (s : State) (txId : Z) : list ConsensusMessage :=
  default [] (consensusVotes s !! txId).

(** [for (vote : votes) if (vote.vote) positiveVotes++;] *)
Definition countPositive (votes : list ConsensusMessage) : Z :=
  fold_left (fun n v => if vote v then n + 1 else n) votes 0.

(** [None] is the undefined behaviour of the conversion in
    [requiredVotes]. *)
Definition processConsensusMessage (now : Z) (msg : ConsensusMessage) (s : State) : option State :=
  if negb (is_VOTE (msg_type msg)) then Some s
  else
    let txId := transactionId msg in
    let votes := votesOf s txId ++ [msg] in
    let s := set_consensusVotes <[txId := votes]> s in
    let totalVotes := int_of_size (length votes) in
    let positiveVotes := countPositive votes in
    match requiredVotes (params s) with
    | None => None
    | Some required =>
        if required <=? totalVotes then
          if required <=? positiveVotes then Some (finalizeTransaction now txId s)
          else Some (set_consensusVotes (delete txId)
                       (set_pendingTransactions (delete txId) s))
        else Some s
    end.

(** *** Entry points *)

(** Constructor and [initialize]: one draw decides whether the node is
    adversarial, and one simulator draw schedules the first message. *)
Definition initialize (p : Params) : State :=
  {| params := p;
     pendingTransactions := ∅;
     consensusVotes := ∅;
     confirmedTransactions := ∅;
     adversarialNodes :=
       if dltb (corruptionDist 0) (corruptionProbability p) then {[getId p]} else ∅;
     transactionStartTimes := ∅;
     totalMessagesReceived := 0;
     totalMalformedDetected := 0;
     totalFalsePositives := 0;
     totalValidTransactions := 0;
     totalThroughput := 0;
     lastThroughputUpdate := 0;
     transactionCounter := 0;
     rngCalls := 1;
     omnetCalls := 1;
     signals := [];
     sent := [] |}.

(** [scheduleAt(simTime() + messageInterval + uniform(-0.1, 0.1), sendTimer)];
    the timer itself belongs to the scheduler. *)
Definition scheduleNextMessage (s : State) : State :=
  set_omnetCalls (S (omnetCalls s)) s.

Definition socketDataArrived (now : Z) (w : Wire) (s : State) : option State :=
  let s := emit (consensusOverhead 1)
             (set_totalMessagesReceived (totalMessagesReceived s + 1) s) in
  match w with
  | WTransaction id orig ts =>
      let '(cv, s) := generateConceptVector now s in
      Some (processReceivedTransaction now
              {| tx_id := id; conceptVector := cv;
                 semanticDigest := computeSemanticDigest cv;
                 tx_timestamp := ts; originator := orig; verified := false |} s)
  | WConsensus type txId sender v ts =>
      processConsensusMessage now
        {| msg_type := type_of_int type; transactionId := txId; senderId := sender;
           vote := v; msg_semanticDigest := EmptyString; msg_timestamp := ts |} s
  | WOther => Some s
  end.

(** The events the scheduler delivers to a node, with their time. *)
Inductive Event :=
| SendTimer (now : Z)
| DataArrived (now : Z) (w : Wire).

Definition handle (e : Event) (s : State) : option State :=
  match e with
  | SendTimer now => Some (scheduleNextMessage (sendTransaction now s))
  | DataArrived now w => socketDataArrived now w s
  end.

Fixpoint run (events : list Event) (s : State) : option State :=
  match events with
  | [] => Some s
  | e :: events' =>
      match handle e s with
      | Some s' => run events' s'
      | None => None
      end
  end.

(** Transaction ids of the latency samples emitted so far. *)
Definition latencySamples (s : State) : list Z :=
  omap (fun x => match x with endToEndLatency txId _ => Some txId | _ => None end)
       (signals s).

(** Divisors of the false-positive rates emitted so far. *)
Definition fprDivisors (s : State) : list Z :=
  omap (fun x => match x with falsePositiveRate _ divisor => Some divisor | _ => None end)
       (signals s).

(** What the latency accounting depends on: the parameters, the confirmed
    set and the latency samples emitted so far. *)
Definition core (s : State) : Params * gset Z * list Z :=
  (params s, confirmedTransactions s, latencySamples s).

(** The core together with what the false-positive rate depends on. *)
Definition ledger (s : State) : Params * gset Z * list Z * (Z * Z * list Z) :=
  (core s, (totalValidTransactions s, totalFalsePositives s, fprDivisors s)).

(** Signals that are neither a latency nor a false-positive rate. *)
Definition plainSignal (x : Signal) : bool :=
  match x with
  | endToEndLatency _ _ | falsePositiveRate _ _ => false
  | _ => true
  end.

(** The invariant of a run: no transaction id has two latency samples, and
    every id with a sample is confirmed. *)
Definition accounted (s : State) : Prop :=
  NoDup (latencySamples s)
  /\ forall txId, txId ∈ latencySamples s -> txId ∈ confirmedTransactions s.

(** The invariant of the false-positive rate: the two counters of its
    divisor are not negative and no emitted rate had a divisor of 0. *)
Definition guarded (s : State) : Prop :=
  0 <= totalValidTransactions s
  /\ 0 <= totalFalsePositives s
  /\ Forall (fun divisor => 0 < divisor) (fprDivisors s).

End App.

Arguments core : simpl never.
Arguments ledger : simpl never.
Arguments ConceptVector : clear implicits.
Arguments Transaction : clear implicits.
Arguments Signal : clear implicits.
Arguments Params : clear implicits.
Arguments State : clear implicits.

End CoCoChainApp.

(** ** VehicleApp *)

Module VehicleApp.
Section App.
Context {D : Type} {DA : DoubleArith D} {P : Platform D}.

Inductive Signal :=
| authLatency (latency : Z)
| handover.

Inductive Packet :=
| TransactionPacket (txId vehicleId timestamp currentRSU : Z)
| HandoverPacket (vehicleId currentRSU newRSU : Z).

(** Decoded content of a received packet. *)
Inductive Wire :=
| WTxResponse (txId : Z) (success : bool) (latency : Z)
| WHandoverResponse (rsuId : Z) (success : bool)
| WOther.

(** [mobility] records whether the mobility submodule was found. *)
Record State := {
  vehicleId : Z;
  mobility : bool;
  transactionCounter : Z;
  currentRSU : Z;
  targetRSU : Z;
  rsuContactTimes : gmap Z Z;
  inHandover : bool;
  pendingTransactions : gmap Z Z;
  omnetCalls : nat;
  signals : list Signal;
  sent : list Packet
}.

(** The members of the handover state machine, updated together. *)
Definition set_handover (current target : Z) (contacts : gmap Z Z) (inH : bool)
    (s : State) : State :=
  {| vehicleId := vehicleId s; mobility := mobility s;
     transactionCounter := transactionCounter s;
     currentRSU := current; targetRSU := target; rsuContactTimes := contacts;
     inHandover := inH; pendingTransactions := pendingTransactions s;
     omnetCalls := omnetCalls s; signals := signals s; sent := sent s |}.

Definition set_transactions (counter : Z) (pending : gmap Z Z) (s : State) : State :=
  {| vehicleId := vehicleId s; mobility := mobility s;
     transactionCounter := counter;
     currentRSU := currentRSU s; targetRSU := targetRSU s;
     rsuContactTimes := rsuContactTimes s;
     inHandover := inHandover s; pendingTransactions := pending;
     omnetCalls := omnetCalls s; signals := signals s; sent := sent s |}.

Definition set_io (o : nat) (sg : list Signal) (pk : list Packet) (s : State) : State :=
  {| vehicleId := vehicleId s; mobility := mobility s;
     transactionCounter := transactionCounter s;
     currentRSU := currentRSU s; targetRSU := targetRSU s;
     rsuContactTimes := rsuContactTimes s;
     inHandover := inHandover s; pendingTransactions := pendingTransactions s;
     omnetCalls := o; signals := sg; sent := pk |}.

Definition emit (x : Signal) (s : State) : State :=
  set_io (omnetCalls s) (signals s ++ [x]) (sent s) s.
Definition sendBroadcast (p : Packet) (s : State) : State :=
  set_io (omnetCalls s) (signals s) (sent s ++ [p]) s.

(** RSUs are at 2km, 6km, 10km, 14km and 18km. *)
Definition rsuPositions : list Z := [2000; 6000; 10000; 14000; 18000].

(** The scan of [findNearestRSU] over the positions from index [i] on. *)
Fixpoint nearestLoop (position : D) (i : Z) (rest : list Z) (nearestRSU : Z)
    (minDistance : D) : Z * D :=
  match rest with
  | [] => (nearestRSU, minDistance)
  | p :: rest' =>
      let distance := dabs (dsub position (d_of_Z p)) in
      if dltb distance minDistance
      then nearestLoop position (i + 1) rest' i distance
      else nearestLoop position (i + 1) rest' nearestRSU minDistance
  end.

Definition findNearestRSU (s : State) : Z * State :=
  if negb (mobility s) then (0, s)
  else
    let position := uniform (omnetCalls s) (d_of_Z 0) (d_of_Z 20000) in
    let s := set_io (S (omnetCalls s)) (signals s) (sent s) s in
    let '(nearestRSU, minDistance) :=
      nearestLoop position 1 (tl rsuPositions) 0
        (dabs (dsub position (d_of_Z (hd 0 rsuPositions)))) in
    if dltb (d_of_Z 1000) minDistance then (-1, s) else (nearestRSU, s).

Definition initiateHandover (newRSU : Z) (s : State) : State :=
  if inHandover s then s
  else
    let s := set_handover (currentRSU s) newRSU (rsuContactTimes s) true s in
    emit handover
      (sendBroadcast (HandoverPacket (vehicleId s) (currentRSU s) newRSU) s).

Definition checkRSURange (s : State) : State :=
  let '(nearestRSU, s) := findNearestRSU s in
  if negb (nearestRSU =? currentRSU s) && negb (inHandover s)
  then initiateHandover nearestRSU s
  else s.

Definition completeHandover (now : Z) (rsuId : Z) (success : bool) (s : State) : State :=
  if negb (inHandover s) || negb (rsuId =? targetRSU s) then s
  else if success then
    set_handover (targetRSU s) (-1)
      (<[targetRSU s := now]> (rsuContactTimes s)) false s
  else
    set_handover (currentRSU s) (-1) (rsuContactTimes s) false s.

(** [uint64_t txId = vehicleId * 1000000 + transactionCounter;] with the
    counter already incremented: an [int] product, converted to 64 bits
    for the sum. *)
Definition transactionIdOf (vehicleId counter : Z) : Z :=
  wrap64 (wrap_int (vehicleId * 1000000) + wrap64 (counter + 1)).

Definition sendTransaction (now : Z) (s : State) : State :=
  let s := checkRSURange s in
  let txId := transactionIdOf (vehicleId s) (transactionCounter s) in
  let s := set_transactions (wrap64 (transactionCounter s + 1))
             (<[txId := now]> (pendingTransactions s)) s in
  sendBroadcast
    (TransactionPacket txId (vehicleId s) (Z.quot now (10 ^ 9)) (currentRSU s)) s.

Definition processTransactionResponse (now : Z) (txId : Z) (success : bool)
    (latency : Z) (s : State) : State :=
  match pendingTransactions s !! txId with
  | Some started =>
      set_transactions (transactionCounter s) (delete txId (pendingTransactions s))
        (emit (authLatency (now - started)) s)
  | None => s
  end.

Definition socketDataArrived (now : Z) (w : Wire) (s : State) : State :=
  match w with
  | WTxResponse txId success latency =>
      processTransactionResponse now txId success latency s
  | WHandoverResponse rsuId success => completeHandover now rsuId success s
  | WOther => s
  end.

End App.
End VehicleApp.

(** ** RSUApp *)

(** Conversions between [double] seconds and simulation time:
    [simtime_t t = d;] and [t.dbl()]. *)
Class SimTimeOps (D : Type) := {
  simtime_of_double : D -> Z;
  simtime_dbl : Z -> D
}.

Module RSUApp.
Section App.
Context {D : Type} {DA : DoubleArith D} {DIO : DoubleIO D} {P : Platform D}
        {ST : SimTimeOps D}.

(** [Transaction] of HighwayStructures.h. *)
Record Transaction := {
  tx_id : Z;
  originator : Z;
  tx_timestamp : Z;
  semanticData : list D;
  digest : string;
  verified : bool;
  tx_targetRSU : Z
}.

(** [HandoverContext] of HighwayStructures.h. *)
Record HandoverContext := {
  hc_vehicleId : Z;
  sourceRSU : Z;
  hc_targetRSU : Z;
  hc_timestamp : Z;
  hc_pendingTransactions : list Z;
  authToken : string;
  inProgress : bool
}.

(** Samples given to [emit]; latencies in ticks, the handover outcome
    [true] for the sample 1.0 and [false] for 0.0. *)
Inductive Signal :=
| authLatency (latency : Z)
| handoverSuccess (success : bool)
| throughput (value : D).

(** Decoded content of a received packet. *)
Inductive Wire :=
| WTransaction (id originator timestamp targetRSU : Z)
| WHandover (vehicleId sourceRSU targetRSU : Z)
| WOther.

(** The members the functions read or write; [scheduled] holds the times
    of the [handover_complete] self-messages given to the scheduler. *)
Record State := {
  rsuId : Z;
  coverageRadius : D;
  usePBFT : bool;
  activeTransactions : gmap Z Transaction;
  transactionStartTimes : gmap Z Z;
  totalHandovers : Z;
  successfulHandovers : Z;
  throughputCounter : D;
  lastThroughputUpdate : Z;
  omnetCalls : nat;
  signals : list Signal;
  scheduled : list Z
}.

Definition set_transactions (active : gmap Z Transaction) (starts : gmap Z Z)
    (s : State) : State :=
  {| rsuId := rsuId s; coverageRadius := coverageRadius s; usePBFT := usePBFT s;
     activeTransactions := active; transactionStartTimes := starts;
     totalHandovers := totalHandovers s; successfulHandovers := successfulHandovers s;
     throughputCounter := throughputCounter s;
     lastThroughputUpdate := lastThroughputUpdate s;
     omnetCalls := omnetCalls s; signals := signals s; scheduled := scheduled s |}.

Definition set_handovers (total successful : Z) (s : State) : State :=
  {| rsuId := rsuId s; coverageRadius := coverageRadius s; usePBFT := usePBFT s;
     activeTransactions := activeTransactions s;
     transactionStartTimes := transactionStartTimes s;
     totalHandovers := total; successfulHandovers := successful;
     throughputCounter := throughputCounter s;
     lastThroughputUpdate := lastThroughputUpdate s;
     omnetCalls := omnetCalls s; signals := signals s; scheduled := scheduled s |}.

Definition set_throughput (counter : D) (last : Z) (s : State) : State :=
  {| rsuId := rsuId s; coverageRadius := coverageRadius s; usePBFT := usePBFT s;
     activeTransactions := activeTransactions s;
     transactionStartTimes := transactionStartTimes s;
     totalHandovers := totalHandovers s; successfulHandovers := successfulHandovers s;
     throughputCounter := counter; lastThroughputUpdate := last;
     omnetCalls := omnetCalls s; signals := signals s; scheduled := scheduled s |}.

Definition set_io (o : nat) (sg : list Signal) (sch : list Z) (s : State) : State :=
  {| rsuId := rsuId s; coverageRadius := coverageRadius s; usePBFT := usePBFT s;
     activeTransactions := activeTransactions s;
     transactionStartTimes := transactionStartTimes s;
     totalHandovers := totalHandovers s; successfulHandovers := successfulHandovers s;
     throughputCounter := throughputCounter s;
     lastThroughputUpdate := lastThroughputUpdate s;
     omnetCalls := o; signals := sg; scheduled := sch |}.

Definition emit (x : Signal) (s : State) : State :=
  set_io (omnetCalls s) (signals s ++ [x]) (scheduled s) s.
Definition scheduleAt (t : Z) (s : State) : State :=
  set_io (omnetCalls s) (signals s) (scheduled s ++ [t]) s.
Definition set_omnetCalls (o : nat) (s : State) : State :=
  set_io o (signals s) (scheduled s) s.

Definition set_digest_verified (d : string) (tx : Transaction) : Transaction :=
  {| tx_id := tx_id tx; originator := originator tx; tx_timestamp := tx_timestamp tx;
     semanticData := semanticData tx; digest := d; verified := true;
     tx_targetRSU := tx_targetRSU tx |}.

(** [recordAuthenticationLatency(latency)], [recordHandoverSuccess] and
    [recordHandoverFailure]. *)
Definition recordAuthenticationLatency (latency : Z) (s : State) : State :=
  emit (authLatency latency) s.

Definition recordHandoverSuccess (vehicleId : Z) (latency : Z) (s : State) : State :=
  emit (handoverSuccess true) (emit (authLatency latency) s).

Definition recordHandoverFailure (vehicleId : Z) (s : State) : State :=
  emit (handoverSuccess false) s.

(** [transactionStartTimes[txId]] as an rvalue: a missing entry is created
    with the time 0. *)
Definition startTimeOf (txId : Z) (s : State) : Z * State :=
  match transactionStartTimes s !! txId with
  | Some started => (started, s)
  | None => (0, set_transactions (activeTransactions s)
                  (<[txId := 0]> (transactionStartTimes s)) s)
  end.

(** The digest of [runCoCoChainConsensus]: the renderings one after the
    other, without separator. *)
Definition renderSemanticData (l : list D) : string :=
  foldr (fun val acc => fixed6 val +:+ acc) EmptyString l.

Definition runCoCoChainConsensus (now : Z) (txId : Z) (s : State) : State :=
  match activeTransactions s !! txId with
  | None => s
  | Some tx =>
      let consensusLatency :=
        simtime_of_double (uniform (omnetCalls s) (dlit 1 3) (dlit 5 3)) in
      let s := set_omnetCalls (S (omnetCalls s)) s in
      let s := set_transactions
                 (<[txId := set_digest_verified (renderSemanticData (semanticData tx)) tx]>
                    (activeTransactions s))
                 (transactionStartTimes s) s in
      let '(started, s) := startTimeOf txId s in
      recordAuthenticationLatency (now + consensusLatency - started) s
  end.

Definition runPBFTConsensus (now : Z) (txId : Z) (s : State) : State :=
  match activeTransactions s !! txId with
  | None => s
  | Some tx =>
      let consensusLatency :=
        simtime_of_double (uniform (omnetCalls s) (dlit 10 3) (dlit 50 3)) in
      let s := set_omnetCalls (S (omnetCalls s)) s in
      let s := set_transactions
                 (<[txId := set_digest_verified (digest tx) tx]> (activeTransactions s))
                 (transactionStartTimes s) s in
      let '(started, s) := startTimeOf txId s in
      recordAuthenticationLatency (now + consensusLatency - started) s
  end.

Definition updateThroughput (now : Z) (s : State) : State :=
  let counter := dadd (throughputCounter s) (d_of_Z 1) in
  let interval := now - lastThroughputUpdate s in
  if SECOND <=? interval then
    set_throughput (d_of_Z 0) now
      (emit (throughput (ddiv counter (simtime_dbl interval))) s)
  else set_throughput counter (lastThroughputUpdate s) s.

Definition processTransaction (now : Z) (tx : Transaction) (senderId : Z) (s : State) : State :=
  let s := set_transactions (<[tx_id tx := tx]> (activeTransactions s))
             (<[tx_id tx := now]> (transactionStartTimes s)) s in
  let s := if usePBFT s then runPBFTConsensus now (tx_id tx) s
           else runCoCoChainConsensus now (tx_id tx) s in
  updateThroughput now s.

(** [uniform(0.0, 1.0) > 0.05] *)
Definition isVehicleInRange (vehicleId : Z) (s : State) : bool * State :=
  (dltb (dlit 5 2) (uniform (omnetCalls s) (d_of_Z 0) (d_of_Z 1)),
   set_omnetCalls (S (omnetCalls s)) s).

(** The range check is evaluated only when the request targets this RSU.
    The two counters are [int]s: incrementing one that holds [INT_MAX] is
    undefined, and the function gives [None]. *)
Definition processHandoverRequest (now : Z) (vehicleId : Z) (context : HandoverContext)
    (s : State) : option State :=
  if totalHandovers s =? INT_MAX then None
  else
    let s := set_handovers (totalHandovers s + 1) (successfulHandovers s) s in
    let '(accepted, s) :=
      if hc_targetRSU context =? rsuId s then isVehicleInRange vehicleId s
      else (false, s) in
    if accepted then
      let authLatency := simtime_of_double (uniform (omnetCalls s) (dlit 2 3) (dlit 8 3)) in
      let s := set_omnetCalls (S (omnetCalls s)) s in
      let s := scheduleAt (now + authLatency) s in
      let s := recordHandoverSuccess vehicleId authLatency s in
      if successfulHandovers s =? INT_MAX then None
      else Some (set_handovers (totalHandovers s) (successfulHandovers s + 1) s)
    else Some (recordHandoverFailure vehicleId s).

Definition socketDataArrived (now : Z) (w : Wire) (s : State) : option State :=
  match w with
  | WTransaction id orig ts target =>
      let k := omnetCalls s in
      let tx := {| tx_id := id; originator := orig; tx_timestamp := ts;
                   semanticData :=
                     map (fun i => uniform (k + i)%nat (d_of_Z 0) (d_of_Z 1)) (seq 0 10);
                   digest := EmptyString; verified := false; tx_targetRSU := target |} in
      Some (processTransaction now tx orig (set_omnetCalls (k + 10)%nat s))
  | WHandover vehicleId source target =>
      processHandoverRequest now vehicleId
        {| hc_vehicleId := vehicleId; sourceRSU := source; hc_targetRSU := target;
           hc_timestamp := Z.quot now (10 ^ 9); hc_pendingTransactions := [];
           authToken := EmptyString; inProgress := false |} s
  | WOther => Some s
  end.

(** Constructor and [initialize]. *)
Definition initialize (now : Z) (index : Z) (pbft : bool) (radius : D) : State :=
  {| rsuId := index; coverageRadius := radius; usePBFT := pbft;
     activeTransactions := ∅; transactionStartTimes := ∅;
     totalHandovers := 0; successfulHandovers := 0;
     throughputCounter := d_of_Z 0; lastThroughputUpdate := now;
     omnetCalls := 0; signals := []; scheduled := [] |}.

(** The handover success rate computed by [finish]. *)
Definition handoverSuccessRate (s : State) : D :=
  if 0 <? totalHandovers s
  then ddiv (d_of_Z (successfulHandovers s)) (d_of_Z (totalHandovers s))
  else d_of_Z 0.

(** The final throughput sample of [finish]. *)
Definition finish (now : Z) (s : State) : State :=
  if dltb (d_of_Z 0) (throughputCounter s) then
    let interval := now - lastThroughputUpdate s in
    if 0 <? interval
    then emit (throughput (ddiv (throughputCounter s) (simtime_dbl interval))) s
    else s
  else s.

(** Packets delivered to the RSU, in order, with their times. *)
Fixpoint run (packets : list (Z * Wire)) (s : State) : option State :=
  match packets with
  | [] => Some s
  | (now, w) :: packets' =>
      match socketDataArrived now w s with
      | Some s' => run packets' s'
      | None => None
      end
  end.

(** Outcomes of the handover requests answered so far. *)
Definition handoverOutcomes (s : State) : list bool :=
  omap (fun x => match x with handoverSuccess b => Some b | _ => None end) (signals s).

Definition isHandover (pw : Z * Wire) : bool :=
  match snd pw with WHandover _ _ _ => true | _ => false end.

End App.

Arguments Transaction : clear implicits.
Arguments Signal : clear implicits.
Arguments State : clear implicits.

End RSUApp.

(** ** HighwayMetrics (HighwayStructures.h) *)

Module HighwayMetrics.
Section Metrics.
Context {D : Type} {DA : DoubleArith D}.

Record HighwayMetrics := {
  authLatencies : list D;
  totalHandovers : Z;
  successfulHandovers : Z;
  throughputSamples : list D;
  speedBandLatencies : gmap Z (list D);
  speedBandHSR : gmap Z D
}.

Definition getHandoverSuccessRate (m : HighwayMetrics) : D :=
  if 0 <? totalHandovers m
  then ddiv (d_of_Z (successfulHandovers m)) (d_of_Z (totalHandovers m))
  else d_of_Z 0.

(** [sum / v.size()] with the early return on an empty vector. *)
Definition average (l : list D) : D :=
  match l with
  | [] => d_of_Z 0
  | _ => ddiv (fold_left dadd l (d_of_Z 0)) (d_of_Z (Z.of_nat (length l)))
  end.

Definition getAverageLatency (m : HighwayMetrics) : D := average (authLatencies m).

Definition getAverageThroughput (m : HighwayMetrics) : D := average (throughputSamples m).

End Metrics.

Arguments HighwayMetrics : clear implicits.

End HighwayMetrics.

(** ** A concrete platform and concrete nodes, for evaluation *)

(** A stand-in for [std::hash<std::string>]: a polynomial hash modulo
    2^64. *)
Fixpoint demoHash (h : N) (s : string) : N :=
  match s with
  | EmptyString => h
  | String c s' => demoHash ((h * 31 + N.of_nat (nat_of_ascii c)) mod 2 ^ 64)%N s'
  end.

#[export] Instance demoPlatform : Platform float := {
  hasher := demoHash 7;
  conceptDist := fun k => PrimFloat.div (float_of_Z (Z.of_nat k mod 5 - 2)) 4;
  corruptionDist := fun _ => 0.5%float;
  uniform := fun _ a b => PrimFloat.div (PrimFloat.add a b) 2;
  intuniform := fun _ a _ => a;
  unqualified_abs := abs_of_double
}.

(** The same platform in a build where [abs(val)] names [int abs(int)];
    out of range the conversion gives [INT_MIN], as on x86-64. *)
Definition intAbsPlatform : Platform float := {|
  hasher := demoHash 7;
  conceptDist := fun k => PrimFloat.div (float_of_Z (Z.of_nat k mod 5 - 2)) 4;
  corruptionDist := fun _ => 0.5%float;
  uniform := fun _ a b => PrimFloat.div (PrimFloat.add a b) 2;
  intuniform := fun _ a _ => a;
  unqualified_abs := abs_of_int (float_of_Z INT_MIN)
|}.

Definition demoParams (id : Z) (threshold : float) (verification : bool)
    : CoCoChainApp.Params float :=
  {| CoCoChainApp.getId := id;
     CoCoChainApp.messageInterval := 3 * SECOND / 2;
     CoCoChainApp.corruptionProbability := dlit 1 1;
     CoCoChainApp.bftThreshold := threshold;
     CoCoChainApp.semanticVerification := verification;
     CoCoChainApp.maxTransactionAge := 10 * SECOND;
     CoCoChainApp.cosineSimilarityThreshold := dlit 2 1;
     CoCoChainApp.enablePbftComparison := false |}.

(** The configured default threshold 0.67, and 1/64, for which
    100 * threshold = 1.5625 exactly. *)
Definition defaultThreshold : float := dlit 67 2.
Definition smallThreshold : float := 0.015625%float.

Definition demoNode (id : Z) (threshold : float) : CoCoChainApp.State float :=
  CoCoChainApp.initialize (demoParams id threshold true).

Definition demoVote (txId sender : Z) (accept : bool) : CoCoChainApp.ConsensusMessage :=
  {| CoCoChainApp.msg_type := CoCoChainApp.VOTE;
     CoCoChainApp.transactionId := txId;
     CoCoChainApp.senderId := sender;
     CoCoChainApp.vote := accept;
     CoCoChainApp.msg_semanticDigest := EmptyString;
     CoCoChainApp.msg_timestamp := 0 |}.

Definition demoVector (l : list float) : CoCoChainApp.ConceptVector float :=
  {| CoCoChainApp.data := l;
     CoCoChainApp.cv_timestamp := 0;
     CoCoChainApp.cv_nodeId := 1;
     CoCoChainApp.isCorrupted := false;
     CoCoChainApp.isTopK := false |}.

Definition demoTransaction (l : list float) (digest : string) : CoCoChainApp.Transaction float :=
  {| CoCoChainApp.tx_id := 7;
     CoCoChainApp.conceptVector := demoVector l;
     CoCoChainApp.semanticDigest := digest;
     CoCoChainApp.tx_timestamp := 0;
     CoCoChainApp.originator := 1;
     CoCoChainApp.verified := false |}.

(** A transaction flagged as corrupted whose digest matches its vector. *)
Definition demoCorruptedTransaction : CoCoChainApp.Transaction float :=
  let cv := {| CoCoChainApp.data := [0.5%float; 0.25%float];
               CoCoChainApp.cv_timestamp := 0;
               CoCoChainApp.cv_nodeId := 2;
               CoCoChainApp.isCorrupted := true;
               CoCoChainApp.isTopK := false |} in
  {| CoCoChainApp.tx_id := 2000001;
     CoCoChainApp.conceptVector := cv;
     CoCoChainApp.semanticDigest := CoCoChainApp.computeSemanticDigest cv;
     CoCoChainApp.tx_timestamp := 0;
     CoCoChainApp.originator := 2;
     CoCoChainApp.verified := false |}.

(** The vote threshold as the specification words it: the product rounded
    up. *)
Definition requiredVotesCeil (p : CoCoChainApp.Params float) : option Z :=
  SF_ceil (Prim2SF (PrimFloat.mul 100 (CoCoChainApp.bftThreshold p))).

Definition demoVehicle (id current target : Z) (inH : bool) : VehicleApp.State :=
  {| VehicleApp.vehicleId := id;
     VehicleApp.mobility := true;
     VehicleApp.transactionCounter := 0;
     VehicleApp.currentRSU := current;
     VehicleApp.targetRSU := target;
     VehicleApp.rsuContactTimes := ∅;
     VehicleApp.inHandover := inH;
     VehicleApp.pendingTransactions := ∅;
     VehicleApp.omnetCalls := 0;
     VehicleApp.signals := [];
     VehicleApp.sent := [] |}.

(** ** Views of a CoCoChainApp state and vote scenarios *)

Section Views.
Context {D : Type}.
Import CoCoChainApp.

(** Everything but the positions of the random generators. *)
Definition durable (s : State D) :=
  (params s, pendingTransactions s, consensusVotes s, confirmedTransactions s,
   adversarialNodes s, transactionStartTimes s, counters s, signals s, sent s).

Definition overheadSamples (s : State D) : list Z :=
  omap (fun x => match x with consensusOverhead n => Some n | _ => None end) (signals s).

Definition malformedSamples (s : State D) : list Z :=
  omap (fun x => match x with malformedDetected n => Some n | _ => None end) (signals s).

(** Id, originator and timestamp of the transaction packets sent so far. *)
Definition transactionPackets (s : State D) : list (Z * Z * Z) :=
  omap (fun p => match p with
                 | TransactionPacket id orig ts => Some (id, orig, ts)
                 | _ => None
                 end) (sent s).

(** The bookkeeping that only the entry points change. *)
Definition books (s : State D) :=
  (totalMessagesReceived s, totalMalformedDetected s, transactionCounter s,
   overheadSamples s, malformedSamples s, transactionPackets s).

(** The throughput samples emitted so far, and the transactions they and
    the running counter account for. *)
Definition throughputSamples (s : State D) : list Z :=
  omap (fun x => match x with throughput n => Some n | _ => None end) (signals s).

Definition sentCounted (s : State D) : Z :=
  foldr Z.add 0 (throughputSamples s) + totalThroughput s.

(** The false-positive rates emitted so far, each with its divisor, and
    what they depend on. *)
Definition fprSamples (s : State D) : list (D * Z) :=
  omap (fun x => match x with
                 | falsePositiveRate fpr divisor => Some (fpr, divisor)
                 | _ => None
                 end) (signals s).

Definition rates (s : State D) : Z * Z * list (D * Z) :=
  (totalValidTransactions s, totalFalsePositives s, fprSamples s).

(** A rate computed as falsePositives / (validCount + falsePositives) with
    a positive divisor. *)
Definition rateComputed {DA : DoubleArith D} (sample : D * Z) : Prop :=
  0 < snd sample
  /\ exists falsePositives : Z,
       0 <= falsePositives <= snd sample
       /\ fst sample = ddiv (d_of_Z falsePositives) (d_of_Z (snd sample)).

Definition rated {DA : DoubleArith D} (s : State D) : Prop :=
  0 <= totalValidTransactions s
  /\ 0 <= totalFalsePositives s
  /\ Forall rateComputed (fprSamples s).

Definition isDataArrived (e : Event) : bool :=
  match e with DataArrived _ _ => true | _ => false end.

Definition isSendTimer (e : Event) : bool :=
  match e with SendTimer _ => true | _ => false end.

(** A vote of [sender] received at time [now]: the packet event and the
    message it decodes to. *)
Definition voteEvent (now txId : Z) (v : Z * bool) : Event :=
  DataArrived now (WConsensus 1 txId (fst v) (snd v) now).

Definition voteMessage (now txId : Z) (v : Z * bool) : ConsensusMessage :=
  {| msg_type := VOTE; transactionId := txId; senderId := fst v; vote := snd v;
     msg_semanticDigest := EmptyString; msg_timestamp := now |}.

(** The transaction counter after the timer events of a run, and the
    transaction packets these events send, for a node [nodeId] whose
    counter is [counter]. *)
Fixpoint counterAfter (counter : Z) (events : list Event) : Z :=
  match events with
  | [] => counter
  | SendTimer _ :: events' => counterAfter (wrap64 (counter + 1)) events'
  | DataArrived _ _ :: events' => counterAfter counter events'
  end.

Fixpoint sentBy (nodeId counter : Z) (events : list Event) : list (Z * Z * Z) :=
  match events with
  | [] => []
  | SendTimer now :: events' =>
      (transactionIdOf nodeId counter, nodeId, inUnitUS now)
      :: sentBy nodeId (wrap64 (counter + 1)) events'
  | DataArrived _ _ :: events' => sentBy nodeId counter events'
  end.

End Views.

Arguments durable : simpl never.
Arguments books : simpl never.
Arguments sentCounted : simpl never.
Arguments rates : simpl never.

(** A platform over the reals and conversions of simulation time on
    binary64, for evaluation. *)
Definition demoPlatformR : Platform R := {|
  hasher := fun _ => 0%N;
  conceptDist := fun _ => 0%R;
  corruptionDist := fun _ => 1%R;
  uniform := fun _ a b => ((a + b) / 2)%R;
  intuniform := fun _ a _ => a;
  unqualified_abs := abs_of_double
|}.

Definition float_to_ticks (f : float) : Z :=
  match SF_trunc (Prim2SF (PrimFloat.mul f 1e12)) with
  | Some z => z
  | None => 0
  end.

#[export] Instance demoSimTime : SimTimeOps float := {
  simtime_of_double := float_to_ticks;
  simtime_dbl := fun t => PrimFloat.div (float_of_Z t) 1e12
}.

(** A platform whose [uniform(a, b)] is (a + b) / 5: the position 4000
    between the first two RSUs. *)
Definition gapPlatform : Platform float := {|
  hasher := demoHash 7;
  conceptDist := fun _ => 0%float;
  corruptionDist := fun _ => 0.5%float;
  uniform := fun _ a b => PrimFloat.div (PrimFloat.add a b) 5;
  intuniform := fun _ a _ => a;
  unqualified_abs := abs_of_double
|}.

(** 1/32, for which 100 * threshold = 3.125: three votes are required. *)
Definition quorumThreshold : float := 0.03125%float.

Definition demoRSU (index : Z) (pbft : bool) : RSUApp.State float :=
  RSUApp.initialize 0 index pbft 1000%float.

(** ** Views of an RSU state *)

Section RSUViews.
Context {D : Type}.
Import RSUApp.

(** Identity, handover counters, outcomes and scheduled completions. *)
Definition handoverBooks (s : State D) : Z * Z * Z * list bool * list Z :=
  (rsuId s, totalHandovers s, successfulHandovers s, handoverOutcomes s, scheduled s).

(** Number of positive outcomes. *)
Definition successes (outcomes : list bool) : nat := count_occ bool_dec outcomes true.

(** Latency samples emitted so far. *)
Definition authSamples (s : State D) : list Z :=
  omap (fun x => match x with authLatency l => Some l | _ => None end) (signals s).

(** The handover counters agree with the outcomes emitted and with the
    completions scheduled. *)
Definition handoversAccounted (s : State D) : Prop :=
  totalHandovers s = Z.of_nat (length (handoverOutcomes s))
  /\ successfulHandovers s = Z.of_nat (successes (handoverOutcomes s))
  /\ length (scheduled s) = successes (handoverOutcomes s).

Definition handoverRequests (packets : list (Z * Wire)) : nat :=
  length (List.filter isHandover packets).

End RSUViews.

Arguments handoverBooks : simpl never.

(** Classes of binary64 values in their specification form: [SF_nonzero x]
    says that [x] is not a zero (a NaN is not a zero); [SF_large k x] that,
    in addition, if [x] is finite its leading digit is at position [k] or
    above, so that its magnitude is at least 2^(k-1). *)
Definition SF_nonzero (x : spec_float) : bool :=
  match x with S754_zero _ => false | _ => true end.

Definition SF_large (k : Z) (x : spec_float) : Prop :=
  match x with
  | S754_zero _ => False
  | S754_finite _ m e => k <= Z.pos (digits2_pos m) + e
  | _ => True
  end.

(** * Properties *)

(** Case analysis on a condition that contains no other condition. *)
Ltac split_if :=
  match goal with
  | |- context [if ?c then _ else _] =>
      match c with
      | context [if _ then _ else _] => fail 1
      | _ => destruct c
      end
  end.

(** Closes a decidable goal about concrete sets and maps by evaluating its
    decision procedure. *)
Ltac decide_by_evaluation :=
  refine (bool_decide_unpack _ _); vm_compute; exact I.

(** ** Machine integers *)

Lemma wrap64_small (z : Z) : 0 <= z < 2 ^ 64 -> wrap64 z = z.
Proof. intros Hz. unfold wrap64. apply Z.mod_small. exact Hz. Qed.

Lemma wrap_int_small (z : Z) : INT_MIN <= z <= INT_MAX -> wrap_int z = z.
Proof.
  unfold wrap_int, INT_MIN, INT_MAX. intros Hz.
  rewrite Z.mod_small; lia.
Qed.

Lemma int_of_size_small (n : nat) : Z.of_nat n <= INT_MAX -> int_of_size n = Z.of_nat n.
Proof.
  intros Hn. unfold int_of_size. apply wrap_int_small.
  unfold INT_MIN. split; [lia | exact Hn].
Qed.

(** ** Handover (VehicleApp) *)

Section VehicleProperties.
Import VehicleApp.

Lemma completeHandover_guard (now rsuId : Z) (success : bool) (s : State) :
  inHandover s = true -> rsuId = targetRSU s ->
  negb (inHandover s) || negb (rsuId =? targetRSU s) = false.
Proof.
  intros Hin Heq. rewrite Hin, Heq, Z.eqb_refl. reflexivity.
Qed.

(** C7: [completeHandover rsuId success] returns the state unchanged (so a
    vehicle in handover stays in handover with the same target) unless the
    vehicle is in handover and [rsuId] is the target of that handover.  For
    a matching response the handover context is cleared ([inHandover] false,
    [targetRSU] -1); on success [currentRSU] becomes the target, on failure
    [currentRSU] and the contact times keep their values.  Nothing else
    changes in either case. *)
Theorem completeHandover_spec (now rsuId : Z) (success : bool) (s : State) :
  (inHandover s = false \/ rsuId <> targetRSU s ->
   completeHandover now rsuId success s = s) /\
  (inHandover s = true -> rsuId = targetRSU s -> success = true ->
   completeHandover now rsuId success s =
     set_handover (targetRSU s) (-1) (<[targetRSU s := now]> (rsuContactTimes s)) false s
   /\ currentRSU (completeHandover now rsuId success s) = targetRSU s
   /\ inHandover (completeHandover now rsuId success s) = false
   /\ targetRSU (completeHandover now rsuId success s) = -1) /\
  (inHandover s = true -> rsuId = targetRSU s -> success = false ->
   completeHandover now rsuId success s =
     set_handover (currentRSU s) (-1) (rsuContactTimes s) false s
   /\ currentRSU (completeHandover now rsuId success s) = currentRSU s
   /\ inHandover (completeHandover now rsuId success s) = false
   /\ targetRSU (completeHandover now rsuId success s) = -1).
Proof.
  unfold completeHandover. split; [| split].
  - intros [Hout | Hne].
    + rewrite Hout. reflexivity.
    + destruct (Z.eqb_spec rsuId (targetRSU s)) as [Heq | _]; [contradiction |].
      rewrite orb_true_r. reflexivity.
  - intros Hin Heq Hs.
    rewrite (completeHandover_guard now rsuId success s Hin Heq), Hs.
    repeat split.
  - intros Hin Heq Hs.
    rewrite (completeHandover_guard now rsuId success s Hin Heq), Hs.
    repeat split.
Qed.

End VehicleProperties.

(** A vehicle on RSU 0, in handover to RSU 1: a response of RSU 3 is
    discarded, the success of RSU 1 moves the vehicle, its failure leaves
    it on RSU 0. *)
Lemma completeHandover_spec_witness :
  VehicleApp.completeHandover 5 3 true (demoVehicle 4 0 1 true) = demoVehicle 4 0 1 true
  /\ VehicleApp.currentRSU (VehicleApp.completeHandover 5 1 true (demoVehicle 4 0 1 true)) = 1
  /\ VehicleApp.currentRSU (VehicleApp.completeHandover 5 1 false (demoVehicle 4 0 1 true)) = 0.
Proof.
  split; [| split].
  - apply (completeHandover_spec 5 3 true (demoVehicle 4 0 1 true)).
    right. simpl. lia.
  - apply (completeHandover_spec 5 1 true (demoVehicle 4 0 1 true));
      reflexivity.
  - apply (completeHandover_spec 5 1 false (demoVehicle 4 0 1 true));
      reflexivity.
Defined.

(** ** Semantic digest and verification (CoCoChainApp) *)

Section DigestProperties.
Context {D : Type} {DA : DoubleArith D} {DIO : DoubleIO D} {P : Platform D}.
Import CoCoChainApp.

Lemma renderData_cons (val : D) (l : list D) :
  renderData (val :: l) = fixed6 val +:+ ";" +:+ renderData l.
Proof. reflexivity. Qed.

(** The accumulated text depends on the coordinates through their
    renderings only. *)
Lemma renderData_rendered (a b : list D) :
  map fixed6 a = map fixed6 b -> renderData a = renderData b.
Proof.
  revert b. induction a as [| x a IH]; intros [| y b] Hmap;
    try discriminate Hmap; [reflexivity |].
  injection Hmap as Hxy Hrest.
  rewrite !renderData_cons, Hxy, (IH b Hrest). reflexivity.
Qed.

(** C9: [computeSemanticDigest] is a function of the coordinate sequence
    as rendered with six fractional digits: two concept vectors whose
    coordinates render to the same texts, whatever their other fields and
    whatever the state of the node, have the same digest string. *)
Theorem computeSemanticDigest_deterministic (a b : ConceptVector D) :
  map fixed6 (data a) = map fixed6 (data b) ->
  computeSemanticDigest a = computeSemanticDigest b.
Proof.
  intros Hmap. unfold computeSemanticDigest.
  rewrite (renderData_rendered _ _ Hmap). reflexivity.
Qed.

Lemma computeSemanticDigest_data (a b : ConceptVector D) :
  data a = data b -> computeSemanticDigest a = computeSemanticDigest b.
Proof.
  intros Heq. apply computeSemanticDigest_deterministic. rewrite Heq. reflexivity.
Qed.

(** C2, as the code has it: with semantic verification disabled by
    configuration, [verifySemanticIntegrity] returns true at once for every
    transaction, without reading the transaction or changing the state. *)
Theorem verifySemanticIntegrity_disabled (now : Z) (tx : Transaction D) (s : State D) :
  semanticVerification (params s) = false ->
  verifySemanticIntegrity now tx s = (true, s).
Proof.
  intros Hoff. unfold verifySemanticIntegrity. rewrite Hoff. reflexivity.
Qed.

End DigestProperties.

(** Two different coordinate sequences with the same six-digit rendering:
    0.5 and 0.5 * (1 + 2^-30). *)
Lemma computeSemanticDigest_deterministic_witness :
  PrimFloat.eqb 0.5 0x1.00000004p-1 = false
  /\ map fixed6 [0.5%float; 0.25%float] = map fixed6 [0x1.00000004p-1%float; 0.25%float]
  /\ CoCoChainApp.computeSemanticDigest (demoVector [0.5%float; 0.25%float])
     = CoCoChainApp.computeSemanticDigest (demoVector [0x1.00000004p-1%float; 0.25%float]).
Proof.
  assert (Hmap : map fixed6 [0.5%float; 0.25%float]
                 = map fixed6 [0x1.00000004p-1%float; 0.25%float])
    by (vm_compute; reflexivity).
  split; [vm_compute; reflexivity |].
  split; [exact Hmap |].
  apply (computeSemanticDigest_deterministic
           (demoVector [0.5%float; 0.25%float])
           (demoVector [0x1.00000004p-1%float; 0.25%float])).
  exact Hmap.
Defined.

Example renderData_example :
  CoCoChainApp.renderData [0x1.00000004p-1%float; (-62.5)%float] = "0.500000;-62.500000;".
Proof. vm_compute. reflexivity. Qed.

Lemma verifySemanticIntegrity_disabled_witness :
  CoCoChainApp.semanticVerification
    (CoCoChainApp.params (CoCoChainApp.initialize (demoParams 1 defaultThreshold false))) = false
  /\ CoCoChainApp.verifySemanticIntegrity 0 (demoTransaction [0.5%float] "bad")
       (CoCoChainApp.initialize (demoParams 1 defaultThreshold false))
     = (true, CoCoChainApp.initialize (demoParams 1 defaultThreshold false)).
Proof.
  split; [reflexivity |].
  apply (verifySemanticIntegrity_disabled 0 (demoTransaction [0.5%float] "bad")
           (CoCoChainApp.initialize (demoParams 1 defaultThreshold false))).
  reflexivity.
Defined.

(** C2 as stated fails: verification is disabled and the result, for a
    transaction whose digest does not even match, is not false. *)
Lemma verifySemanticIntegrity_disabled_not_false :
  CoCoChainApp.semanticVerification
    (CoCoChainApp.params (CoCoChainApp.initialize (demoParams 1 defaultThreshold false))) = false
  /\ fst (CoCoChainApp.verifySemanticIntegrity 0 (demoTransaction [0.5%float] "bad")
            (CoCoChainApp.initialize (demoParams 1 defaultThreshold false))) <> false.
Proof.
  split; [reflexivity |].
  vm_compute. discriminate.
Qed.

(** With verification enabled the same transaction is refused. *)
Example verifySemanticIntegrity_enabled_example :
  fst (CoCoChainApp.verifySemanticIntegrity 0 (demoTransaction [0.5%float] "bad")
         (CoCoChainApp.initialize (demoParams 1 defaultThreshold true))) = false.
Proof. vm_compute. reflexivity. Qed.

(** ** Votes and quorum (CoCoChainApp) *)

Section ConsensusProperties.
Context {D : Type} {DA : DoubleArith D} {DIO : DoubleIO D} {P : Platform D}.
Import CoCoChainApp.

Lemma countPositive_from (votes : list ConsensusMessage) (n : Z) :
  fold_left (fun n v => if vote v then n + 1 else n) votes n
  = n + Z.of_nat (length (List.filter vote votes)).
Proof.
  revert n. induction votes as [| v votes IH]; intros n; simpl.
  - lia.
  - rewrite IH. destruct (vote v); simpl; lia.
Qed.

(** The loop counts the accepting votes of the list. *)
Lemma countPositive_filter (votes : list ConsensusMessage) :
  countPositive votes = Z.of_nat (length (List.filter vote votes)).
Proof. unfold countPositive. rewrite countPositive_from. lia. Qed.

Lemma finalizeTransaction_confirmed (now txId : Z) (s : State D) :
  confirmedTransactions (finalizeTransaction now txId s)
  = confirmedTransactions s ∪ {[txId]}.
Proof.
  unfold finalizeTransaction. case_bool_decide as Hin.
  - rewrite (union_comm_L (confirmedTransactions s) {[txId]}).
    symmetry. apply subseteq_union_1_L. apply singleton_subseteq_l. exact Hin.
  - simpl. destruct (transactionStartTimes s !! txId); reflexivity.
Qed.

(** A first finalization leaves no entry for the id in the three maps. *)
Lemma finalizeTransaction_clears (now txId : Z) (s : State D) :
  txId ∉ confirmedTransactions s ->
  pendingTransactions (finalizeTransaction now txId s) !! txId = None
  /\ consensusVotes (finalizeTransaction now txId s) !! txId = None
  /\ transactionStartTimes (finalizeTransaction now txId s) !! txId = None.
Proof.
  intros Hnew. unfold finalizeTransaction.
  rewrite bool_decide_eq_false_2 by exact Hnew. simpl.
  destruct (transactionStartTimes s !! txId) as [started |] eqn:Hstart; simpl;
    rewrite !lookup_delete_eq; auto.
Qed.

Lemma votesOf_stored (txId : Z) (votes : list ConsensusMessage) (s : State D) :
  votesOf (set_consensusVotes <[txId := votes]> s) txId = votes.
Proof. unfold votesOf. simpl. rewrite lookup_insert_eq. reflexivity. Qed.

(** The three outcomes of a VOTE message, [r] being the required number
    of votes. *)
Lemma processConsensusMessage_cases (now : Z) (msg : ConsensusMessage) (s : State D) (r : Z) :
  msg_type msg = VOTE ->
  requiredVotes (params s) = Some r ->
  let txId := transactionId msg in
  let votes := votesOf s txId ++ [msg] in
  let stored := set_consensusVotes <[txId := votes]> s in
  processConsensusMessage now msg s
  = Some (if r <=? int_of_size (length votes) then
            if r <=? countPositive votes then finalizeTransaction now txId stored
            else set_consensusVotes (delete txId)
                   (set_pendingTransactions (delete txId) stored)
          else stored).
Proof.
  intros Hvote Hreq txId votes stored.
  unfold processConsensusMessage. rewrite Hvote. simpl negb. cbv iota.
  fold txId. fold votes. fold stored.
  replace (params stored) with (params s) by reflexivity. rewrite Hreq.
  repeat split_if; reflexivity.
Qed.

(** C1, as the code has it.  For a VOTE message, with [r] the product
    100 * bftThreshold truncated to an [int], [total] the size of the vote
    list after the message is appended and [accepts] its number of
    accepting votes: the message is stored; if [r <= total] and
    [r <= accepts] the transaction is finalized; if [r <= total] and
    [accepts < r] it is rejected, that is removed from the pending map and
    from the vote map, the confirmed set staying as it was; otherwise
    nothing else happens.  For an id not yet confirmed, the id is confirmed
    afterwards exactly when [r <= total] and [r <= accepts]. *)
Theorem processConsensusMessage_quorum (now : Z) (msg : ConsensusMessage) (s : State D) (r : Z) :
  msg_type msg = VOTE ->
  requiredVotes (params s) = Some r ->
  let txId := transactionId msg in
  let votes := votesOf s txId ++ [msg] in
  let stored := set_consensusVotes <[txId := votes]> s in
  let total := int_of_size (length votes) in
  let accepts := countPositive votes in
  exists s',
    processConsensusMessage now msg s = Some s'
    /\ (r <= total /\ r <= accepts -> s' = finalizeTransaction now txId stored)
    /\ (r <= total /\ accepts < r ->
        s' = set_consensusVotes (delete txId) (set_pendingTransactions (delete txId) stored)
        /\ pendingTransactions s' !! txId = None
        /\ consensusVotes s' !! txId = None
        /\ confirmedTransactions s' = confirmedTransactions s)
    /\ (total < r -> s' = stored)
    /\ (txId ∉ confirmedTransactions s ->
        (txId ∈ confirmedTransactions s' <-> r <= total /\ r <= accepts)).
Proof.
  intros Hvote Hreq txId votes stored total accepts.
  rewrite (processConsensusMessage_cases now msg s r Hvote Hreq).
  fold txId. fold votes. fold stored. fold total. fold accepts.
  eexists. split; [reflexivity |].
  destruct (Z.leb_spec r total) as [Htot | Htot];
    [destruct (Z.leb_spec r accepts) as [Hacc | Hacc] |].
  - split; [reflexivity |]. split; [lia |]. split; [lia |].
    intros _. rewrite finalizeTransaction_confirmed. split; [lia |].
    intros _. apply elem_of_union_r, elem_of_singleton. reflexivity.
  - split; [lia |]. split.
    + intros _. simpl. rewrite !lookup_delete_eq. auto.
    + split; [lia |]. intros Hnew. simpl. split; [contradiction | lia].
  - split; [lia |]. split; [lia |]. split; [reflexivity |].
    intros Hnew. simpl. split; [contradiction | lia].
Qed.

(** C3, as the code has it.  Votes are appended without looking at the
    voter id: as long as the list stays below the required number of votes,
    processing a VOTE message makes the transaction's vote list one longer,
    whether or not the list already holds a vote of the same sender. *)
Theorem processConsensusMessage_appends (now : Z) (msg : ConsensusMessage) (s : State D) (r : Z) :
  msg_type msg = VOTE ->
  requiredVotes (params s) = Some r ->
  int_of_size (length (votesOf s (transactionId msg) ++ [msg])) < r ->
  exists s',
    processConsensusMessage now msg s = Some s'
    /\ votesOf s' (transactionId msg) = votesOf s (transactionId msg) ++ [msg]
    /\ length (votesOf s' (transactionId msg))
       = S (length (votesOf s (transactionId msg))).
Proof.
  intros Hvote Hreq Hlow.
  rewrite (processConsensusMessage_cases now msg s r Hvote Hreq).
  destruct (Z.leb_spec r (int_of_size (length (votesOf s (transactionId msg) ++ [msg]))))
    as [Hge | _]; [lia |].
  eexists. split; [reflexivity |]. rewrite votesOf_stored.
  split; [reflexivity |]. rewrite length_app. simpl. lia.
Qed.

(** Rejection does not touch the start-time map. *)
Lemma processConsensusMessage_reject_keeps_start (now : Z) (msg : ConsensusMessage)
    (s : State D) (r : Z) :
  msg_type msg = VOTE ->
  requiredVotes (params s) = Some r ->
  r <= int_of_size (length (votesOf s (transactionId msg) ++ [msg])) ->
  countPositive (votesOf s (transactionId msg) ++ [msg]) < r ->
  exists s',
    processConsensusMessage now msg s = Some s'
    /\ transactionStartTimes s' = transactionStartTimes s.
Proof.
  intros Hvote Hreq Htot Hacc.
  rewrite (processConsensusMessage_cases now msg s r Hvote Hreq).
  destruct (Z.leb_spec r (int_of_size (length (votesOf s (transactionId msg) ++ [msg]))))
    as [_ | Hlt]; [| lia].
  destruct (Z.leb_spec r (countPositive (votesOf s (transactionId msg) ++ [msg])))
    as [Hge | _]; [lia |].
  eexists. split; reflexivity.
Qed.

(** The guard of [updateFalsePositiveRate] tests a sum that is not the
    divisor: with no valid transaction and no false positive counted, one
    detected malformed transaction lets the division 0 / 0 through. *)
Lemma updateFalsePositiveRate_guard_mismatch (wasValid : bool) (s : State D) :
  totalValidTransactions s = 0 ->
  totalFalsePositives s = 0 ->
  0 < totalMalformedDetected s ->
  signals (updateFalsePositiveRate wasValid false s)
  = signals s ++ [falsePositiveRate (ddiv (d_of_Z 0) (d_of_Z 0)) 0].
Proof.
  intros Hvalid Hfp Hmal. unfold updateFalsePositiveRate.
  rewrite andb_false_r, Hvalid, Hfp.
  destruct (Z.ltb_spec 0 (0 + totalMalformedDetected s)) as [_ | Hle]; [| lia].
  reflexivity.
Qed.

(** [finish] tests the divisor itself. *)
Lemma finish_guarded (s : State D) :
  totalValidTransactions s + totalFalsePositives s <= 0 ->
  length (finish s) = 5%nat.
Proof.
  intros Hzero. unfold finish.
  destruct (Z.ltb_spec 0 (totalValidTransactions s + totalFalsePositives s));
    [lia | reflexivity].
Qed.

Lemma finish_final_fpr (s : State D) :
  0 < totalValidTransactions s + totalFalsePositives s ->
  last (finish s)
  = Some ("Final FPR",
          ddiv (d_of_Z (totalFalsePositives s))
               (d_of_Z (totalValidTransactions s + totalFalsePositives s))).
Proof.
  intros Hpos. unfold finish.
  destruct (Z.ltb_spec 0 (totalValidTransactions s + totalFalsePositives s));
    [reflexivity | lia].
Qed.

End ConsensusProperties.

(** *** Evaluation on concrete nodes *)


Example requiredVotes_default :
  CoCoChainApp.requiredVotes (demoParams 1 defaultThreshold true) = Some 67.
Proof. vm_compute. reflexivity. Qed.

(** The conversion truncates. *)
Example requiredVotes_truncates :
  CoCoChainApp.requiredVotes (demoParams 1 0.625%float true) = Some 62
  /\ requiredVotesCeil (demoParams 1 0.625%float true) = Some 63
  /\ CoCoChainApp.requiredVotes (demoParams 1 1%float true) = Some 100.
Proof. repeat split; vm_compute; reflexivity. Qed.

(** With bftThreshold = 1/64 the product is 1.5625: the code requires one
    vote, rounding up would require two. *)
Example requiredVotes_small :
  CoCoChainApp.requiredVotes (demoParams 1 smallThreshold true) = Some 1
  /\ requiredVotesCeil (demoParams 1 smallThreshold true) = Some 2.
Proof. split; vm_compute; reflexivity. Qed.

(** C1 as stated fails: with bftThreshold = 1/64 the required number of
    votes read as ceil(100 * bftThreshold) is 2, and the first accepting
    vote, which makes a total of one stored vote, already finalizes the
    transaction: it is confirmed although the total is below that number. *)
Lemma processConsensusMessage_not_ceil :
  exists r s',
    requiredVotesCeil (CoCoChainApp.params (demoNode 1 smallThreshold)) = Some r
    /\ CoCoChainApp.processConsensusMessage 0 (demoVote 7 5 true) (demoNode 1 smallThreshold)
       = Some s'
    /\ (7 ∉ CoCoChainApp.confirmedTransactions (demoNode 1 smallThreshold))
    /\ 7 ∈ CoCoChainApp.confirmedTransactions s'
    /\ ~ (r <= int_of_size (length (CoCoChainApp.votesOf (demoNode 1 smallThreshold) 7
                                    ++ [demoVote 7 5 true]))).
Proof.
  exists 2. eexists.
  split; [vm_compute; reflexivity |].
  split; [vm_compute; reflexivity |].
  split; [decide_by_evaluation |].
  split; [decide_by_evaluation |].
  vm_compute. intros Hle. apply Hle. reflexivity.
Qed.

Lemma processConsensusMessage_quorum_witness :
  CoCoChainApp.msg_type (demoVote 7 5 true) = CoCoChainApp.VOTE
  /\ CoCoChainApp.requiredVotes (CoCoChainApp.params (demoNode 1 smallThreshold)) = Some 1
  /\ exists s',
       CoCoChainApp.processConsensusMessage 0 (demoVote 7 5 true) (demoNode 1 smallThreshold)
       = Some s'
       /\ (7 ∉ CoCoChainApp.confirmedTransactions (demoNode 1 smallThreshold) ->
           7 ∈ CoCoChainApp.confirmedTransactions s').
Proof.
  split; [reflexivity |].
  assert (Hreq : CoCoChainApp.requiredVotes (CoCoChainApp.params (demoNode 1 smallThreshold))
                 = Some 1) by (vm_compute; reflexivity).
  split; [exact Hreq |].
  destruct (processConsensusMessage_quorum 0 (demoVote 7 5 true)
              (demoNode 1 smallThreshold) 1 eq_refl Hreq)
    as (s' & Hrun & _ & _ & _ & Hiff).
  exists s'. split; [exact Hrun |].
  intros Hnew. apply (Hiff Hnew). split; vm_compute; discriminate.
Defined.

(** C3 as stated fails: the same voter 5 votes twice for transaction 7;
    the vote list has one entry after the first message and two after the
    second. *)
Lemma processConsensusMessage_duplicate_counted :
  exists s1 s2,
    CoCoChainApp.processConsensusMessage 0 (demoVote 7 5 true) (demoNode 1 defaultThreshold)
    = Some s1
    /\ CoCoChainApp.processConsensusMessage 1 (demoVote 7 5 true) s1 = Some s2
    /\ length (CoCoChainApp.votesOf s1 7) = 1%nat
    /\ length (CoCoChainApp.votesOf s2 7) = 2%nat
    /\ map CoCoChainApp.senderId (CoCoChainApp.votesOf s2 7) = [5; 5].
Proof.
  eexists. eexists.
  split; [vm_compute; reflexivity |].
  split; [vm_compute; reflexivity |].
  split; [vm_compute; reflexivity |].
  split; vm_compute; reflexivity.
Qed.

Lemma processConsensusMessage_appends_witness :
  CoCoChainApp.msg_type (demoVote 7 5 true) = CoCoChainApp.VOTE
  /\ CoCoChainApp.requiredVotes (CoCoChainApp.params (demoNode 1 defaultThreshold)) = Some 67
  /\ int_of_size (length (CoCoChainApp.votesOf (demoNode 1 defaultThreshold) 7
                          ++ [demoVote 7 5 true])) < 67
  /\ exists s',
       CoCoChainApp.processConsensusMessage 0 (demoVote 7 5 true) (demoNode 1 defaultThreshold)
       = Some s'
       /\ length (CoCoChainApp.votesOf s' 7)
          = S (length (CoCoChainApp.votesOf (demoNode 1 defaultThreshold) 7)).
Proof.
  split; [reflexivity |].
  assert (Hreq : CoCoChainApp.requiredVotes (CoCoChainApp.params (demoNode 1 defaultThreshold))
                 = Some 67) by (vm_compute; reflexivity).
  split; [exact Hreq |].
  assert (Hlow : int_of_size (length (CoCoChainApp.votesOf (demoNode 1 defaultThreshold) 7
                                      ++ [demoVote 7 5 true])) < 67)
    by (vm_compute; reflexivity).
  split; [exact Hlow |].
  destruct (processConsensusMessage_appends 0 (demoVote 7 5 true)
              (demoNode 1 defaultThreshold) 67 eq_refl Hreq Hlow)
    as (s' & Hrun & _ & Hlen).
  exists s'. split; [exact Hrun | exact Hlen].
Defined.

(** C5, at a failing input.  Node 1 sends its first transaction at time 0
    (id 1000001, start time recorded) and, with one required vote, receives
    a rejecting vote for it: the transaction is rejected, its entries in
    the pending and vote maps are gone, and its entry in the start-time map
    is still there. *)
Theorem reject_leaves_start_time :
  exists s',
    CoCoChainApp.run
      [CoCoChainApp.SendTimer 0;
       CoCoChainApp.DataArrived 5 (CoCoChainApp.WConsensus 1 1000001 2 false 5)]
      (demoNode 1 smallThreshold) = Some s'
    /\ CoCoChainApp.pendingTransactions s' !! 1000001 = None
    /\ CoCoChainApp.consensusVotes s' !! 1000001 = None
    /\ CoCoChainApp.confirmedTransactions s' = ∅
    /\ CoCoChainApp.transactionStartTimes s' !! 1000001 = Some 0.
Proof.
  eexists. split; [vm_compute; reflexivity |].
  repeat split; vm_compute; reflexivity.
Qed.

(** The sibling path: the same node receiving an accepting vote finalizes
    the transaction and drops all three entries. *)
Example finalize_drops_start_time :
  exists s',
    CoCoChainApp.run
      [CoCoChainApp.SendTimer 0;
       CoCoChainApp.DataArrived 5 (CoCoChainApp.WConsensus 1 1000001 2 true 5)]
      (demoNode 1 smallThreshold) = Some s'
    /\ CoCoChainApp.pendingTransactions s' !! 1000001 = None
    /\ CoCoChainApp.consensusVotes s' !! 1000001 = None
    /\ CoCoChainApp.transactionStartTimes s' !! 1000001 = None
    /\ CoCoChainApp.latencySamples s' = [1000001].
Proof.
  eexists. split; [vm_compute; reflexivity |].
  repeat split; vm_compute; reflexivity.
Qed.

(** The guard of [updateFalsePositiveRate] at a state of the counters that
    no run from the initial state reaches: no valid transaction, no false
    positive, one detected malformed transaction (built here by giving
    [processCocoChainConsensus] a transaction flagged as corrupted, which
    [socketDataArrived] never does).  The guard passes, the divisor is 0
    and the sample is 0.0 / 0.0, a NaN. *)
Example updateFalsePositiveRate_divides_by_zero :
  let s := snd (CoCoChainApp.processCocoChainConsensus 0 demoCorruptedTransaction
                  (demoNode 1 defaultThreshold)) in
  (CoCoChainApp.totalValidTransactions s, CoCoChainApp.totalFalsePositives s,
   CoCoChainApp.totalMalformedDetected s) = (0, 0, 1)
  /\ CoCoChainApp.signals (CoCoChainApp.updateFalsePositiveRate false false s)
     = CoCoChainApp.signals s ++ [CoCoChainApp.falsePositiveRate (PrimFloat.div 0 0) 0]
  /\ PrimFloat.is_nan (PrimFloat.div 0 0) = true.
Proof.
  split; [vm_compute; reflexivity |].
  split; vm_compute; reflexivity.
Qed.

(** C8, at a failing input.  Node 1, having sent 1000000 transactions, and
    node 2, sending its first one, both produce the id 2000001; so do
    vehicles 1 and 2 with the same counters. *)
Theorem transaction_ids_collide :
  CoCoChainApp.sent
    (CoCoChainApp.sendTransaction 0
       (CoCoChainApp.set_transactionCounter 1000000 (demoNode 1 defaultThreshold)))
  = [CoCoChainApp.TransactionPacket 2000001 1 0]
  /\ CoCoChainApp.sent (CoCoChainApp.sendTransaction 0 (demoNode 2 defaultThreshold))
     = [CoCoChainApp.TransactionPacket 2000001 2 0]
  /\ last (VehicleApp.sent
             (VehicleApp.sendTransaction 0
                (VehicleApp.set_transactions 1000000 ∅ (demoVehicle 1 2 (-1) false))))
     = Some (VehicleApp.TransactionPacket 2000001 1 0 2)
  /\ last (VehicleApp.sent (VehicleApp.sendTransaction 0 (demoVehicle 2 2 (-1) false)))
     = Some (VehicleApp.TransactionPacket 2000001 2 0 2).
Proof.
  repeat split; vm_compute; reflexivity.
Qed.

(** ** Transaction identifiers *)

(** X1: one node never repeats an id: two values of its 64-bit counter give
    two ids. *)
Lemma transactionIdOf_same_node (nodeId c1 c2 : Z) :
  0 <= c1 < 2 ^ 64 -> 0 <= c2 < 2 ^ 64 -> c1 <> c2 ->
  CoCoChainApp.transactionIdOf nodeId c1 <> CoCoChainApp.transactionIdOf nodeId c2.
Proof.
  intros H1 H2 Hne. unfold CoCoChainApp.transactionIdOf, wrap64.
  change (2 ^ 64) with 18446744073709551616 in *.
  intros Heq. apply Hne. clear Hne.
  Z.div_mod_to_equations. lia.
Qed.

(** X2: the encoding nodeId * 1000000 + counter separates two nodes as long as
    their counters stay below 999999 and the node ids below 2^44. *)
Lemma transactionIdOf_bounded_injective (n1 n2 c1 c2 : Z) :
  0 <= n1 < 2 ^ 44 -> 0 <= n2 < 2 ^ 44 ->
  0 <= c1 < 999999 -> 0 <= c2 < 999999 ->
  CoCoChainApp.transactionIdOf n1 c1 = CoCoChainApp.transactionIdOf n2 c2 ->
  n1 = n2 /\ c1 = c2.
Proof.
  intros Hn1 Hn2 Hc1 Hc2. unfold CoCoChainApp.transactionIdOf.
  change (2 ^ 44) with 17592186044416 in *.
  rewrite (wrap64_small (c1 + 1)), (wrap64_small (c2 + 1)),
    (wrap64_small n1), (wrap64_small n2),
    (wrap64_small (n1 * 1000000)), (wrap64_small (n2 * 1000000)),
    (wrap64_small (c1 + 1 + n1 * 1000000)), (wrap64_small (c2 + 1 + n2 * 1000000));
    change (2 ^ 64) with 18446744073709551616; lia.
Qed.

(** ** Cosine similarity (CoCoChainApp) *)

Section CosineGeneric.
Context {D : Type} {DA : DoubleArith D}.
Import CoCoChainApp.

(** Vectors of different sizes: the early return. *)
Lemma calculateCosineSimilarity_size_mismatch (a b : list D) :
  length a <> length b -> calculateCosineSimilarity a b = d_of_Z 0.
Proof.
  intros Hne. unfold calculateCosineSimilarity.
  destruct (Nat.eqb_spec (length a) (length b)) as [Heq | _]; [contradiction |].
  reflexivity.
Qed.

(** A squared norm that compares equal to 0.0: the guard before the
    division. *)
Lemma calculateCosineSimilarity_zero_norm (a b : list D) :
  deqb (snd (fst (cosineSums a b))) (d_of_Z 0) = true
  \/ deqb (snd (cosineSums a b)) (d_of_Z 0) = true ->
  calculateCosineSimilarity a b = d_of_Z 0.
Proof.
  intros Hzero. unfold calculateCosineSimilarity.
  destruct (negb (length a =? length b)%nat); [reflexivity |].
  destruct (cosineSums a b) as [[dotProduct normA] normB]. simpl in Hzero.
  destruct Hzero as [-> | ->]; [reflexivity | rewrite orb_true_r; reflexivity].
Qed.

(** Otherwise the result is the quotient by [cosineDivisor]. *)
Lemma calculateCosineSimilarity_quotient (a b : list D) :
  length a = length b ->
  deqb (snd (fst (cosineSums a b))) (d_of_Z 0) = false ->
  deqb (snd (cosineSums a b)) (d_of_Z 0) = false ->
  calculateCosineSimilarity a b = ddiv (fst (fst (cosineSums a b))) (cosineDivisor a b).
Proof.
  intros Hlen HA HB. unfold calculateCosineSimilarity, cosineDivisor.
  rewrite Hlen, Nat.eqb_refl. simpl negb. cbv iota.
  destruct (cosineSums a b) as [[dotProduct normA] normB]. simpl in *.
  rewrite HA, HB. reflexivity.
Qed.

End CosineGeneric.

(** *** Binary64: rounding never produces a zero from a value above the
    smallest subnormal *)

Section Binary64.

Lemma digits2_pos_bounds (m : positive) :
  2 ^ (Z.pos (digits2_pos m) - 1) <= Z.pos m < 2 ^ Z.pos (digits2_pos m).
Proof.
  induction m as [m IH | m IH |]; simpl digits2_pos.
  - rewrite Pos2Z.inj_succ. change (Z.pos m~1) with (2 * Z.pos m + 1).
    replace (Z.succ (Z.pos (digits2_pos m)) - 1) with (Z.succ (Z.pos (digits2_pos m) - 1))
      by lia.
    rewrite !Z.pow_succ_r by lia. destruct IH as [Hl Hu]. revert Hl Hu.
    generalize (2 ^ (Z.pos (digits2_pos m) - 1)) (2 ^ Z.pos (digits2_pos m)).
    intros a b Hl Hu. lia.
  - rewrite Pos2Z.inj_succ. change (Z.pos m~0) with (2 * Z.pos m).
    replace (Z.succ (Z.pos (digits2_pos m)) - 1) with (Z.succ (Z.pos (digits2_pos m) - 1))
      by lia.
    rewrite !Z.pow_succ_r by lia. destruct IH as [Hl Hu]. revert Hl Hu.
    generalize (2 ^ (Z.pos (digits2_pos m) - 1)) (2 ^ Z.pos (digits2_pos m)).
    intros a b Hl Hu. lia.
  - simpl. lia.
Qed.

Lemma digits2_pos_lower (m : positive) (j : Z) :
  Z.pos m < 2 ^ j -> Z.pos (digits2_pos m) <= j.
Proof.
  intros Hlt. destruct (digits2_pos_bounds m) as [Hlow _].
  destruct (Z_le_gt_dec (Z.pos (digits2_pos m)) j) as [Hle | Hgt]; [exact Hle | exfalso].
  destruct (Z_lt_le_dec j 0) as [Hneg | Hnn].
  - rewrite Z.pow_neg_r in Hlt by exact Hneg. lia.
  - assert (2 ^ j <= 2 ^ (Z.pos (digits2_pos m) - 1)) by (apply Z.pow_le_mono_r; lia).
    lia.
Qed.

Lemma digits2_pos_upper (m : positive) (j : Z) :
  2 ^ j <= Z.pos m -> j < Z.pos (digits2_pos m).
Proof.
  intros Hle. destruct (digits2_pos_bounds m) as [_ Hup].
  destruct (Z_lt_le_dec j (Z.pos (digits2_pos m))) as [Hlt | Hge]; [exact Hlt | exfalso].
  assert (2 ^ Z.pos (digits2_pos m) <= 2 ^ j) by (apply Z.pow_le_mono_r; lia).
  lia.
Qed.

Lemma shr_1_m (mrs : shr_record) :
  0 <= shr_m mrs -> shr_m (shr_1 mrs) = shr_m mrs / 2.
Proof.
  destruct mrs as [m r s]. simpl shr_m. intros Hm. rewrite <- Z.div2_div.
  destruct m as [| p | p]; [reflexivity | | lia].
  destruct p; reflexivity.
Qed.

Lemma iter_shr_1_m (p : positive) (mrs : shr_record) :
  0 <= shr_m mrs ->
  shr_m (SpecFloat.iter_pos shr_1 p mrs) = shr_m mrs / 2 ^ Z.pos p.
Proof.
  revert mrs. induction p as [p IH | p IH |]; intros mrs Hm; simpl SpecFloat.iter_pos.
  - assert (H1 : 0 <= shr_m (shr_1 mrs)) by (rewrite shr_1_m by exact Hm; apply Z.div_pos; lia).
    assert (H2 : 0 <= shr_m (SpecFloat.iter_pos shr_1 p (shr_1 mrs)))
      by (rewrite IH by exact H1; apply Z.div_pos; [exact H1 | apply Z.pow_pos_nonneg; lia]).
    rewrite (IH _ H2), (IH _ H1), (shr_1_m _ Hm).
    rewrite !Z.div_div by (try apply Z.pow_pos_nonneg; lia).
    f_equal. replace (Z.pos p~1) with (1 + Z.pos p + Z.pos p) by lia.
    rewrite !Z.pow_add_r by lia. change (2 ^ 1) with 2. lia.
  - assert (H1 : 0 <= shr_m (SpecFloat.iter_pos shr_1 p mrs))
      by (rewrite IH by exact Hm; apply Z.div_pos; [exact Hm | apply Z.pow_pos_nonneg; lia]).
    rewrite (IH _ H1), (IH _ Hm).
    rewrite !Z.div_div by (try apply Z.pow_pos_nonneg; lia).
    f_equal. replace (Z.pos p~0) with (Z.pos p + Z.pos p) by lia.
    rewrite !Z.pow_add_r by lia. reflexivity.
  - rewrite shr_1_m by exact Hm. reflexivity.
Qed.

(** Shifting right by fewer places than the mantissa has digits keeps the
    position of the leading digit. *)
Lemma shr_keeps_magnitude (mrs : shr_record) (m : positive) (e n : Z) :
  shr_m mrs = Z.pos m ->
  n < Z.pos (digits2_pos m) ->
  exists m' : positive,
    shr_m (fst (shr mrs e n)) = Z.pos m'
    /\ Z.pos (digits2_pos m') + snd (shr mrs e n) = Z.pos (digits2_pos m) + e.
Proof.
  intros Hm Hn. unfold shr. destruct n as [| p | p]; simpl fst; simpl snd;
    try (exists m; split; [exact Hm | reflexivity]).
  rewrite iter_shr_1_m by (rewrite Hm; lia). rewrite Hm.
  destruct (digits2_pos_bounds m) as [Hlow Hup].
  set (d := Z.pos (digits2_pos m)) in *.
  assert (Hpow : 0 < 2 ^ Z.pos p) by (apply Z.pow_pos_nonneg; lia).
  assert (Hq1 : 2 ^ (d - 1 - Z.pos p) <= Z.pos m / 2 ^ Z.pos p).
  { apply Z.div_le_lower_bound; [exact Hpow |].
    rewrite <- Z.pow_add_r by lia. replace (Z.pos p + (d - 1 - Z.pos p)) with (d - 1) by lia.
    exact Hlow. }
  assert (Hq2 : Z.pos m / 2 ^ Z.pos p < 2 ^ (d - Z.pos p)).
  { apply Z.div_lt_upper_bound; [exact Hpow |].
    rewrite <- Z.pow_add_r by lia. replace (Z.pos p + (d - Z.pos p)) with d by lia.
    exact Hup. }
  assert (Hpos : 0 < 2 ^ (d - 1 - Z.pos p)) by (apply Z.pow_pos_nonneg; lia).
  destruct (Z.pos m / 2 ^ Z.pos p) as [| q | q] eqn:Hq; [lia | | lia].
  exists q. split; [reflexivity |].
  pose proof (digits2_pos_lower q _ Hq2). pose proof (digits2_pos_upper q _ Hq1). lia.
Qed.

Lemma shr_record_of_loc_m (m : Z) (l : location) : shr_m (shr_record_of_loc m l) = m.
Proof. destruct l as [| []]; reflexivity. Qed.

Lemma shr_fexp_keeps_magnitude (m : positive) (e : Z) (l : location) :
  -1074 < Z.pos (digits2_pos m) + e ->
  exists m' : positive,
    shr_m (fst (shr_fexp prec emax (Z.pos m) e l)) = Z.pos m'
    /\ Z.pos (digits2_pos m') + snd (shr_fexp prec emax (Z.pos m) e l)
       = Z.pos (digits2_pos m) + e.
Proof.
  intros Hk. unfold shr_fexp. apply shr_keeps_magnitude.
  - apply shr_record_of_loc_m.
  - unfold Zdigits2, fexp, SpecFloat.emin, prec, emax. lia.
Qed.

Lemma round_nearest_even_cases (m : Z) (l : location) :
  round_nearest_even m l = m \/ round_nearest_even m l = m + 1.
Proof.
  destruct l as [| []]; simpl; auto. destruct (Z.even m); auto.
Qed.

Lemma digits2_pos_succ (m m' : positive) :
  Z.pos m' = Z.pos m + 1 -> Z.pos (digits2_pos m) <= Z.pos (digits2_pos m').
Proof.
  intros Hs. destruct (digits2_pos_bounds m) as [Hlow _].
  assert (H : Z.pos (digits2_pos m) - 1 < Z.pos (digits2_pos m'))
    by (apply digits2_pos_upper; lia).
  lia.
Qed.

(** Rounding a positive mantissa whose leading digit is above the smallest
    subnormal never gives a zero, and never lowers the leading digit. *)
Lemma binary_round_aux_large (s : bool) (m : positive) (e : Z) (l : location) :
  -1074 < Z.pos (digits2_pos m) + e ->
  SF_large (Z.pos (digits2_pos m) + e) (binary_round_aux prec emax s (Z.pos m) e l).
Proof.
  intros Hk. unfold binary_round_aux.
  destruct (shr_fexp_keeps_magnitude m e l Hk) as (m1 & Hm1 & Hk1).
  destruct (shr_fexp prec emax (Z.pos m) e l) as [mrs1 e1]. simpl fst in *. simpl snd in *.
  assert (Hr : exists m2 : positive,
             round_nearest_even (shr_m mrs1) (loc_of_shr_record mrs1) = Z.pos m2
             /\ Z.pos (digits2_pos m1) <= Z.pos (digits2_pos m2)).
  { rewrite Hm1.
    destruct (round_nearest_even_cases (Z.pos m1) (loc_of_shr_record mrs1)) as [-> | ->].
    - exists m1. split; [reflexivity | lia].
    - exists (m1 + 1)%positive. split; [lia | apply digits2_pos_succ; lia]. }
  destruct Hr as (m2 & -> & Hd2).
  destruct (shr_fexp_keeps_magnitude m2 e1 loc_Exact) as (m3 & Hm3 & Hk3); [lia |].
  destruct (shr_fexp prec emax (Z.pos m2) e1 loc_Exact) as [mrs3 e3].
  simpl fst in *. simpl snd in *. rewrite Hm3.
  destruct (e3 <=? emax - prec); simpl; [lia | exact I].
Qed.

Lemma valid_binary_exponent (s : bool) (m : positive) (e : Z) :
  valid_binary (S754_finite s m e) = true -> -1074 <= e.
Proof.
  unfold SpecFloat.valid_binary, bounded, canonical_mantissa. intros Hv.
  apply andb_prop in Hv. destruct Hv as [Hc _]. apply Z.eqb_eq in Hc.
  unfold fexp, SpecFloat.emin, prec, emax in Hc. lia.
Qed.

(** The square root of a float that is not a zero is a NaN, an infinity or
    a float of magnitude at least 2^-537. *)
Lemma SFsqrt_large (x : spec_float) :
  valid_binary x = true -> SF_nonzero x = true -> SF_large (-536) (SF64sqrt x).
Proof.
  intros Hv Hnz. destruct x as [s | s | | s m e]; try discriminate Hnz.
  - destruct s; exact I.
  - exact I.
  - destruct s; [exact I |].
    pose proof (valid_binary_exponent _ _ _ Hv) as He.
    unfold SF64sqrt, SFsqrt, SFsqrt_core_binary.
    set (d := Zdigits2 (Z.pos m)).
    set (e' := Z.min (fexp prec emax (Z.div2 (d + e + 1))) (Z.div2 e)).
    assert (He' : 2 * e' <= e).
    { pose proof (Z.div2_odd e) as Hodd. unfold e'. destruct (Z.odd e); simpl in Hodd; lia. }
    set (sft := e - 2 * e').
    set (m' := match sft with Z.pos _ => Z.shiftl (Z.pos m) sft | 0 => Z.pos m | Z.neg _ => 0 end).
    assert (Hm' : m' = Z.pos m * 2 ^ sft).
    { unfold m'. destruct sft as [| p | p] eqn:Hs; [simpl; lia | | lia].
      rewrite Z.shiftl_mul_pow2 by lia. reflexivity. }
    assert (Hsft : 0 <= sft) by (unfold sft; lia).
    assert (Hm'pos : 0 < m') by (rewrite Hm'; apply Z.mul_pos_pos; [lia | apply Z.pow_pos_nonneg; lia]).
    pose proof (Z.sqrtrem_spec m' ltac:(lia)) as Hsq.
    destruct (Z.sqrtrem m') as [q r]. destruct Hsq as [Hsq Hr].
    assert (Hq : 0 < q) by nia.
    destruct q as [| q | q]; [lia | | lia].
    set (dq := Z.pos (digits2_pos q)).
    assert (Hk : -536 <= dq + e').
    { destruct (digits2_pos_bounds q) as [_ Hup]. fold dq in Hup.
      destruct (digits2_pos_bounds m) as [Hlow _].
      assert (Hd : d = Z.pos (digits2_pos m)) by reflexivity. rewrite <- Hd in Hlow.
      assert (H1 : 2 ^ (d - 1 + sft) <= m').
      { rewrite Hm', Z.pow_add_r by lia. apply Z.mul_le_mono_nonneg_r; [| exact Hlow].
        apply Z.pow_nonneg. lia. }
      assert (H2 : m' < 2 ^ (dq + dq)).
      { rewrite Z.pow_add_r by (unfold dq; lia). nia. }
      assert (H3 : d - 1 + sft < dq + dq).
      { apply (Z.pow_lt_mono_r_iff 2); [lia | unfold dq; lia | lia]. }
      unfold sft in H3. unfold d in H3. simpl Zdigits2 in H3. lia. }
    match goal with
    | |- SF_large _ (binary_round_aux _ _ _ _ _ ?l) =>
        pose proof (binary_round_aux_large false q e' l ltac:(fold dq; lia)) as Hbig
    end.
    fold dq in Hbig.
    destruct (binary_round_aux prec emax false (Z.pos q) e' _) as [s1 | s1 | | s1 m1 e1];
      simpl in *; try exact I; try contradiction; lia.
Qed.

(** The product of two such values is not a zero. *)
Lemma SFmul_large_nonzero (x y : spec_float) :
  SF_large (-536) x -> SF_large (-536) y -> SF_nonzero (SF64mul x y) = true.
Proof.
  intros Hx Hy. destruct x as [sx | sx | | sx mx ex]; destruct y as [sy | sy | | sy my ey];
    simpl in Hx, Hy; try contradiction; try reflexivity.
  unfold SF64mul, SFmul.
  destruct (digits2_pos_bounds mx) as [Hlx _]. destruct (digits2_pos_bounds my) as [Hly _].
  set (dx := Z.pos (digits2_pos mx)) in *. set (dy := Z.pos (digits2_pos my)) in *.
  assert (Hprod : 2 ^ (dx + dy - 2) <= Z.pos (mx * my)).
  { replace (dx + dy - 2) with ((dx - 1) + (dy - 1)) by lia.
    rewrite Z.pow_add_r by (unfold dx, dy; lia). rewrite Pos2Z.inj_mul.
    apply Z.mul_le_mono_nonneg; try assumption; apply Z.pow_nonneg; lia. }
  pose proof (digits2_pos_upper _ _ Hprod) as Hd.
  pose proof (binary_round_aux_large (xorb sx sy) (mx * my) (ex + ey) loc_Exact ltac:(lia))
    as Hbig.
  destruct (binary_round_aux prec emax (xorb sx sy) (Z.pos (mx * my)) (ex + ey) loc_Exact);
    simpl in *; try reflexivity. contradiction.
Qed.

Lemma eqb_zero_spec (x : float) :
  PrimFloat.eqb x 0 = negb (SF_nonzero (Prim2SF x)).
Proof.
  rewrite FloatAxioms.eqb_spec. change (Prim2SF 0) with (S754_zero false).
  destruct (Prim2SF x) as [s | s | | s m e]; try reflexivity; destruct s; reflexivity.
Qed.

(** On binary64: if neither squared norm compares equal to 0.0, the
    divisor sqrt(normA) * sqrt(normB) does not either. *)
Lemma float_divisor_nonzero (normA normB : float) :
  PrimFloat.eqb normA 0 = false ->
  PrimFloat.eqb normB 0 = false ->
  PrimFloat.eqb (PrimFloat.mul (PrimFloat.sqrt normA) (PrimFloat.sqrt normB)) 0 = false.
Proof.
  rewrite !eqb_zero_spec, FloatAxioms.mul_spec, !FloatAxioms.sqrt_spec. intros HA HB.
  apply negb_false_iff in HA, HB. apply negb_false_iff.
  apply SFmul_large_nonzero; apply SFsqrt_large; try assumption; apply Prim2SF_valid.
Qed.

End Binary64.

Section CosineBinary64.
Import CoCoChainApp.

(** C10: [calculateCosineSimilarity] is a total function and its division
    is guarded, on binary64 doubles.  For every pair of vectors of doubles:
    if the sizes differ, or if one of the accumulated squared norms
    compares equal to 0.0, the result is 0.0 and no division takes place;
    otherwise the divisor sqrt(normA) * sqrt(normB) does not compare equal
    to 0.0 (whatever rounding, underflow, infinities or NaNs occurred) and
    the result is the dot product divided by it. *)
Theorem calculateCosineSimilarity_guarded (a b : list float) :
  (length a <> length b -> calculateCosineSimilarity a b = 0%float)
  /\ (PrimFloat.eqb (snd (fst (cosineSums a b))) 0 = true
      \/ PrimFloat.eqb (snd (cosineSums a b)) 0 = true ->
      calculateCosineSimilarity a b = 0%float)
  /\ (length a = length b ->
      PrimFloat.eqb (snd (fst (cosineSums a b))) 0 = false ->
      PrimFloat.eqb (snd (cosineSums a b)) 0 = false ->
      PrimFloat.eqb (cosineDivisor a b) 0 = false
      /\ calculateCosineSimilarity a b
         = PrimFloat.div (fst (fst (cosineSums a b))) (cosineDivisor a b)).
Proof.
  split; [| split].
  - exact (calculateCosineSimilarity_size_mismatch a b).
  - exact (calculateCosineSimilarity_zero_norm a b).
  - intros Hlen HA HB. split.
    + unfold cosineDivisor.
      destruct (cosineSums a b) as [[dotProduct normA] normB]. simpl in HA, HB.
      exact (float_divisor_nonzero normA normB HA HB).
    + exact (calculateCosineSimilarity_quotient a b Hlen HA HB).
Qed.

(** The vectors (3, 4) and (4, 3), and the zero vector. *)
Lemma calculateCosineSimilarity_guarded_witness :
  length [3; 4]%float = length [4; 3]%float
  /\ PrimFloat.eqb (snd (fst (cosineSums [3; 4]%float [4; 3]%float))) 0 = false
  /\ PrimFloat.eqb (snd (cosineSums [3; 4]%float [4; 3]%float)) 0 = false
  /\ PrimFloat.eqb (cosineDivisor [3; 4]%float [4; 3]%float) 0 = false
  /\ calculateCosineSimilarity [3; 4]%float [0; 0]%float = 0%float.
Proof.
  assert (HA : PrimFloat.eqb (snd (fst (cosineSums [3; 4]%float [4; 3]%float))) 0 = false)
    by (vm_compute; reflexivity).
  assert (HB : PrimFloat.eqb (snd (cosineSums [3; 4]%float [4; 3]%float)) 0 = false)
    by (vm_compute; reflexivity).
  split; [reflexivity |]. split; [exact HA |]. split; [exact HB |]. split.
  - destruct (calculateCosineSimilarity_guarded [3; 4]%float [4; 3]%float)
      as (_ & _ & Hdiv).
    destruct (Hdiv eq_refl HA HB) as [Hnz _]. exact Hnz.
  - destruct (calculateCosineSimilarity_guarded [3; 4]%float [0; 0]%float)
      as (_ & Hzero & _).
    apply Hzero. right. vm_compute. reflexivity.
Defined.

End CosineBinary64.

(** On binary64 floats: orthogonal vectors, a zero vector, vectors of
    different sizes, and the smallest squared norms a double can hold
    (2^-1074, from the coordinate 2^-537), for which the divisor is still
    not zero. *)
Example calculateCosineSimilarity_float_examples :
  CoCoChainApp.calculateCosineSimilarity [1; 0]%float [0; 1]%float = 0%float
  /\ CoCoChainApp.calculateCosineSimilarity [0; 0]%float [0; 1]%float = 0%float
  /\ CoCoChainApp.calculateCosineSimilarity [1]%float [1; 1]%float = 0%float
  /\ CoCoChainApp.calculateCosineSimilarity [3; 4]%float [3; 4]%float = 1%float
  /\ PrimFloat.eqb (CoCoChainApp.cosineDivisor [0x1p-537%float] [0x1p-537%float]) 0 = false.
Proof. repeat split; vm_compute; reflexivity. Qed.

(** ** Finalization and metrics across a run (CoCoChainApp) *)

Section RunProperties.
Context {D : Type} {DA : DoubleArith D} {DIO : DoubleIO D} {P : Platform D}.
Import CoCoChainApp.

Lemma latencySamples_emit (x : Signal D) (s : State D) :
  latencySamples (emit x s)
  = latencySamples s ++ match x with endToEndLatency txId _ => [txId] | _ => [] end.
Proof.
  unfold latencySamples, emit. simpl. rewrite omap_app. simpl.
  destruct x; reflexivity.
Qed.

Lemma fprDivisors_emit (x : Signal D) (s : State D) :
  fprDivisors (emit x s)
  = fprDivisors s ++ match x with falsePositiveRate _ divisor => [divisor] | _ => [] end.
Proof.
  unfold fprDivisors, emit. simpl. rewrite omap_app. simpl.
  destruct x; reflexivity.
Qed.

Lemma core_emit (x : Signal D) (s : State D) :
  (forall txId latency, x <> endToEndLatency txId latency) ->
  core (emit x s) = core s.
Proof.
  intros Hx. unfold core. rewrite latencySamples_emit.
  destruct x as [txId latency | | | |]; simpl; rewrite ?app_nil_r; try reflexivity.
  exfalso. apply (Hx txId latency). reflexivity.
Qed.

Lemma ledger_emit (x : Signal D) (s : State D) :
  plainSignal x = true -> ledger (emit x s) = ledger s.
Proof.
  intros Hx. unfold ledger. rewrite fprDivisors_emit, core_emit.
  - destruct x; try discriminate Hx; simpl; rewrite app_nil_r; reflexivity.
  - intros txId latency ->. discriminate Hx.
Qed.

Lemma ledger_core (s s' : State D) : ledger s' = ledger s -> core s' = core s.
Proof. intros Heq. exact (f_equal fst Heq). Qed.

Lemma core_params (s s' : State D) : core s' = core s -> params s' = params s.
Proof. intros Heq. exact (f_equal (fun c => fst (fst c)) Heq). Qed.

(** *** Functions that leave the ledger alone *)

Lemma ledger_generateConceptVector (now : Z) (s : State D) :
  ledger (snd (generateConceptVector now s)) = ledger s.
Proof. reflexivity. Qed.

Lemma ledger_corruptConceptVector (cv : ConceptVector D) (s : State D) :
  ledger (snd (corruptConceptVector cv s)) = ledger s.
Proof. reflexivity. Qed.

Lemma ledger_manipulateTopKVector (cv : ConceptVector D) (s : State D) :
  ledger (snd (manipulateTopKVector cv s)) = ledger s.
Proof.
  unfold manipulateTopKVector. simpl.
  destruct (max_element (data cv)) as [imax |]; [| reflexivity].
  destruct (noiseLoop _ _ _ _) as [noisy k']. reflexivity.
Qed.

Lemma ledger_injectMalformedVector (cv : ConceptVector D) (s : State D) :
  ledger (snd (injectMalformedVector cv s)) = ledger s.
Proof.
  unfold injectMalformedVector, corruptConceptVector.
  repeat case_match; simplify_eq; simpl;
    rewrite ?ledger_manipulateTopKVector; reflexivity.
Qed.

Lemma ledger_verifySemanticIntegrity (now : Z) (tx : Transaction D) (s : State D) :
  ledger (snd (verifySemanticIntegrity now tx s)) = ledger s.
Proof.
  unfold verifySemanticIntegrity, generateConceptVector.
  repeat (split_if; simpl); reflexivity.
Qed.

Lemma ledger_updateThroughputMetrics (now : Z) (s : State D) :
  ledger (updateThroughputMetrics now s) = ledger s.
Proof.
  unfold updateThroughputMetrics. case_match; [| reflexivity].
  change (ledger (emit (throughput (totalThroughput s)) s) = ledger s).
  apply ledger_emit. reflexivity.
Qed.

Lemma ledger_processPbftConsensus (tx : Transaction D) (s : State D) :
  ledger (snd (processPbftConsensus tx s)) = ledger s.
Proof. reflexivity. Qed.

Lemma ledger_sendTransaction (now : Z) (s : State D) :
  ledger (sendTransaction now s) = ledger s.
Proof.
  unfold sendTransaction, generateConceptVector.
  match goal with
  | |- context [injectMalformedVector ?cv ?s1] =>
      pose proof (ledger_injectMalformedVector cv s1) as Hi;
      destruct (injectMalformedVector cv s1) as [cv' s2]
  end.
  simpl in Hi.
  repeat (split_if; simpl);
    (etransitivity; [apply ledger_updateThroughputMetrics |]);
    first [ reflexivity
          | transitivity (ledger s2); [reflexivity | rewrite Hi; reflexivity] ].
Qed.

Lemma ledger_startConsensus (now : Z) (tx : Transaction D) (s : State D) :
  ledger (startConsensus now tx s) = ledger s.
Proof.
  unfold startConsensus.
  pose proof (ledger_verifySemanticIntegrity now tx s) as Hv.
  destruct (verifySemanticIntegrity now tx s) as [v s1]. simpl in Hv.
  rewrite <- Hv. reflexivity.
Qed.

Lemma ledger_scheduleNextMessage (s : State D) :
  ledger (scheduleNextMessage s) = ledger s.
Proof. reflexivity. Qed.

(** *** Functions that update the false-positive metrics *)

Lemma core_updateFalsePositiveRate (wasValid wasRejected : bool) (s : State D) :
  core (updateFalsePositiveRate wasValid wasRejected s) = core s.
Proof.
  unfold updateFalsePositiveRate.
  repeat split_if; try reflexivity;
    (etransitivity; [apply core_emit; discriminate | reflexivity]).
Qed.

Lemma core_processCocoChainConsensus (now : Z) (tx : Transaction D) (s : State D) :
  core (snd (processCocoChainConsensus now tx s)) = core s.
Proof.
  unfold processCocoChainConsensus.
  pose proof (ledger_core _ _ (ledger_verifySemanticIntegrity now tx s)) as Hv.
  destruct (verifySemanticIntegrity now tx s) as [ok s1]. simpl in Hv.
  unfold generateConceptVector.
  repeat (split_if; simpl);
    rewrite ?core_updateFalsePositiveRate;
    rewrite ?core_emit by discriminate;
    rewrite <- Hv; reflexivity.
Qed.

Lemma core_processReceivedTransaction (now : Z) (tx : Transaction D) (s : State D) :
  core (processReceivedTransaction now tx s) = core s.
Proof.
  unfold processReceivedTransaction.
  pose proof (core_processCocoChainConsensus now tx s) as Hc.
  destruct (processCocoChainConsensus now tx s) as [cocoChainResult s1]. simpl in Hc.
  repeat (split_if; simpl);
    rewrite ?(ledger_core _ _ (ledger_startConsensus _ _ _));
    try (rewrite <- Hc; reflexivity); reflexivity.
Qed.

(** *** The accounting invariant *)

Lemma accounted_core (s s' : State D) :
  core s' = core s -> accounted s -> accounted s'.
Proof.
  unfold core, accounted. intros Heq Hacc.
  injection Heq as _ Hconf Hsamples. rewrite Hconf, Hsamples. exact Hacc.
Qed.

Lemma accounted_ledger (s s' : State D) :
  ledger s' = ledger s -> accounted s -> accounted s'.
Proof. intros Heq. apply accounted_core, ledger_core, Heq. Qed.

Lemma ledger_params (s s' : State D) : ledger s' = ledger s -> params s' = params s.
Proof. intros Heq. apply core_params, ledger_core, Heq. Qed.

Lemma accounted_initialize (p : Params D) : accounted (initialize p).
Proof.
  split.
  - apply NoDup_nil_2.
  - intros txId Hin. apply elem_of_nil in Hin. contradiction.
Qed.

Lemma finalizeTransaction_noop (now txId : Z) (s : State D) :
  txId ∈ confirmedTransactions s -> finalizeTransaction now txId s = s.
Proof.
  intros Hin. unfold finalizeTransaction.
  rewrite bool_decide_eq_true_2 by exact Hin. reflexivity.
Qed.

Lemma finalizeTransaction_twice (now now' txId : Z) (s : State D) :
  finalizeTransaction now' txId (finalizeTransaction now txId s)
  = finalizeTransaction now txId s.
Proof.
  apply finalizeTransaction_noop. rewrite finalizeTransaction_confirmed.
  apply elem_of_union_r, elem_of_singleton. reflexivity.
Qed.

Lemma params_finalizeTransaction (now txId : Z) (s : State D) :
  params (finalizeTransaction now txId s) = params s.
Proof.
  unfold finalizeTransaction.
  destruct (bool_decide (txId ∈ confirmedTransactions s)); [reflexivity |].
  simpl. destruct (transactionStartTimes s !! txId); reflexivity.
Qed.

(** A first finalization emits at most the sample of its own id. *)
Lemma latencySamples_finalizeTransaction (now txId : Z) (s : State D) :
  txId ∉ confirmedTransactions s ->
  latencySamples (finalizeTransaction now txId s) = latencySamples s
  \/ latencySamples (finalizeTransaction now txId s) = latencySamples s ++ [txId].
Proof.
  intros Hnew. unfold finalizeTransaction.
  rewrite bool_decide_eq_false_2 by exact Hnew. simpl.
  destruct (transactionStartTimes s !! txId) as [started |]; [right | left].
  - unfold latencySamples. simpl. rewrite omap_app. reflexivity.
  - reflexivity.
Qed.

Lemma accounted_finalizeTransaction (now txId : Z) (s : State D) :
  accounted s -> accounted (finalizeTransaction now txId s).
Proof.
  intros [Hnodup Hconf].
  destruct (decide (txId ∈ confirmedTransactions s)) as [Hin | Hnew].
  - rewrite (finalizeTransaction_noop now txId s Hin). split; assumption.
  - unfold accounted. rewrite finalizeTransaction_confirmed.
    destruct (latencySamples_finalizeTransaction now txId s Hnew) as [-> | ->].
    + split; [exact Hnodup |].
      intros x Hx. apply elem_of_union_l. apply Hconf. exact Hx.
    + split.
      * apply NoDup_app. split; [exact Hnodup |]. split.
        -- intros x Hx Hx'. apply list_elem_of_singleton in Hx'. subst x.
           apply Hnew. apply Hconf. exact Hx.
        -- apply NoDup_singleton.
      * intros x Hx. apply elem_of_app in Hx. destruct Hx as [Hx | Hx].
        -- apply elem_of_union_l. apply Hconf. exact Hx.
        -- apply list_elem_of_singleton in Hx. subst x.
           apply elem_of_union_r, elem_of_singleton. reflexivity.
Qed.

Lemma processConsensusMessage_accounted (now : Z) (msg : ConsensusMessage)
    (s : State D) (r : Z) :
  requiredVotes (params s) = Some r ->
  accounted s ->
  exists s',
    processConsensusMessage now msg s = Some s'
    /\ accounted s' /\ params s' = params s.
Proof.
  intros Hreq Hacc. unfold processConsensusMessage.
  destruct (negb (is_VOTE (msg_type msg))).
  - exists s. auto.
  - set (stored := set_consensusVotes _ s).
    assert (Hstored : accounted stored)
      by (apply (accounted_ledger s stored); [reflexivity | exact Hacc]).
    replace (params stored) with (params s) by reflexivity. rewrite Hreq.
    repeat split_if; eexists; (split; [reflexivity |]).
    + split; [apply accounted_finalizeTransaction; exact Hstored |].
      rewrite params_finalizeTransaction. reflexivity.
    + split; [| reflexivity].
      apply (accounted_ledger s); [reflexivity | exact Hacc].
    + split; [exact Hstored | reflexivity].
Qed.

Lemma handle_accounted (e : Event) (s : State D) (r : Z) :
  requiredVotes (params s) = Some r ->
  accounted s ->
  exists s', handle e s = Some s' /\ accounted s' /\ params s' = params s.
Proof.
  intros Hreq Hacc. destruct e as [now | now w]; simpl.
  - eexists. split; [reflexivity |].
    assert (Hl : ledger (scheduleNextMessage (sendTransaction now s)) = ledger s)
      by (rewrite ledger_scheduleNextMessage; apply ledger_sendTransaction).
    split; [exact (accounted_ledger _ _ Hl Hacc) | exact (ledger_params _ _ Hl)].
  - unfold socketDataArrived.
    set (s0 := emit (consensusOverhead 1) _).
    assert (Hl0 : ledger s0 = ledger s)
      by (unfold s0; rewrite ledger_emit by reflexivity; reflexivity).
    destruct w as [id orig ts | type txId sender v ts |].
    + simpl. eexists. split; [reflexivity |].
      match goal with
      | |- accounted ?s1 /\ _ =>
          assert (Hl : core s1 = core s)
            by (rewrite core_processReceivedTransaction; exact (ledger_core _ _ Hl0))
      end.
      split; [exact (accounted_core _ _ Hl Hacc) | exact (core_params _ _ Hl)].
    + destruct (processConsensusMessage_accounted now
                  {| msg_type := type_of_int type; transactionId := txId;
                     senderId := sender; vote := v; msg_semanticDigest := EmptyString;
                     msg_timestamp := ts |} s0 r)
        as (s' & Hrun & Hacc' & Hp').
      * rewrite (ledger_params _ _ Hl0). exact Hreq.
      * exact (accounted_ledger _ _ Hl0 Hacc).
      * exists s'. split; [exact Hrun |]. split; [exact Hacc' |].
        rewrite Hp'. exact (ledger_params _ _ Hl0).
    + exists s0. split; [reflexivity |].
      split; [exact (accounted_ledger _ _ Hl0 Hacc) | exact (ledger_params _ _ Hl0)].
Qed.

(** With a defined vote threshold every run goes through, and keeps the
    invariant. *)
Lemma run_accounted (events : list Event) (s : State D) (r : Z) :
  requiredVotes (params s) = Some r ->
  accounted s ->
  exists s', run events s = Some s' /\ accounted s'.
Proof.
  revert s. induction events as [| e events IH]; intros s Hreq Hacc; simpl.
  - exists s. auto.
  - destruct (handle_accounted e s r Hreq Hacc) as (s1 & -> & Hacc1 & Hp1).
    apply IH; [rewrite Hp1; exact Hreq | exact Hacc1].
Qed.

(** C4: [finalizeTransaction] is idempotent.  On an id that is already
    confirmed it returns the state as it is: confirmed set, pending map,
    vote map, start times and emitted samples are unchanged, so no latency
    sample is added; hence a second call right after a first one changes
    nothing.  Across a whole run of a node (any sequence of timer and
    packet events from the initial state, the vote threshold being
    defined) the run completes and every transaction id has at most one
    end-to-end latency sample. *)
Theorem finalizeTransaction_idempotent :
  (forall (now txId : Z) (s : State D),
      txId ∈ confirmedTransactions s -> finalizeTransaction now txId s = s)
  /\ (forall (now now' txId : Z) (s : State D),
        finalizeTransaction now' txId (finalizeTransaction now txId s)
        = finalizeTransaction now txId s)
  /\ (forall (p : Params D) (r : Z) (events : list Event),
        requiredVotes p = Some r ->
        exists s,
          run events (initialize p) = Some s
          /\ forall txId, (count_occ Z.eq_dec (latencySamples s) txId <= 1)%nat).
Proof.
  split; [exact finalizeTransaction_noop |].
  split; [exact finalizeTransaction_twice |].
  intros p r events Hreq.
  destruct (run_accounted events (initialize p) r Hreq (accounted_initialize p))
    as (s & Hrun & Hnodup & _).
  exists s. split; [exact Hrun |].
  apply NoDup_count_occ, NoDup_ListNoDup. exact Hnodup.
Qed.

(** *** The invariant of the false-positive rate *)

Lemma guarded_same (s s' : State D) :
  totalValidTransactions s' = totalValidTransactions s ->
  totalFalsePositives s' = totalFalsePositives s ->
  fprDivisors s' = fprDivisors s ->
  guarded s -> guarded s'.
Proof. unfold guarded. intros -> -> ->. auto. Qed.

Lemma guarded_ledger (s s' : State D) :
  ledger s' = ledger s -> guarded s -> guarded s'.
Proof.
  intros Heq. pose proof (f_equal snd Heq) as Hm. unfold ledger in Hm. simpl in Hm.
  injection Hm as Hv Hf Hd. apply guarded_same; assumption.
Qed.

Lemma guarded_initialize (p : Params D) : guarded (initialize p).
Proof.
  unfold guarded. simpl. split; [lia |]. split; [lia |]. apply Forall_nil_2.
Qed.

(** A call is safe as soon as the divisor, after the increment the call
    may make itself, is positive. *)
Lemma guarded_updateFalsePositiveRate (wasValid wasRejected : bool) (s : State D) :
  guarded s ->
  0 < totalValidTransactions s + totalFalsePositives s
      + (if wasValid && wasRejected then 1 else 0) ->
  guarded (updateFalsePositiveRate wasValid wasRejected s).
Proof.
  intros (Hv & Hf & Hd) Hpos. unfold updateFalsePositiveRate.
  destruct (wasValid && wasRejected); simpl;
    match goal with |- context [if ?c then _ else _] => destruct c end;
    unfold guarded; rewrite ?fprDivisors_emit; simpl;
    (split; [lia |]); (split; [lia |]);
    try exact Hd;
    (apply Forall_app; split; [exact Hd |]);
    apply Forall_singleton; lia.
Qed.

Lemma guarded_processCocoChainConsensus (now : Z) (tx : Transaction D) (s : State D) :
  guarded s -> guarded (snd (processCocoChainConsensus now tx s)).
Proof.
  intros Hg. unfold processCocoChainConsensus.
  pose proof (guarded_ledger _ _ (ledger_verifySemanticIntegrity now tx s) Hg) as Hg1.
  destruct (verifySemanticIntegrity now tx s) as [ok s1]. simpl in Hg1.
  pose proof Hg1 as (Hv1 & Hf1 & Hd1).
  unfold generateConceptVector.
  repeat (split_if; simpl);
    lazymatch goal with
    | |- guarded (updateFalsePositiveRate _ _ _) =>
        apply guarded_updateFalsePositiveRate;
        [ unfold guarded; simpl; (split; [lia |]); (split; [lia | exact Hd1])
        | simpl; lia ]
    | |- guarded (emit _ _) =>
        apply (guarded_same s1);
        [ reflexivity | reflexivity
        | rewrite fprDivisors_emit; simpl; rewrite app_nil_r; reflexivity
        | exact Hg1 ]
    | |- _ => apply (guarded_same s1); [reflexivity | reflexivity | reflexivity | exact Hg1]
    end.
Qed.

Lemma guarded_processReceivedTransaction (now : Z) (tx : Transaction D) (s : State D) :
  guarded s -> guarded (processReceivedTransaction now tx s).
Proof.
  intros Hg. unfold processReceivedTransaction.
  pose proof (guarded_processCocoChainConsensus now tx s Hg) as Hc.
  destruct (processCocoChainConsensus now tx s) as [cocoChainResult s1]. simpl in Hc.
  repeat (split_if; simpl);
    lazymatch goal with
    | |- guarded (startConsensus _ _ _) =>
        apply (guarded_ledger _ _ (ledger_startConsensus _ _ _));
        apply (guarded_same s1); [reflexivity | reflexivity | reflexivity | exact Hc]
    | |- guarded s => exact Hg
    | |- _ => apply (guarded_same s1); [reflexivity | reflexivity | reflexivity | exact Hc]
    end.
Qed.

Lemma guarded_finalizeTransaction (now txId : Z) (s : State D) :
  guarded s -> guarded (finalizeTransaction now txId s).
Proof.
  intros Hg. unfold finalizeTransaction.
  destruct (bool_decide (txId ∈ confirmedTransactions s)); [exact Hg |].
  simpl. destruct (transactionStartTimes s !! txId) as [started |]; simpl;
    apply (guarded_same s); try reflexivity; try exact Hg.
  unfold fprDivisors. simpl. rewrite omap_app. simpl. apply app_nil_r.
Qed.

Lemma guarded_processConsensusMessage (now : Z) (msg : ConsensusMessage)
    (s s' : State D) :
  processConsensusMessage now msg s = Some s' -> guarded s -> guarded s'.
Proof.
  unfold processConsensusMessage. intros Hrun Hg.
  destruct (negb (is_VOTE (msg_type msg))); [injection Hrun as <-; exact Hg |].
  destruct (requiredVotes _) as [required |]; [| discriminate Hrun].
  revert Hrun. repeat split_if; intros Hrun; injection Hrun as <-.
  - apply guarded_finalizeTransaction.
    apply (guarded_same s); [reflexivity | reflexivity | reflexivity | exact Hg].
  - apply (guarded_same s); [reflexivity | reflexivity | reflexivity | exact Hg].
  - apply (guarded_same s); [reflexivity | reflexivity | reflexivity | exact Hg].
Qed.

Lemma guarded_handle (e : Event) (s s' : State D) :
  handle e s = Some s' -> guarded s -> guarded s'.
Proof.
  intros Hrun Hg. destruct e as [now | now w]; simpl in Hrun.
  - injection Hrun as <-.
    apply (guarded_ledger _ _ (ledger_scheduleNextMessage _)).
    apply (guarded_ledger _ _ (ledger_sendTransaction _ _)). exact Hg.
  - unfold socketDataArrived in Hrun.
    set (s0 := emit (consensusOverhead 1) _) in Hrun.
    assert (Hg0 : guarded s0).
    { apply (guarded_ledger s); [| exact Hg].
      unfold s0. rewrite ledger_emit by reflexivity. reflexivity. }
    destruct w as [id orig ts | type txId sender v ts |].
    + simpl in Hrun. injection Hrun as <-.
      apply guarded_processReceivedTransaction.
      apply (guarded_same s0); [reflexivity | reflexivity | reflexivity | exact Hg0].
    + exact (guarded_processConsensusMessage _ _ _ _ Hrun Hg0).
    + injection Hrun as <-. exact Hg0.
Qed.

(** Along a run from the initial state no false-positive rate is computed
    with a divisor of 0: each call of [updateFalsePositiveRate] follows an
    increment of one of the two counters of the divisor. *)
Lemma run_guarded (events : list Event) (s s' : State D) :
  run events s = Some s' -> guarded s -> guarded s'.
Proof.
  revert s. induction events as [| e events IH]; intros s Hrun Hg; simpl in Hrun.
  - injection Hrun as <-. exact Hg.
  - destruct (handle e s) as [s1 |] eqn:He; [| discriminate Hrun].
    apply (IH s1 Hrun). exact (guarded_handle e s s1 He Hg).
Qed.

(** X3: the divisor of the false-positive rate along runs.  Along every
    run from the initial state of a node, every false-positive rate emitted
    was computed with a positive divisor: the division by zero that
    [updateFalsePositiveRate] allows is not reached from the entry
    points. *)
Lemma run_fprDivisors_positive (p : Params D) (events : list Event) (s : State D) :
  run events (initialize p) = Some s ->
  Forall (fun divisor => 0 < divisor) (fprDivisors s).
Proof.
  intros Hrun.
  destruct (run_guarded events (initialize p) s Hrun (guarded_initialize p))
    as (_ & _ & Hd).
  exact Hd.
Qed.

End RunProperties.

(** Node 1 sends a transaction and receives three accepting votes for it,
    one vote being enough: one latency sample. *)
Lemma finalizeTransaction_idempotent_witness :
  CoCoChainApp.requiredVotes (demoParams 1 smallThreshold true) = Some 1
  /\ exists s,
       CoCoChainApp.run
         [CoCoChainApp.SendTimer 0;
          CoCoChainApp.DataArrived 5 (CoCoChainApp.WConsensus 1 1000001 2 true 5);
          CoCoChainApp.DataArrived 6 (CoCoChainApp.WConsensus 1 1000001 3 true 6);
          CoCoChainApp.DataArrived 7 (CoCoChainApp.WConsensus 1 1000001 4 true 7)]
         (CoCoChainApp.initialize (demoParams 1 smallThreshold true)) = Some s
       /\ forall txId, (count_occ Z.eq_dec (CoCoChainApp.latencySamples s) txId <= 1)%nat.
Proof.
  assert (Hreq : CoCoChainApp.requiredVotes (demoParams 1 smallThreshold true) = Some 1)
    by (vm_compute; reflexivity).
  split; [exact Hreq |].
  destruct (finalizeTransaction_idempotent (D:=float)) as (_ & _ & Hrun).
  exact (Hrun (demoParams 1 smallThreshold true) 1 _ Hreq).
Defined.

Example finalize_once_example :
  exists s,
    CoCoChainApp.run
      [CoCoChainApp.SendTimer 0;
       CoCoChainApp.DataArrived 5 (CoCoChainApp.WConsensus 1 1000001 2 true 5);
       CoCoChainApp.DataArrived 6 (CoCoChainApp.WConsensus 1 1000001 3 true 6);
       CoCoChainApp.DataArrived 7 (CoCoChainApp.WConsensus 1 1000001 4 true 7)]
      (CoCoChainApp.initialize (demoParams 1 smallThreshold true)) = Some s
    /\ CoCoChainApp.latencySamples s = [1000001]
    /\ length (CoCoChainApp.votesOf s 1000001) = 2%nat.
Proof.
  eexists. split; [vm_compute; reflexivity |].
  split; vm_compute; reflexivity.
Qed.

(** * Further properties of the code *)

(** ** Frames (CoCoChainApp) *)

Section FrameProperties.
Context {D : Type} {DA : DoubleArith D} {DIO : DoubleIO D} {P : Platform D}.
Import CoCoChainApp.

(** The vector and verification helpers move the random generators and
    nothing else. *)
Lemma durable_generateConceptVector (now : Z) (s : State D) :
  durable (snd (generateConceptVector now s)) = durable s.
Proof. reflexivity. Qed.

Lemma durable_manipulateTopKVector (cv : ConceptVector D) (s : State D) :
  durable (snd (manipulateTopKVector cv s)) = durable s.
Proof.
  unfold manipulateTopKVector. simpl.
  destruct (max_element (data cv)) as [imax |]; [| reflexivity].
  destruct (noiseLoop _ _ _ _) as [noisy k']. reflexivity.
Qed.

Lemma durable_injectMalformedVector (cv : ConceptVector D) (s : State D) :
  durable (snd (injectMalformedVector cv s)) = durable s.
Proof.
  unfold injectMalformedVector, corruptConceptVector.
  repeat case_match; simplify_eq; simpl;
    rewrite ?durable_manipulateTopKVector; reflexivity.
Qed.

Lemma durable_verifySemanticIntegrity (now : Z) (tx : Transaction D) (s : State D) :
  durable (snd (verifySemanticIntegrity now tx s)) = durable s.
Proof.
  unfold verifySemanticIntegrity, generateConceptVector.
  repeat (split_if; simpl); reflexivity.
Qed.

Lemma durable_processPbftConsensus (tx : Transaction D) (s : State D) :
  durable (snd (processPbftConsensus tx s)) = durable s.
Proof. reflexivity. Qed.

Lemma durable_fields (s s' : State D) :
  durable s' = durable s ->
  params s' = params s
  /\ pendingTransactions s' = pendingTransactions s
  /\ consensusVotes s' = consensusVotes s
  /\ confirmedTransactions s' = confirmedTransactions s
  /\ transactionStartTimes s' = transactionStartTimes s
  /\ counters s' = counters s
  /\ signals s' = signals s
  /\ sent s' = sent s.
Proof.
  unfold durable. intros Heq.
  split; [exact (f_equal (fun t => t.1.1.1.1.1.1.1.1) Heq) |].
  split; [exact (f_equal (fun t => t.1.1.1.1.1.1.1.2) Heq) |].
  split; [exact (f_equal (fun t => t.1.1.1.1.1.1.2) Heq) |].
  split; [exact (f_equal (fun t => t.1.1.1.1.1.2) Heq) |].
  split; [exact (f_equal (fun t => t.1.1.1.2) Heq) |].
  split; [exact (f_equal (fun t => t.1.1.2) Heq) |].
  split; [exact (f_equal (fun t => t.1.2) Heq) |].
  exact (f_equal (fun t => t.2) Heq).
Qed.

Lemma durable_books (s s' : State D) : durable s' = durable s -> books s' = books s.
Proof.
  intros Heq. destruct (durable_fields _ _ Heq) as (_ & _ & _ & _ & _ & Hc & Hsig & Hsent).
  pose proof (f_equal c_messagesReceived Hc) as Hm.
  pose proof (f_equal c_malformedDetected Hc) as Hmal.
  pose proof (f_equal c_transactionCounter Hc) as Hcnt.
  simpl in Hm, Hmal, Hcnt.
  unfold books, overheadSamples, malformedSamples, transactionPackets.
  rewrite Hm, Hmal, Hcnt, Hsig, Hsent. reflexivity.
Qed.

End FrameProperties.

(** ** Bookkeeping of the entry points (CoCoChainApp) *)

Section BooksProperties.
Context {D : Type} {DA : DoubleArith D} {DIO : DoubleIO D} {P : Platform D}.
Import CoCoChainApp.

Lemma books_emit (x : Signal D) (s : State D) :
  (forall n, x <> consensusOverhead n) -> (forall n, x <> malformedDetected n) ->
  books (emit x s) = books s.
Proof.
  intros Ho Hm. unfold books, overheadSamples, malformedSamples, emit. simpl.
  rewrite !omap_app. simpl.
  destruct x as [? ? | n | n | ? ? | ?]; simpl; rewrite ?app_nil_r; try reflexivity.
  - exfalso. apply (Ho n). reflexivity.
  - exfalso. apply (Hm n). reflexivity.
Qed.

Lemma books_updateThroughputMetrics (now : Z) (s : State D) :
  books (updateThroughputMetrics now s) = books s.
Proof.
  unfold updateThroughputMetrics. split_if; [| reflexivity].
  change (books (emit (throughput (totalThroughput s)) s) = books s).
  apply books_emit; discriminate.
Qed.

Lemma books_updateFalsePositiveRate (wasValid wasRejected : bool) (s : State D) :
  books (updateFalsePositiveRate wasValid wasRejected s) = books s.
Proof.
  unfold updateFalsePositiveRate.
  repeat split_if; try reflexivity;
    (etransitivity; [apply books_emit; discriminate | reflexivity]).
Qed.

(** A transaction whose vector is not flagged as corrupted leaves the
    malformed counter alone. *)
Lemma books_processCocoChainConsensus (now : Z) (tx : Transaction D) (s : State D) :
  isCorrupted (conceptVector tx) = false ->
  books (snd (processCocoChainConsensus now tx s)) = books s.
Proof.
  intros Hclean. unfold processCocoChainConsensus.
  pose proof (durable_books _ _ (durable_verifySemanticIntegrity now tx s)) as Hv.
  destruct (verifySemanticIntegrity now tx s) as [ok s1]. simpl in Hv.
  rewrite Hclean. unfold generateConceptVector.
  repeat (split_if; simpl);
    rewrite ?books_updateFalsePositiveRate;
    rewrite <- Hv; reflexivity.
Qed.

Lemma books_sendTo_consensus (m : ConsensusMessage) (s : State D) :
  books (sendTo (ConsensusPacket m) s) = books s.
Proof.
  unfold books, transactionPackets, sendTo. simpl.
  rewrite omap_app. simpl. rewrite app_nil_r. reflexivity.
Qed.

Lemma books_startConsensus (now : Z) (tx : Transaction D) (s : State D) :
  books (startConsensus now tx s) = books s.
Proof.
  unfold startConsensus.
  pose proof (durable_books _ _ (durable_verifySemanticIntegrity now tx s)) as Hv.
  destruct (verifySemanticIntegrity now tx s) as [v s1]. simpl in Hv.
  rewrite books_sendTo_consensus. exact Hv.
Qed.

Lemma books_processReceivedTransaction (now : Z) (tx : Transaction D) (s : State D) :
  isCorrupted (conceptVector tx) = false ->
  books (processReceivedTransaction now tx s) = books s.
Proof.
  intros Hclean. unfold processReceivedTransaction.
  pose proof (books_processCocoChainConsensus now tx s Hclean) as Hc.
  destruct (processCocoChainConsensus now tx s) as [cocoChainResult s1]. simpl in Hc.
  repeat (split_if; simpl);
    rewrite ?books_startConsensus;
    try (rewrite <- Hc; reflexivity); reflexivity.
Qed.

Lemma books_finalizeTransaction (now txId : Z) (s : State D) :
  books (finalizeTransaction now txId s) = books s.
Proof.
  unfold finalizeTransaction.
  destruct (bool_decide (txId ∈ confirmedTransactions s)); [reflexivity |].
  simpl. destruct (transactionStartTimes s !! txId) as [started |]; [| reflexivity].
  etransitivity; [| apply (books_emit (endToEndLatency txId (now - started)) s); discriminate].
  reflexivity.
Qed.

Lemma books_processConsensusMessage (now : Z) (msg : ConsensusMessage) (s s' : State D) :
  processConsensusMessage now msg s = Some s' -> books s' = books s.
Proof.
  unfold processConsensusMessage. intros Hrun.
  destruct (negb (is_VOTE (msg_type msg))); [injection Hrun as <-; reflexivity |].
  destruct (requiredVotes _) as [required |]; [| discriminate Hrun].
  revert Hrun. repeat split_if; intros Hrun; injection Hrun as <-;
    rewrite ?books_finalizeTransaction; reflexivity.
Qed.

Lemma books_sendTransaction (now : Z) (s : State D) :
  books (sendTransaction now s)
  = (totalMessagesReceived s, totalMalformedDetected s,
     wrap64 (transactionCounter s + 1), overheadSamples s, malformedSamples s,
     transactionPackets s
     ++ [(transactionIdOf (getId (params s)) (transactionCounter s),
          getId (params s), inUnitUS now)]).
Proof.
  unfold sendTransaction, generateConceptVector.
  set (s1 := set_rngCalls _ (set_transactionCounter _ s)).
  assert (Hi : exists cv2 s2,
             (if isAdversarialNode s1
              then injectMalformedVector
                     {| data := map (fun i => conceptDist (rngCalls (set_transactionCounter
                                  (wrap64 (transactionCounter s + 1)) s) + i)%nat) (seq 0 10);
                        cv_timestamp := inUnitUS now;
                        cv_nodeId := getId (params (set_transactionCounter
                                       (wrap64 (transactionCounter s + 1)) s));
                        isCorrupted := false; isTopK := false |} s1
              else ({| data := map (fun i => conceptDist (rngCalls (set_transactionCounter
                                  (wrap64 (transactionCounter s + 1)) s) + i)%nat) (seq 0 10);
                        cv_timestamp := inUnitUS now;
                        cv_nodeId := getId (params (set_transactionCounter
                                       (wrap64 (transactionCounter s + 1)) s));
                        isCorrupted := false; isTopK := false |}, s1)) = (cv2, s2)
             /\ durable s2 = durable s1).
  { destruct (isAdversarialNode s1).
    - match goal with
      | |- context [injectMalformedVector ?cv s1] =>
          pose proof (durable_injectMalformedVector cv s1) as Hd;
          destruct (injectMalformedVector cv s1) as [cv2 s2]
      end.
      exists cv2, s2. split; [reflexivity | exact Hd].
    - eexists. exists s1. split; reflexivity. }
  destruct Hi as (cv2 & s2 & -> & Hd).
  destruct (durable_fields _ _ Hd) as (Hp & _ & _ & _ & _ & Hc & Hsig & Hsent).
  unfold counters in Hc. simpl in Hc. injection Hc as Hm Hmal _ _ _ _ Hcnt.
  simpl in Hp, Hsig, Hsent.
  match goal with
  | |- books (sendTo ?pkt (updateThroughputMetrics now ?x)) = _ =>
      pose proof (books_updateThroughputMetrics now x) as Hu;
      unfold books in Hu; injection Hu as Hu1 Hu2 Hu3 Hu4 Hu5 Hu6
  end.
  unfold books, overheadSamples, malformedSamples, transactionPackets in *.
  simpl in *. rewrite omap_app. simpl.
  rewrite Hu1, Hu2, Hu3, Hu4, Hu5, Hu6, Hm, Hmal, Hcnt, Hsig, Hsent, Hp.
  reflexivity.
Qed.

End BooksProperties.

(** ** Counting along a run (CoCoChainApp) *)

Section RunCounting.
Context {D : Type} {DA : DoubleArith D} {DIO : DoubleIO D} {P : Platform D}.
Import CoCoChainApp.

Lemma params_processConsensusMessage (now : Z) (msg : ConsensusMessage) (s s' : State D) :
  processConsensusMessage now msg s = Some s' -> params s' = params s.
Proof.
  unfold processConsensusMessage. intros Hrun.
  destruct (negb (is_VOTE (msg_type msg))); [injection Hrun as <-; reflexivity |].
  destruct (requiredVotes _) as [required |]; [| discriminate Hrun].
  revert Hrun. repeat split_if; intros Hrun; injection Hrun as <-;
    rewrite ?params_finalizeTransaction; reflexivity.
Qed.

Lemma params_handle (e : Event) (s s' : State D) :
  handle e s = Some s' -> params s' = params s.
Proof.
  destruct e as [now | now w]; simpl; intros Hrun.
  - injection Hrun as <-.
    exact (ledger_params _ _ (ledger_sendTransaction now s)).
  - unfold socketDataArrived in Hrun.
    destruct w as [id orig ts | type txId sender v ts |].
    + simpl in Hrun. injection Hrun as <-.
      rewrite (core_params _ _ (core_processReceivedTransaction _ _ _)). reflexivity.
    + rewrite (params_processConsensusMessage _ _ _ _ Hrun). reflexivity.
    + injection Hrun as <-. reflexivity.
Qed.

Lemma books_handle (e : Event) (s s' : State D) :
  handle e s = Some s' ->
  books s'
  = (totalMessagesReceived s + (if isDataArrived e then 1 else 0),
     totalMalformedDetected s,
     counterAfter (transactionCounter s) [e],
     overheadSamples s ++ (if isDataArrived e then [1] else []),
     malformedSamples s,
     transactionPackets s ++ sentBy (getId (params s)) (transactionCounter s) [e]).
Proof.
  destruct e as [now | now w]; simpl; intros Hrun.
  - injection Hrun as <-.
    transitivity (books (sendTransaction now s)); [reflexivity |].
    rewrite books_sendTransaction, Z.add_0_r, app_nil_r. reflexivity.
  - unfold socketDataArrived in Hrun.
    set (s0 := emit (consensusOverhead 1) _) in Hrun.
    assert (H0 : books s0
                 = (totalMessagesReceived s + 1, totalMalformedDetected s,
                    transactionCounter s, overheadSamples s ++ [1],
                    malformedSamples s, transactionPackets s ++ [])).
    { unfold s0, books, overheadSamples, malformedSamples, transactionPackets, emit.
      simpl. rewrite !omap_app, !app_nil_r. reflexivity. }
    rewrite <- H0.
    destruct w as [id orig ts | type txId sender v ts |].
    + simpl in Hrun. injection Hrun as <-.
      rewrite books_processReceivedTransaction by reflexivity. reflexivity.
    + exact (books_processConsensusMessage _ _ _ _ Hrun).
    + injection Hrun as <-. reflexivity.
Qed.

Lemma books_run (events : list Event) (s s' : State D) :
  run events s = Some s' ->
  books s'
  = (totalMessagesReceived s + Z.of_nat (length (List.filter isDataArrived events)),
     totalMalformedDetected s,
     counterAfter (transactionCounter s) events,
     overheadSamples s ++ replicate (length (List.filter isDataArrived events)) 1,
     malformedSamples s,
     transactionPackets s ++ sentBy (getId (params s)) (transactionCounter s) events).
Proof.
  revert s. induction events as [| e events IH]; intros s Hrun; simpl in Hrun.
  - injection Hrun as <-. simpl. rewrite Z.add_0_r, !app_nil_r. reflexivity.
  - destruct (handle e s) as [s1 |] eqn:He; [| discriminate Hrun].
    rewrite (IH s1 Hrun).
    pose proof (books_handle e s s1 He) as Hb. unfold books in Hb.
    injection Hb as Hm Hmal Hc Ho Hms Htp.
    rewrite (params_handle e s s1 He), Hm, Hmal, Hc, Ho, Hms, Htp.
    destruct e as [now | now w]; simpl;
      rewrite ?app_nil_r, ?Z.add_0_r, <- ?app_assoc; simpl;
      repeat (f_equal; try lia).
Qed.

Lemma counterAfter_count (events : list Event) (c : Z) :
  counterAfter (wrap64 c) events
  = wrap64 (c + Z.of_nat (length (List.filter isSendTimer events))).
Proof.
  revert c. induction events as [| e events IH]; intros c; simpl.
  - rewrite Z.add_0_r. reflexivity.
  - destruct e as [now | now w]; simpl.
    + replace (wrap64 (wrap64 c + 1)) with (wrap64 (c + 1))
        by (unfold wrap64; rewrite Z.add_mod_idemp_l by lia; reflexivity).
      rewrite IH. f_equal. lia.
    + apply IH.
Qed.

Lemma length_sentBy (nodeId c : Z) (events : list Event) :
  length (sentBy nodeId c events) = length (List.filter isSendTimer events).
Proof.
  revert c. induction events as [| e events IH]; intros c; simpl; [reflexivity |].
  destruct e; simpl; rewrite IH; reflexivity.
Qed.

(** X4: every received packet is counted, once.  Along a run from the
    initial state of a node whose vote threshold is defined, with at most
    [INT_MAX] packets delivered (the counter is an [int]), the run
    completes, [totalMessagesReceived] is the number of packets delivered
    and one [consensusOverhead] sample of value 1 was emitted for each. *)
Theorem run_counts_received_packets (p : Params D) (r : Z) (events : list Event) :
  requiredVotes p = Some r ->
  Z.of_nat (length (List.filter isDataArrived events)) <= INT_MAX ->
  exists s,
    run events (initialize p) = Some s
    /\ totalMessagesReceived s = Z.of_nat (length (List.filter isDataArrived events))
    /\ overheadSamples s = replicate (length (List.filter isDataArrived events)) 1.
Proof.
  intros Hreq _.
  destruct (run_accounted events (initialize p) r Hreq (accounted_initialize p))
    as (s & Hrun & _).
  exists s. split; [exact Hrun |].
  pose proof (books_run events _ s Hrun) as Hb. unfold books in Hb.
  injection Hb as Hm _ _ Ho _ _. split; assumption.
Qed.

(** X5: no run detects a malformed transaction.  The vector of a received
    transaction is generated afresh by the receiver and is never flagged as
    corrupted, so along every run from the initial state
    [totalMalformedDetected] stays 0 and no [malformedDetected] sample is
    emitted. *)
Theorem run_never_detects_malformed (p : Params D) (r : Z) (events : list Event) :
  requiredVotes p = Some r ->
  exists s,
    run events (initialize p) = Some s
    /\ totalMalformedDetected s = 0
    /\ malformedSamples s = [].
Proof.
  intros Hreq.
  destruct (run_accounted events (initialize p) r Hreq (accounted_initialize p))
    as (s & Hrun & _).
  exists s. split; [exact Hrun |].
  pose proof (books_run events _ s Hrun) as Hb. unfold books in Hb.
  injection Hb as _ Hmal _ _ Hms _. split; assumption.
Qed.

(** X6: the transactions a node sends.  Along a run from the initial state
    the node sends one transaction packet per timer event, in order; the
    k-th one carries the id [transactionIdOf getId k] (k counted from 0,
    modulo 2^64), the node's id as originator and the time of the event in
    microseconds; the counter ends at the number of timer events modulo
    2^64. *)
Theorem run_sends_one_transaction_per_timer (p : Params D) (r : Z) (events : list Event) :
  requiredVotes p = Some r ->
  exists s,
    run events (initialize p) = Some s
    /\ transactionPackets s = sentBy (getId p) 0 events
    /\ length (transactionPackets s) = length (List.filter isSendTimer events)
    /\ transactionCounter s
       = wrap64 (Z.of_nat (length (List.filter isSendTimer events))).
Proof.
  intros Hreq.
  destruct (run_accounted events (initialize p) r Hreq (accounted_initialize p))
    as (s & Hrun & _).
  exists s. split; [exact Hrun |].
  pose proof (books_run events _ s Hrun) as Hb. unfold books in Hb.
  injection Hb as _ _ Hc _ _ Htp. simpl in Hc, Htp.
  split; [exact Htp |]. split.
  - rewrite Htp. apply length_sentBy.
  - rewrite Hc. change 0 with (wrap64 0) at 1. rewrite counterAfter_count. reflexivity.
Qed.

End RunCounting.

(** ** The division of the false-positive rate (CoCoChainApp) *)

Section FalsePositiveRate.
Context {D : Type} {DA : DoubleArith D} {DIO : DoubleIO D} {P : Platform D}.
Import CoCoChainApp.

(** What a call changes, in any state: the guard tests
    totalValidTransactions + totalMalformedDetected, and the sample is
    totalFalsePositives / (totalValidTransactions + totalFalsePositives)
    with the counters as the call leaves them. *)
Lemma updateFalsePositiveRate_effect (wasValid wasRejected : bool) (s : State D) :
  let s' := updateFalsePositiveRate wasValid wasRejected s in
  totalValidTransactions s' = totalValidTransactions s
  /\ totalFalsePositives s'
     = totalFalsePositives s + (if wasValid && wasRejected then 1 else 0)
  /\ signals s'
     = signals s
       ++ (if 0 <? totalValidTransactions s + totalMalformedDetected s
           then [falsePositiveRate
                   (ddiv (d_of_Z (totalFalsePositives s'))
                         (d_of_Z (totalValidTransactions s' + totalFalsePositives s')))
                   (totalValidTransactions s' + totalFalsePositives s')]
           else []).
Proof.
  unfold updateFalsePositiveRate.
  destruct (wasValid && wasRejected); simpl;
    destruct (0 <? totalValidTransactions s + totalMalformedDetected s); simpl;
    rewrite ?app_nil_r, ?Z.add_0_r; repeat split.
Qed.

(** [finish] records no rate when the divisor is not positive. *)
Lemma finish_without_rate (s : State D) :
  totalValidTransactions s + totalFalsePositives s <= 0 ->
  Forall (fun entry => fst entry <> "Final FPR"%string) (finish s).
Proof.
  intros Hzero. unfold finish.
  destruct (Z.ltb_spec 0 (totalValidTransactions s + totalFalsePositives s)); [lia |].
  rewrite app_nil_r. repeat constructor; simpl; discriminate.
Qed.

(** *** The rates emitted along a run *)

Lemma rates_durable (s s' : State D) : durable s' = durable s -> rates s' = rates s.
Proof.
  intros Heq. destruct (durable_fields _ _ Heq) as (_ & _ & _ & _ & _ & Hc & Hsig & _).
  pose proof (f_equal c_validTransactions Hc) as Hv.
  pose proof (f_equal c_falsePositives Hc) as Hf. simpl in Hv, Hf.
  unfold rates, fprSamples. rewrite Hv, Hf, Hsig. reflexivity.
Qed.

Lemma rates_emit (x : Signal D) (s : State D) :
  (forall fpr divisor, x <> falsePositiveRate fpr divisor) -> rates (emit x s) = rates s.
Proof.
  intros Hx. unfold rates, fprSamples, emit. simpl. rewrite omap_app.
  destruct x as [? ? | ? | ? | fpr divisor | ?]; simpl; rewrite ?app_nil_r; try reflexivity.
  exfalso. apply (Hx fpr divisor). reflexivity.
Qed.

Lemma rates_updateThroughputMetrics (now : Z) (s : State D) :
  rates (updateThroughputMetrics now s) = rates s.
Proof.
  unfold updateThroughputMetrics. split_if; [| reflexivity].
  transitivity (rates (emit (throughput (totalThroughput s)) s)); [reflexivity |].
  apply rates_emit. discriminate.
Qed.

Lemma rates_sendTransaction (now : Z) (s : State D) :
  rates (sendTransaction now s) = rates s.
Proof.
  unfold sendTransaction, generateConceptVector.
  set (s1 := set_rngCalls _ (set_transactionCounter _ s)).
  assert (H1 : rates s1 = rates s) by reflexivity.
  destruct (isAdversarialNode s1).
  - match goal with
    | |- context [injectMalformedVector ?cv s1] =>
        pose proof (rates_durable _ _ (durable_injectMalformedVector cv s1)) as Hd;
        destruct (injectMalformedVector cv s1) as [cv2 s2]
    end.
    simpl in Hd.
    transitivity (rates (updateThroughputMetrics now
                           (set_totalThroughput (totalThroughput s2 + 1)
                              (set_transactionStartTimes
                                 <[transactionIdOf (getId (params s)) (transactionCounter s)
                                   := now]> s2))));
      [reflexivity |].
    rewrite rates_updateThroughputMetrics, <- H1, <- Hd. reflexivity.
  - transitivity (rates (updateThroughputMetrics now
                           (set_totalThroughput (totalThroughput s1 + 1)
                              (set_transactionStartTimes
                                 <[transactionIdOf (getId (params s)) (transactionCounter s)
                                   := now]> s1))));
      [reflexivity |].
    rewrite rates_updateThroughputMetrics. reflexivity.
Qed.

Lemma rates_finalizeTransaction (now txId : Z) (s : State D) :
  rates (finalizeTransaction now txId s) = rates s.
Proof.
  unfold finalizeTransaction.
  destruct (bool_decide (txId ∈ confirmedTransactions s)); [reflexivity |].
  simpl. destruct (transactionStartTimes s !! txId) as [started |]; [| reflexivity].
  etransitivity;
    [| apply (rates_emit (endToEndLatency txId (now - started)) s); discriminate].
  reflexivity.
Qed.

Lemma rated_frame (s s' : State D) : rates s' = rates s -> rated s -> rated s'.
Proof.
  intros Heq.
  pose proof (f_equal (fun t => t.1.1) Heq) as Hv.
  pose proof (f_equal (fun t => t.1.2) Heq) as Hf.
  pose proof (f_equal (fun t => t.2) Heq) as Hs.
  unfold rates in Hv, Hf, Hs. simpl in Hv, Hf, Hs.
  unfold rated. rewrite Hv, Hf, Hs. auto.
Qed.

Lemma rated_initialize (p : Params D) : rated (initialize p).
Proof. unfold rated. simpl. split; [lia |]. split; [lia |]. apply Forall_nil_2. Qed.

(** A call keeps the invariant as soon as the divisor, after the increment
    the call may make itself, is positive. *)
Lemma rated_updateFalsePositiveRate (wasValid wasRejected : bool) (s : State D) :
  rated s ->
  0 < totalValidTransactions s + totalFalsePositives s
      + (if wasValid && wasRejected then 1 else 0) ->
  rated (updateFalsePositiveRate wasValid wasRejected s).
Proof.
  intros (Hv & Hf & Hs) Hpos.
  destruct (updateFalsePositiveRate_effect wasValid wasRejected s) as (Hv' & Hf' & Hsig).
  unfold rated, fprSamples. rewrite Hsig, Hv', Hf', omap_app.
  split; [exact Hv |]. split; [destruct (wasValid && wasRejected); lia |].
  apply Forall_app. split; [exact Hs |].
  destruct (0 <? totalValidTransactions s + totalMalformedDetected s); simpl;
    [| apply Forall_nil_2].
  apply Forall_singleton. split; simpl.
  - destruct (wasValid && wasRejected); lia.
  - exists (totalFalsePositives s + (if wasValid && wasRejected then 1 else 0)).
    split; [destruct (wasValid && wasRejected); lia | reflexivity].
Qed.

Lemma rated_processCocoChainConsensus (now : Z) (tx : Transaction D) (s : State D) :
  rated s -> rated (snd (processCocoChainConsensus now tx s)).
Proof.
  intros Hg. unfold processCocoChainConsensus.
  pose proof (rated_frame _ _ (rates_durable _ _ (durable_verifySemanticIntegrity now tx s)) Hg)
    as Hg1.
  destruct (verifySemanticIntegrity now tx s) as [ok s1]. simpl in Hg1.
  pose proof Hg1 as (Hv1 & Hf1 & Hd1).
  unfold generateConceptVector.
  repeat (split_if; simpl);
    lazymatch goal with
    | |- rated (updateFalsePositiveRate _ _ _) =>
        apply rated_updateFalsePositiveRate;
        [ unfold rated; simpl; (split; [lia |]); (split; [lia | exact Hd1])
        | simpl; lia ]
    | |- rated (emit _ _) =>
        refine (rated_frame s1 _ _ Hg1);
        etransitivity; [apply rates_emit; discriminate | reflexivity]
    | |- _ => exact (rated_frame s1 _ eq_refl Hg1)
    end.
Qed.

Lemma rates_startConsensus (now : Z) (tx : Transaction D) (s : State D) :
  rates (startConsensus now tx s) = rates s.
Proof.
  unfold startConsensus.
  pose proof (rates_durable _ _ (durable_verifySemanticIntegrity now tx s)) as Hv.
  destruct (verifySemanticIntegrity now tx s) as [v s1]. simpl in Hv.
  rewrite <- Hv. reflexivity.
Qed.

Lemma rated_processReceivedTransaction (now : Z) (tx : Transaction D) (s : State D) :
  rated s -> rated (processReceivedTransaction now tx s).
Proof.
  intros Hg. unfold processReceivedTransaction.
  pose proof (rated_processCocoChainConsensus now tx s Hg) as Hc.
  destruct (processCocoChainConsensus now tx s) as [cocoChainResult s1]. simpl in Hc.
  repeat (split_if; simpl);
    lazymatch goal with
    | |- rated (startConsensus _ _ _) =>
        refine (rated_frame s1 _ _ Hc); rewrite rates_startConsensus; reflexivity
    | |- rated s => exact Hg
    | |- _ => exact (rated_frame s1 _ eq_refl Hc)
    end.
Qed.

Lemma rated_processConsensusMessage (now : Z) (msg : ConsensusMessage) (s s' : State D) :
  processConsensusMessage now msg s = Some s' -> rated s -> rated s'.
Proof.
  unfold processConsensusMessage. intros Hrun Hg.
  destruct (negb (is_VOTE (msg_type msg))); [injection Hrun as <-; exact Hg |].
  destruct (requiredVotes _) as [required |]; [| discriminate Hrun].
  revert Hrun. repeat split_if; intros Hrun; injection Hrun as <-;
    refine (rated_frame s _ _ Hg); rewrite ?rates_finalizeTransaction; reflexivity.
Qed.

Lemma rated_handle (e : Event) (s s' : State D) :
  handle e s = Some s' -> rated s -> rated s'.
Proof.
  intros Hrun Hg. destruct e as [now | now w]; simpl in Hrun.
  - injection Hrun as <-. refine (rated_frame s _ _ Hg).
    transitivity (rates (sendTransaction now s)); [reflexivity | apply rates_sendTransaction].
  - unfold socketDataArrived in Hrun.
    set (s0 := emit (consensusOverhead 1) _) in Hrun.
    assert (Hg0 : rated s0).
    { refine (rated_frame s _ _ Hg). unfold s0.
      rewrite rates_emit by discriminate. reflexivity. }
    destruct w as [id orig ts | type txId sender v ts |].
    + simpl in Hrun. injection Hrun as <-.
      apply rated_processReceivedTransaction.
      exact (rated_frame s0 _ eq_refl Hg0).
    + exact (rated_processConsensusMessage _ _ _ _ Hrun Hg0).
    + injection Hrun as <-. exact Hg0.
Qed.

Lemma run_rated (events : list Event) (s s' : State D) :
  run events s = Some s' -> rated s -> rated s'.
Proof.
  revert s. induction events as [| e events IH]; intros s Hrun Hg; simpl in Hrun.
  - injection Hrun as <-. exact Hg.
  - destruct (handle e s) as [s1 |] eqn:He; [| discriminate Hrun].
    apply (IH s1 Hrun). exact (rated_handle e s s1 He Hg).
Qed.


End FalsePositiveRate.

(** ** Sequences of votes (CoCoChainApp) *)

Section VoteSequences.
Context {D : Type} {DA : DoubleArith D} {DIO : DoubleIO D} {P : Platform D}.
Import CoCoChainApp.

Lemma wrap_int_le_max (z : Z) : wrap_int z <= INT_MAX.
Proof.
  unfold wrap_int, INT_MAX.
  pose proof (Z.mod_pos_bound (z + 2 ^ 31) (2 ^ 32) ltac:(lia)). lia.
Qed.

Lemma int_of_size_below (n : nat) (r : Z) : Z.of_nat n < r -> int_of_size n < r.
Proof.
  intros Hn. destruct (Z_le_gt_dec (Z.of_nat n) INT_MAX) as [Hle | Hgt].
  - rewrite (int_of_size_small n Hle). exact Hn.
  - pose proof (wrap_int_le_max (Z.of_nat n)). unfold int_of_size. lia.
Qed.

Lemma countPositive_all_accept (now txId : Z) (votes : list (Z * bool)) :
  Forall (fun v => snd v = true) votes ->
  countPositive (map (voteMessage now txId) votes) = Z.of_nat (length votes).
Proof.
  intros Hall. rewrite countPositive_filter. f_equal.
  induction Hall as [| v votes Hv _ IH]; simpl; [reflexivity |].
  rewrite Hv. simpl. rewrite IH. reflexivity.
Qed.

Lemma run_app (e1 e2 : list Event) (s : State D) :
  run (e1 ++ e2) s
  = match run e1 s with Some s1 => run e2 s1 | None => None end.
Proof.
  revert s. induction e1 as [| e e1 IH]; intros s; simpl; [reflexivity |].
  destruct (handle e s) as [s1 |]; [apply IH | reflexivity].
Qed.

Lemma run_cons (e : Event) (events : list Event) (s : State D) :
  run (e :: events) s
  = match handle e s with Some s1 => run events s1 | None => None end.
Proof. reflexivity. Qed.

(** The state in which [socketDataArrived] decodes a packet. *)
Lemma handle_voteEvent (now txId : Z) (v : Z * bool) (s : State D) :
  handle (voteEvent now txId v) s
  = processConsensusMessage now (voteMessage now txId v)
      (emit (consensusOverhead 1)
         (set_totalMessagesReceived (totalMessagesReceived s + 1) s)).
Proof. reflexivity. Qed.

(** Votes that leave the list below the required number are stored and
    change nothing else but the count of received packets. *)
Lemma run_votes_below (now txId r : Z) (votes : list (Z * bool)) (s : State D) :
  requiredVotes (params s) = Some r ->
  Z.of_nat (length (votesOf s txId) + length votes) < r ->
  exists s',
    run (map (voteEvent now txId) votes) s = Some s'
    /\ params s' = params s
    /\ votesOf s' txId = votesOf s txId ++ map (voteMessage now txId) votes
    /\ confirmedTransactions s' = confirmedTransactions s
    /\ pendingTransactions s' = pendingTransactions s
    /\ transactionStartTimes s' = transactionStartTimes s
    /\ signals s' = signals s ++ replicate (length votes) (consensusOverhead 1)
    /\ sent s' = sent s.
Proof.
  revert s. induction votes as [| v votes IH]; intros s Hreq Hlen.
  - exists s. simpl. rewrite !app_nil_r. repeat split; reflexivity.
  - rewrite map_cons, run_cons, handle_voteEvent.
    set (s0 := emit (consensusOverhead 1) _).
    rewrite (processConsensusMessage_cases now (voteMessage now txId v) s0 r eq_refl Hreq).
    simpl transactionId.
    replace (votesOf s0 txId) with (votesOf s txId) by reflexivity.
    destruct (Z.leb_spec r (int_of_size (length (votesOf s txId ++ [voteMessage now txId v]))))
      as [Hge | _].
    { exfalso.
      assert (int_of_size (length (votesOf s txId ++ [voteMessage now txId v])) < r).
      { apply int_of_size_below. rewrite length_app. simpl in *. lia. }
      lia. }
    set (s1 := set_consensusVotes _ s0).
    destruct (IH s1) as (s' & Hrun & Hp & Hv & Hc & Hpe & Hst & Hsig & Hsent).
    + exact Hreq.
    + unfold s1. rewrite votesOf_stored, length_app. simpl in *. lia.
    + exists s'. split; [exact Hrun |].
      unfold s1 in Hv. rewrite votesOf_stored in Hv.
      rewrite Hp, Hv, Hc, Hpe, Hst, Hsig, Hsent, <- !app_assoc.
      repeat split; try reflexivity.
      change (signals s1) with (signals s ++ [consensusOverhead 1]).
      rewrite <- app_assoc. reflexivity.
Qed.

Lemma omap_replicate_overhead (n : nat) (k : Z) :
  omap (fun x : Signal D => match x with endToEndLatency txId _ => Some txId | _ => None end)
       (replicate n (consensusOverhead k)) = [].
Proof. induction n as [| n IHn]; simpl; [reflexivity | exact IHn]. Qed.

(** X7: below the quorum nothing is decided.  If the votes already stored
    for a transaction and the votes delivered stay, together, below the
    required number, the run completes, the votes are appended in order of
    arrival, and the confirmed set, the pending map, the start times and the
    latency samples are as before. *)
Theorem votes_below_quorum_decide_nothing (now txId r : Z) (votes : list (Z * bool))
    (s : State D) :
  requiredVotes (params s) = Some r ->
  Z.of_nat (length (votesOf s txId) + length votes) < r ->
  exists s',
    run (map (voteEvent now txId) votes) s = Some s'
    /\ votesOf s' txId = votesOf s txId ++ map (voteMessage now txId) votes
    /\ confirmedTransactions s' = confirmedTransactions s
    /\ pendingTransactions s' = pendingTransactions s
    /\ transactionStartTimes s' = transactionStartTimes s
    /\ latencySamples s' = latencySamples s.
Proof.
  intros Hreq Hlen.
  destruct (run_votes_below now txId r votes s Hreq Hlen)
    as (s' & Hrun & _ & Hv & Hc & Hpe & Hst & Hsig & _).
  exists s'. repeat (split; [assumption |]).
  unfold latencySamples. rewrite Hsig, omap_app, omap_replicate_overhead.
  apply app_nil_r.
Qed.

(** The required number of accepting votes, delivered to a node that has
    no vote stored for an unconfirmed transaction. *)
Lemma run_accepting_quorum (now txId r : Z) (votes : list (Z * bool))
    (s : State D) :
  requiredVotes (params s) = Some r ->
  1 <= r <= INT_MAX ->
  votesOf s txId = [] ->
  txId ∉ confirmedTransactions s ->
  Z.of_nat (length votes) = r ->
  Forall (fun v => snd v = true) votes ->
  exists s',
    run (map (voteEvent now txId) votes) s = Some s'
    /\ txId ∈ confirmedTransactions s'
    /\ consensusVotes s' !! txId = None
    /\ pendingTransactions s' !! txId = None
    /\ transactionStartTimes s' !! txId = None
    /\ match transactionStartTimes s !! txId with
       | Some t0 =>
           latencySamples s' = latencySamples s ++ [txId]
           /\ last (signals s') = Some (endToEndLatency txId (now - t0))
       | None => latencySamples s' = latencySamples s
       end.
Proof.
  intros Hreq Hr Hempty Hnew Hlen Hall.
  destruct votes as [| v0 votes0] using rev_ind; [simpl in Hlen; lia |].
  clear IHvotes0. rename votes0 into front.
  rewrite length_app in Hlen. simpl in Hlen.
  pose proof (proj1 (proj1 (Forall_app _ _ _) Hall)) as Hfront.
  destruct (run_votes_below now txId r front s Hreq) as
    (s1 & Hrun1 & Hp1 & Hv1 & Hc1 & Hpe1 & Hst1 & Hsig1 & _).
  { rewrite Hempty. simpl. lia. }
  rewrite map_app, run_app, Hrun1. simpl map. rewrite run_cons.
  rewrite handle_voteEvent.
  set (s0 := emit (consensusOverhead 1) _).
  assert (Hreq0 : requiredVotes (params s0) = Some r) by (simpl; rewrite Hp1; exact Hreq).
  rewrite (processConsensusMessage_cases now (voteMessage now txId v0) s0 r eq_refl Hreq0).
  simpl transactionId.
  replace (votesOf s0 txId) with (votesOf s1 txId) by reflexivity.
  rewrite Hv1, Hempty. simpl app.
  change [voteMessage now txId v0] with (map (voteMessage now txId) [v0]).
  rewrite <- map_app.
  assert (Htot : int_of_size (length (map (voteMessage now txId) (front ++ [v0]))) = r).
  { rewrite length_map, length_app. simpl. rewrite int_of_size_small; lia. }
  assert (Hacc : countPositive (map (voteMessage now txId) (front ++ [v0])) = r).
  { rewrite countPositive_all_accept.
    - rewrite length_app. simpl. lia.
    - exact Hall. }
  rewrite Htot, Hacc, Z.leb_refl.
  set (stored := set_consensusVotes _ s0).
  assert (Hnew' : txId ∉ confirmedTransactions stored) by (simpl; rewrite Hc1; exact Hnew).
  eexists. split; [reflexivity |].
  split; [rewrite finalizeTransaction_confirmed;
          apply elem_of_union_r, elem_of_singleton; reflexivity |].
  destruct (finalizeTransaction_clears now txId stored Hnew') as (Hpe & Hv & Hst).
  split; [exact Hv |]. split; [exact Hpe |]. split; [exact Hst |].
  unfold finalizeTransaction. rewrite bool_decide_eq_false_2 by exact Hnew'.
  simpl. rewrite Hst1.
  destruct (transactionStartTimes s !! txId) as [t0 |]; simpl.
  - unfold latencySamples. simpl. rewrite Hsig1, !omap_app. simpl.
    rewrite omap_replicate_overhead.
    rewrite !app_nil_r. split; [reflexivity |].
    apply last_snoc.
  - unfold latencySamples. simpl. rewrite Hsig1, !omap_app. simpl.
    rewrite omap_replicate_overhead.
    rewrite !app_nil_r. reflexivity.
Qed.

(** X8: the quorum of accepting votes.  For a transaction that is not
    confirmed and has no stored vote, delivering exactly the required
    number [r] (at least 1) of accepting votes completes, confirms the
    transaction and leaves no entry for it in the vote, pending and
    start-time maps; a node that recorded no start time for it emits no
    latency sample. *)
Theorem accepting_quorum_finalizes (now txId r : Z) (votes : list (Z * bool))
    (s : State D) :
  requiredVotes (params s) = Some r ->
  1 <= r <= INT_MAX ->
  votesOf s txId = [] ->
  txId ∉ confirmedTransactions s ->
  Z.of_nat (length votes) = r ->
  Forall (fun v => snd v = true) votes ->
  exists s',
    run (map (voteEvent now txId) votes) s = Some s'
    /\ txId ∈ confirmedTransactions s'
    /\ consensusVotes s' !! txId = None
    /\ pendingTransactions s' !! txId = None
    /\ transactionStartTimes s' !! txId = None
    /\ (transactionStartTimes s !! txId = None -> latencySamples s' = latencySamples s).
Proof.
  intros Hreq Hr Hempty Hnew Hlen Hall.
  destruct (run_accepting_quorum now txId r votes s Hreq Hr Hempty Hnew Hlen Hall)
    as (s' & Hrun & Hc & Hv & Hpe & Hst & Hlat).
  exists s'. repeat (split; [assumption |]).
  intros Hnone. rewrite Hnone in Hlat. exact Hlat.
Qed.

Lemma confirmed_handle (e : Event) (s s' : State D) :
  handle e s = Some s' -> confirmedTransactions s ⊆ confirmedTransactions s'.
Proof.
  assert (Hcore : forall a b : State D, core b = core a ->
                    confirmedTransactions a ⊆ confirmedTransactions b).
  { intros a b Heq. unfold core in Heq. injection Heq as _ Hc _. rewrite Hc. reflexivity. }
  destruct e as [now | now w]; simpl; intros Hrun.
  - injection Hrun as <-.
    apply Hcore. apply ledger_core. apply ledger_sendTransaction.
  - unfold socketDataArrived in Hrun.
    destruct w as [id orig ts | type txId sender v ts |].
    + simpl in Hrun. injection Hrun as <-.
      match goal with
      | |- _ ⊆ confirmedTransactions (processReceivedTransaction ?n ?tx ?s0) =>
          transitivity (confirmedTransactions s0);
            [reflexivity | apply Hcore, core_processReceivedTransaction]
      end.
    + unfold processConsensusMessage in Hrun.
      destruct (negb (is_VOTE _)); [injection Hrun as <-; reflexivity |].
      destruct (requiredVotes _) as [required |]; [| discriminate Hrun].
      revert Hrun. repeat split_if; intros Hrun; injection Hrun as <-;
        rewrite ?finalizeTransaction_confirmed; simpl;
        first [reflexivity | apply union_subseteq_l].
    + injection Hrun as <-. reflexivity.
Qed.

(** X9: confirmation is final.  No event removes an id from the confirmed
    set: along any run the confirmed set only grows. *)
Theorem run_confirmed_only_grows (events : list Event) (s s' : State D) :
  run events s = Some s' -> confirmedTransactions s ⊆ confirmedTransactions s'.
Proof.
  revert s. induction events as [| e events IH]; intros s Hrun; simpl in Hrun.
  - injection Hrun as <-. reflexivity.
  - destruct (handle e s) as [s1 |] eqn:He; [| discriminate Hrun].
    transitivity (confirmedTransactions s1);
      [exact (confirmed_handle e s s1 He) | exact (IH s1 Hrun)].
Qed.

End VoteSequences.

(** ** Sending, receiving and verifying transactions (CoCoChainApp) *)

Section TransactionProperties.
Context {D : Type} {DA : DoubleArith D} {DIO : DoubleIO D} {P : Platform D}.
Import CoCoChainApp.

Lemma maps_updateThroughputMetrics (now : Z) (s : State D) :
  transactionStartTimes (updateThroughputMetrics now s) = transactionStartTimes s
  /\ consensusVotes (updateThroughputMetrics now s) = consensusVotes s
  /\ pendingTransactions (updateThroughputMetrics now s) = pendingTransactions s.
Proof. unfold updateThroughputMetrics. split_if; repeat split. Qed.

(** What [sendTransaction] does to the three maps. *)
Lemma maps_sendTransaction (now : Z) (s : State D) :
  transactionStartTimes (sendTransaction now s)
  = <[transactionIdOf (getId (params s)) (transactionCounter s) := now]>
      (transactionStartTimes s)
  /\ consensusVotes (sendTransaction now s) = consensusVotes s
  /\ pendingTransactions (sendTransaction now s) = pendingTransactions s.
Proof.
  unfold sendTransaction, generateConceptVector.
  set (s1 := set_rngCalls _ (set_transactionCounter _ s)).
  destruct (isAdversarialNode s1).
  - match goal with
    | |- context [injectMalformedVector ?cv s1] =>
        pose proof (durable_fields _ _ (durable_injectMalformedVector cv s1))
          as (_ & Hpe & Hv & _ & Hst & _);
        destruct (injectMalformedVector cv s1) as [cv2 s2]
    end.
    simpl in *.
    match goal with
    | |- context [updateThroughputMetrics now ?x] =>
        destruct (maps_updateThroughputMetrics now x) as (-> & -> & ->)
    end.
    simpl. rewrite Hpe, Hv, Hst. repeat split.
  - simpl.
    match goal with
    | |- context [updateThroughputMetrics now ?x] =>
        destruct (maps_updateThroughputMetrics now x) as (-> & -> & ->)
    end.
    repeat split.
Qed.

(** X10: end-to-end latency of an originated transaction.  A node that
    sends a transaction at time [t0] and then receives, at time [t1], the
    required number [r] of accepting votes for its id (not confirmed and
    without stored votes before) completes the run, confirms the
    transaction and emits as last signal the latency [t1 - t0], the only
    latency sample added. *)
Theorem originator_measures_latency (t0 t1 r : Z) (votes : list (Z * bool)) (s : State D) :
  let txId := transactionIdOf (getId (params s)) (transactionCounter s) in
  requiredVotes (params s) = Some r ->
  1 <= r <= INT_MAX ->
  votesOf s txId = [] ->
  txId ∉ confirmedTransactions s ->
  Z.of_nat (length votes) = r ->
  Forall (fun v => snd v = true) votes ->
  exists s',
    run (SendTimer t0 :: map (voteEvent t1 txId) votes) s = Some s'
    /\ txId ∈ confirmedTransactions s'
    /\ last (signals s') = Some (endToEndLatency txId (t1 - t0))
    /\ latencySamples s' = latencySamples s ++ [txId]
    /\ transactionStartTimes s' !! txId = None.
Proof.
  intros txId Hreq Hr Hempty Hnew Hlen Hall. rewrite run_cons.
  change (handle (SendTimer t0) s) with (Some (scheduleNextMessage (sendTransaction t0 s))).
  cbv iota beta.
  set (s1 := scheduleNextMessage (sendTransaction t0 s)).
  assert (Hl : ledger s1 = ledger s)
    by (unfold s1; rewrite ledger_scheduleNextMessage; apply ledger_sendTransaction).
  pose proof (ledger_core _ _ Hl) as Hcore.
  pose proof (core_params _ _ Hcore) as Hp.
  pose proof (f_equal (fun c => snd (fst c)) Hcore) as Hconf.
  pose proof (f_equal snd Hcore) as Hsamples.
  cbv beta iota delta [core fst snd] in Hconf, Hsamples.
  destruct (maps_sendTransaction t0 s) as (Hst & Hv & _).
  destruct (run_accepting_quorum t1 txId r votes s1) as
    (s' & Hrun & Hc & _ & _ & Hgone & Hlat).
  - rewrite Hp. exact Hreq.
  - exact Hr.
  - unfold votesOf. change (consensusVotes s1) with (consensusVotes (sendTransaction t0 s)).
    rewrite Hv. exact Hempty.
  - rewrite Hconf. exact Hnew.
  - exact Hlen.
  - exact Hall.
  - exists s'. split; [exact Hrun |]. split; [exact Hc |].
    change (transactionStartTimes s1) with (transactionStartTimes (sendTransaction t0 s))
      in Hlat.
    rewrite Hst in Hlat. fold txId in Hlat. rewrite lookup_insert_eq in Hlat.
    destruct Hlat as [Hsamples' Hlast].
    split; [exact Hlast |]. split; [| exact Hgone].
    rewrite Hsamples', Hsamples. reflexivity.
Qed.

(** X11: what [verifySemanticIntegrity] accepts.  With verification enabled
    a transaction is accepted exactly when its digest equals the digest
    recomputed from its vector, the variance of the vector is not above
    2.0 and, for a vector that [isTopKConcept] takes for top-k, the cosine
    similarity with a freshly generated reference vector is not below the
    configured threshold.  The reference vector (ten draws) is generated
    exactly when the first two checks pass on such a vector; otherwise the
    state is unchanged.  This holds for every platform, hence in both
    builds of [isTopKConcept]: whichever function its call [abs(val)]
    names. *)
Theorem verifySemanticIntegrity_accepts_iff (now : Z) (tx : Transaction D) (s : State D) :
  semanticVerification (params s) = true ->
  let cv := conceptVector tx in
  let checked := String.eqb (computeSemanticDigest cv) (semanticDigest tx)
                 && negb (dltb (dlit 2 0) (variance (data cv))) in
  (fst (verifySemanticIntegrity now tx s) = true <->
   computeSemanticDigest cv = semanticDigest tx
   /\ dltb (dlit 2 0) (variance (data cv)) = false
   /\ (isTopKConcept cv = true ->
       dltb (calculateCosineSimilarity (data cv)
               (data (fst (generateConceptVector now s))))
            (cosineSimilarityThreshold (params s)) = false))
  /\ snd (verifySemanticIntegrity now tx s)
     = (if checked && isTopKConcept cv then snd (generateConceptVector now s) else s).
Proof.
  intros Hon cv checked. unfold checked, verifySemanticIntegrity. rewrite Hon.
  change (negb true) with false. cbv iota. fold cv.
  destruct (String.eqb_spec (computeSemanticDigest cv) (semanticDigest tx)) as [Heq | Hne];
    [| split; [split; [discriminate | intros (Heq & _); contradiction] | reflexivity]].
  destruct (dltb (dlit 2 0) (variance (data cv))) eqn:Hvar;
    [split; [split; [discriminate | intros (_ & Hv & _); discriminate Hv] | reflexivity] |].
  destruct (isTopKConcept cv) eqn:Htop;
    [| split; [split; [intros _; split; [exact Heq | split; [reflexivity | discriminate]] | reflexivity]
              | reflexivity]].
  change (negb false && true) with true. change (true && true) with true. cbv iota.
  destruct (generateConceptVector now s) as [refVector s1]. cbn [fst snd].
  destruct (dltb _ (cosineSimilarityThreshold (params s))) eqn:Hsim.
  - split; [| reflexivity]. split; [discriminate |].
    intros (_ & _ & Hk). specialize (Hk eq_refl). discriminate Hk.
  - split; [| reflexivity]. split; [| reflexivity].
    intros _. split; [exact Heq | split; [reflexivity | intros _; reflexivity]].
Qed.

(** X12: a tampered transaction is dropped silently.  With verification
    enabled, a received transaction whose digest differs from the digest of
    its vector is not stored as pending, no vote is broadcast for it, no
    signal is emitted and no counter changes. *)
Theorem processReceivedTransaction_drops_tampered (now : Z) (tx : Transaction D)
    (s : State D) :
  semanticVerification (params s) = true ->
  computeSemanticDigest (conceptVector tx) <> semanticDigest tx ->
  pendingTransactions (processReceivedTransaction now tx s) = pendingTransactions s
  /\ consensusVotes (processReceivedTransaction now tx s) = consensusVotes s
  /\ sent (processReceivedTransaction now tx s) = sent s
  /\ signals (processReceivedTransaction now tx s) = signals s
  /\ counters (processReceivedTransaction now tx s) = counters s.
Proof.
  intros Hon Hne.
  assert (Hd : durable (processReceivedTransaction now tx s) = durable s).
  { unfold processReceivedTransaction, processCocoChainConsensus,
      verifySemanticIntegrity.
    rewrite Hon. simpl negb. cbv iota.
    destruct (String.eqb_spec (computeSemanticDigest (conceptVector tx)) (semanticDigest tx))
      as [Heq | _]; [contradiction |].
    simpl. repeat split_if; reflexivity. }
  destruct (durable_fields _ _ Hd) as (_ & Hpe & Hv & _ & _ & Hc & Hsig & Hsent).
  repeat split; assumption.
Qed.

Lemma length_corruptLoop (k : nat) (l : list D) : length (corruptLoop k l) = length l.
Proof.
  revert k. induction l as [| v l IH]; intros k; simpl; [reflexivity |].
  rewrite IH. reflexivity.
Qed.

Lemma length_noiseLoop (k i imax : nat) (l : list D) :
  length (fst (noiseLoop k i imax l)) = length l.
Proof.
  revert k i. induction l as [| v l IH]; intros k i; simpl; [reflexivity |].
  destruct (i =? imax)%nat.
  - specialize (IH k (S i)). destruct (noiseLoop k (S i) imax l). simpl in *.
    rewrite IH. reflexivity.
  - specialize (IH (S k) (S i)). destruct (noiseLoop (S k) (S i) imax l). simpl in *.
    rewrite IH. reflexivity.
Qed.

Lemma manipulateTopKVector_vector (cv : ConceptVector D) (s : State D) :
  length (data (fst (manipulateTopKVector cv s))) = length (data cv)
  /\ isCorrupted (fst (manipulateTopKVector cv s)) = true
  /\ isTopK (fst (manipulateTopKVector cv s)) = true.
Proof.
  unfold manipulateTopKVector. simpl.
  destruct (max_element (data cv)) as [imax |]; [| repeat split].
  match goal with
  | |- context [noiseLoop ?k ?i ?m ?l] =>
      pose proof (length_noiseLoop k i m l) as Hn;
      destruct (noiseLoop k i m l) as [noisy k']
  end.
  simpl in *. rewrite Hn, length_alter. repeat split.
Qed.

(** X13: the adversarial transforms keep the dimension.  A generated concept
    vector has ten coordinates and is not flagged; whatever the draws,
    [injectMalformedVector] returns a vector of the same dimension flagged
    as corrupted, and [manipulateTopKVector] one of the same dimension
    flagged as corrupted and top-k. *)
Theorem adversarial_transforms_keep_dimension (now : Z) (cv : ConceptVector D)
    (s : State D) :
  length (data (fst (generateConceptVector now s))) = 10%nat
  /\ isCorrupted (fst (generateConceptVector now s)) = false
  /\ length (data (fst (injectMalformedVector cv s))) = length (data cv)
  /\ isCorrupted (fst (injectMalformedVector cv s)) = true
  /\ length (data (fst (manipulateTopKVector cv s))) = length (data cv)
  /\ isTopKConcept (fst (manipulateTopKVector cv s)) = true.
Proof.
  split; [reflexivity |]. split; [reflexivity |].
  assert (Hinj : length (data (fst (injectMalformedVector cv s))) = length (data cv)
                 /\ isCorrupted (fst (injectMalformedVector cv s)) = true).
  { unfold injectMalformedVector, corruptConceptVector.
    repeat (split_if; simpl);
      try match goal with
          | |- context [manipulateTopKVector ?c ?t] =>
              destruct (manipulateTopKVector_vector c t) as (-> & -> & _)
          end;
      simpl; rewrite ?length_insert, ?length_corruptLoop; split; reflexivity. }
  destruct Hinj as [Hlen Hcor]. split; [exact Hlen |]. split; [exact Hcor |].
  destruct (manipulateTopKVector_vector cv s) as (Hl & _ & Htop).
  split; [exact Hl |].
  unfold isTopKConcept. rewrite Htop. destruct (existsb _ _); reflexivity.
Qed.

End TransactionProperties.

(** ** Vehicles: transactions and handovers (VehicleApp) *)

Section VehicleRoundTrips.
Context {D : Type} {DA : DoubleArith D} {P : Platform D}.
Import VehicleApp.

(** [findNearestRSU] draws at most one position and changes nothing else. *)
Lemma findNearestRSU_frame (s : State) :
  let s1 := snd (findNearestRSU s) in
  vehicleId s1 = vehicleId s /\ transactionCounter s1 = transactionCounter s
  /\ currentRSU s1 = currentRSU s /\ targetRSU s1 = targetRSU s
  /\ rsuContactTimes s1 = rsuContactTimes s /\ inHandover s1 = inHandover s
  /\ pendingTransactions s1 = pendingTransactions s
  /\ signals s1 = signals s /\ sent s1 = sent s.
Proof.
  unfold findNearestRSU. destruct (negb (mobility s)); [simpl; repeat split |].
  destruct (nearestLoop _ _ _ _ _) as [nearestRSU minDistance].
  destruct (dltb _ minDistance); simpl; repeat split.
Qed.

(** [checkRSURange] never touches the transactions or the identity. *)
Lemma checkRSURange_frame (s : State) :
  vehicleId (checkRSURange s) = vehicleId s
  /\ transactionCounter (checkRSURange s) = transactionCounter s
  /\ pendingTransactions (checkRSURange s) = pendingTransactions s.
Proof.
  unfold checkRSURange.
  pose proof (findNearestRSU_frame s) as (Hv & Hc & _ & _ & _ & _ & Hp & _).
  destruct (findNearestRSU s) as [nearestRSU s1]. simpl in *.
  destruct (negb (nearestRSU =? currentRSU s1) && negb (inHandover s1));
    [| repeat split; assumption].
  unfold initiateHandover. destruct (inHandover s1); simpl; repeat split; assumption.
Qed.

(** X14: no second handover request.  A vehicle that is in handover sends,
    on its transaction timer, the transaction packet and nothing else: no
    handover request, no handover signal, and its current and target RSU
    stay as they are. *)
Theorem in_handover_sends_only_transaction (now : Z) (s : State) :
  inHandover s = true ->
  sent (sendTransaction now s)
  = sent s ++ [TransactionPacket (transactionIdOf (vehicleId s) (transactionCounter s))
                 (vehicleId s) (Z.quot now (10 ^ 9)) (currentRSU s)]
  /\ signals (sendTransaction now s) = signals s
  /\ inHandover (sendTransaction now s) = true
  /\ currentRSU (sendTransaction now s) = currentRSU s
  /\ targetRSU (sendTransaction now s) = targetRSU s.
Proof.
  intros Hin. unfold sendTransaction, checkRSURange.
  pose proof (findNearestRSU_frame s) as (Hv & Hc & Hcur & Htar & _ & HinH & _ & Hsig & Hsent).
  destruct (findNearestRSU s) as [nearestRSU s1]. simpl in Hv, Hc, Hcur, Htar, HinH, Hsig, Hsent.
  rewrite HinH, Hin, andb_false_r. simpl.
  rewrite Hv, Hc, Hcur, Htar, HinH, Hsig, Hsent, Hin. repeat split.
Qed.

(** X15: round trip of a transaction.  After [sendTransaction] at time
    [t0], the response for the id just sent, arriving at [t1], emits the
    latency [t1 - t0] whatever success flag and latency the response
    carries, and removes the pending entry; a second response for the same
    id changes nothing. *)
Theorem transaction_response_round_trip (t0 t1 t2 latency latency' : Z)
    (success success' : bool) (s : State) :
  let txId := transactionIdOf (vehicleId s) (transactionCounter s) in
  let s1 := sendTransaction t0 s in
  let s2 := processTransactionResponse t1 txId success latency s1 in
  pendingTransactions s1 !! txId = Some t0
  /\ signals s2 = signals s1 ++ [authLatency (t1 - t0)]
  /\ pendingTransactions s2 !! txId = None
  /\ processTransactionResponse t2 txId success' latency' s2 = s2.
Proof.
  intros txId s1 s2.
  assert (Hpending : pendingTransactions s1 !! txId = Some t0).
  { unfold s1, sendTransaction. simpl.
    destruct (checkRSURange_frame s) as (-> & -> & _).
    apply lookup_insert_eq. }
  assert (Hgone : pendingTransactions s2 !! txId = None).
  { unfold s2, processTransactionResponse. rewrite Hpending. simpl.
    apply lookup_delete_eq. }
  split; [exact Hpending |]. split.
  - unfold s2, processTransactionResponse. rewrite Hpending. reflexivity.
  - split; [exact Hgone |].
    unfold processTransactionResponse at 1. rewrite Hgone. reflexivity.
Qed.

(** X16: round trip of a handover.  A vehicle that is not in handover
    sends one request naming its current RSU and the new one; afterwards a
    response from any other RSU is ignored; a positive response from the
    new RSU makes it the current one and records the contact time, a
    negative one keeps the current RSU; both end the handover and reset the
    target to -1. *)
Theorem handover_round_trip (now newRSU : Z) (s : State) :
  inHandover s = false ->
  let s1 := initiateHandover newRSU s in
  sent s1 = sent s ++ [HandoverPacket (vehicleId s) (currentRSU s) newRSU]
  /\ signals s1 = signals s ++ [handover]
  /\ (forall rsuId success, rsuId <> newRSU -> completeHandover now rsuId success s1 = s1)
  /\ (let s2 := completeHandover now newRSU true s1 in
      currentRSU s2 = newRSU /\ rsuContactTimes s2 !! newRSU = Some now
      /\ inHandover s2 = false /\ targetRSU s2 = -1)
  /\ (let s2 := completeHandover now newRSU false s1 in
      currentRSU s2 = currentRSU s /\ rsuContactTimes s2 = rsuContactTimes s
      /\ inHandover s2 = false /\ targetRSU s2 = -1).
Proof.
  intros Hout s1. unfold s1, initiateHandover. rewrite Hout.
  split; [reflexivity |]. split; [reflexivity |]. split.
  - intros rsuId success Hne. unfold completeHandover. simpl.
    destruct (Z.eqb_spec rsuId newRSU) as [Heq | _]; [contradiction | reflexivity].
  - unfold completeHandover. simpl. rewrite Z.eqb_refl. simpl.
    split; repeat split. apply lookup_insert_eq.
Qed.

(** X17: out of coverage.  When [findNearestRSU] finds no RSU in range
    (result -1), a vehicle that is attached to an RSU and not in handover
    requests a handover to the RSU -1: it sends the request, enters the
    handover state with target -1 and emits the handover signal. *)
Theorem checkRSURange_out_of_coverage (s : State) :
  fst (findNearestRSU s) = -1 ->
  currentRSU s <> -1 ->
  inHandover s = false ->
  sent (checkRSURange s) = sent s ++ [HandoverPacket (vehicleId s) (currentRSU s) (-1)]
  /\ signals (checkRSURange s) = signals s ++ [handover]
  /\ inHandover (checkRSURange s) = true
  /\ targetRSU (checkRSURange s) = -1
  /\ currentRSU (checkRSURange s) = currentRSU s.
Proof.
  intros Hnone Hcur Hout. unfold checkRSURange.
  pose proof (findNearestRSU_frame s) as (Hv & _ & Hc & _ & _ & HinH & _ & Hsig & Hsent).
  destruct (findNearestRSU s) as [nearestRSU s1].
  simpl in Hnone, Hv, Hc, HinH, Hsig, Hsent. subst nearestRSU.
  rewrite Hc, HinH, Hout.
  destruct (Z.eqb_spec (-1) (currentRSU s)) as [Heq | _]; [congruence |].
  simpl. unfold initiateHandover. rewrite HinH, Hout. simpl.
  rewrite Hv, Hc, Hsig, Hsent. repeat split.
Qed.

(** X18: a vehicle never repeats an id.  Two values of the 64-bit
    counter of one vehicle give two transaction ids, whatever the vehicle
    id. *)
Theorem vehicle_never_repeats_an_id (vehicleId c1 c2 : Z) :
  0 <= c1 < 2 ^ 64 -> 0 <= c2 < 2 ^ 64 -> c1 <> c2 ->
  transactionIdOf vehicleId c1 <> transactionIdOf vehicleId c2.
Proof.
  intros H1 H2 Hne. unfold transactionIdOf, wrap64.
  generalize (wrap_int (vehicleId * 1000000)). intros base.
  change (2 ^ 64) with 18446744073709551616 in *.
  intros Heq. apply Hne. clear Hne.
  Z.div_mod_to_equations. lia.
Qed.

End VehicleRoundTrips.

(** ** The nearest RSU, in exact arithmetic (VehicleApp) *)

Section NearestRSU.
Context {P : Platform R}.
Import VehicleApp.
Local Open Scope R_scope.

Lemma dltb_real_true (x y : R) : dltb x y = true -> x < y.
Proof. simpl. destruct (Rlt_dec x y); [trivial | discriminate]. Qed.

Lemma dltb_real_false (x y : R) : dltb x y = false -> y <= x.
Proof. simpl. destruct (Rlt_dec x y); [discriminate | intros _; lra]. Qed.

(** The scan keeps the smallest distance seen and the index where it was
    first seen. *)
Lemma nearestLoop_spec (position : R) (rest : list Z) (i nearestRSU : Z) (minDistance : R) :
  let r := nearestLoop position i rest nearestRSU minDistance in
  snd r <= minDistance
  /\ Forall (fun p => snd r <= Rabs (position - IZR p)) rest
  /\ ((fst r = nearestRSU /\ snd r = minDistance)
      \/ exists (k : nat) (p : Z),
           rest !! k = Some p /\ fst r = (i + Z.of_nat k)%Z
           /\ snd r = Rabs (position - IZR p)).
Proof.
  revert i nearestRSU minDistance.
  induction rest as [| p rest IH]; intros i nearestRSU minDistance; simpl.
  - split; [lra |]. split; [constructor |]. left. split; reflexivity.
  - destruct (Rlt_dec (Rabs (position - IZR p)) minDistance) as [Hlt | Hge].
    + destruct (IH (i + 1)%Z i (Rabs (position - IZR p))) as (Hle & Hall & Hidx).
      split; [lra |]. split; [constructor; assumption |]. right.
      destruct Hidx as [[Hi Hm] | (k & q & Hk & Hi & Hm)].
      * exists 0%nat, p. split; [reflexivity |]. split; [rewrite Hi; simpl; lia | exact Hm].
      * exists (S k), q. split; [exact Hk |]. split; [rewrite Hi; lia | exact Hm].
    + destruct (IH (i + 1)%Z nearestRSU minDistance) as (Hle & Hall & Hidx).
      split; [exact Hle |]. split; [constructor; [lra | assumption] |].
      destruct Hidx as [Hsame | (k & q & Hk & Hi & Hm)]; [left; exact Hsame | right].
      exists (S k), q. split; [exact Hk |]. split; [rewrite Hi; lia | exact Hm].
Qed.

(** X19: [findNearestRSU] over the reals.  With a mobility module and the
    drawn position [x], the result is either -1, and then every RSU is
    farther than 1000 from [x]; or the index (0 to 4) of an RSU that is at
    most 1000 from [x] and at least as near as every other RSU. *)
Theorem findNearestRSU_nearest (s : State) :
  mobility s = true ->
  let position := uniform (omnetCalls s) 0 20000 in
  let r := fst (findNearestRSU s) in
  (r = (-1)%Z /\ Forall (fun p => 1000 < Rabs (position - IZR p)) rsuPositions)
  \/ (exists p : Z,
        rsuPositions !! Z.to_nat r = Some p
        /\ (0 <= r < 5)%Z
        /\ Rabs (position - IZR p) <= 1000
        /\ Forall (fun q => Rabs (position - IZR p) <= Rabs (position - IZR q))
                  rsuPositions).
Proof.
  intros Hmob position r. unfold r, findNearestRSU. rewrite Hmob.
  change (negb true) with false. cbv iota.
  change (uniform (omnetCalls s) (d_of_Z 0) (d_of_Z 20000)) with position.
  change (hd 0%Z rsuPositions) with 2000%Z.
  change (tl rsuPositions) with [6000; 10000; 14000; 18000]%Z.
  change (dabs (dsub position (d_of_Z 2000))) with (Rabs (position - 2000)).
  pose proof (nearestLoop_spec position [6000; 10000; 14000; 18000]%Z 1 0
                (Rabs (position - 2000))) as (Hle & Hall & Hidx).
  destruct (nearestLoop position 1 [6000; 10000; 14000; 18000]%Z 0 (Rabs (position - 2000)))
    as [nearestRSU minDistance].
  cbn [fst snd] in Hle, Hall, Hidx.
  destruct (dltb (d_of_Z 1000) minDistance) eqn:Hfar; cbn [fst].
  - left. split; [reflexivity |].
    apply dltb_real_true in Hfar. change (d_of_Z 1000) with 1000 in Hfar.
    unfold rsuPositions. constructor; [lra |].
    eapply Forall_impl; [exact Hall |]. intros q Hq. simpl in Hq. lra.
  - right. apply dltb_real_false in Hfar. change (d_of_Z 1000) with 1000 in Hfar.
    destruct Hidx as [[Hi Hm] | (k & q & Hk & Hi & Hm)].
    + exists 2000%Z. subst nearestRSU. split; [reflexivity |]. split; [lia |].
      split; [change (IZR 2000) with 2000; lra |].
      unfold rsuPositions. constructor; [lra |].
      eapply Forall_impl; [exact Hall |]. intros q Hq. simpl in Hq.
      change (IZR 2000) with 2000. lra.
    + exists q. pose proof (lookup_lt_Some _ _ _ Hk) as Hklt. simpl in Hklt.
      subst nearestRSU. split.
      { replace (Z.to_nat (1 + Z.of_nat k)) with (S k) by lia. exact Hk. }
      split; [lia |]. split; [lra |].
      unfold rsuPositions. constructor; [change (IZR 2000) with 2000; lra |].
      eapply Forall_impl; [exact Hall |]. intros q' Hq'. simpl in Hq'. lra.
Qed.

End NearestRSU.


(** ** Road-side units (RSUApp) *)

Section RSUProperties.
Context {D : Type} {DA : DoubleArith D} {DIO : DoubleIO D} {P : Platform D}
        {ST : SimTimeOps D}.
Import RSUApp.

Lemma handoverBooks_emit (x : Signal D) (s : State D) :
  (forall b, x <> handoverSuccess b) -> handoverBooks (emit x s) = handoverBooks s.
Proof.
  intros Hx. unfold handoverBooks, handoverOutcomes, emit. simpl. rewrite omap_app.
  destruct x as [l | b | v]; simpl; rewrite ?app_nil_r; try reflexivity.
  exfalso. apply (Hx b). reflexivity.
Qed.

Lemma handoverBooks_startTimeOf (txId : Z) (s : State D) :
  handoverBooks (snd (startTimeOf txId s)) = handoverBooks s.
Proof. unfold startTimeOf. destruct (transactionStartTimes s !! txId); reflexivity. Qed.

Lemma handoverBooks_consensus (now txId : Z) (s : State D) :
  handoverBooks (runCoCoChainConsensus now txId s) = handoverBooks s
  /\ handoverBooks (runPBFTConsensus now txId s) = handoverBooks s.
Proof.
  unfold runCoCoChainConsensus, runPBFTConsensus.
  destruct (activeTransactions s !! txId) as [tx |]; [| split; reflexivity].
  split.
  - match goal with
    | |- context [startTimeOf txId ?x] =>
        pose proof (handoverBooks_startTimeOf txId x) as Hs;
        destruct (startTimeOf txId x) as [started s1]
    end.
    simpl in Hs. unfold recordAuthenticationLatency.
    rewrite handoverBooks_emit by discriminate. exact Hs.
  - match goal with
    | |- context [startTimeOf txId ?x] =>
        pose proof (handoverBooks_startTimeOf txId x) as Hs;
        destruct (startTimeOf txId x) as [started s1]
    end.
    simpl in Hs. unfold recordAuthenticationLatency.
    rewrite handoverBooks_emit by discriminate. exact Hs.
Qed.

Lemma handoverBooks_updateThroughput (now : Z) (s : State D) :
  handoverBooks (updateThroughput now s) = handoverBooks s.
Proof.
  unfold updateThroughput. destruct (SECOND <=? now - lastThroughputUpdate s); [| reflexivity].
  etransitivity; [| apply (handoverBooks_emit
                             (throughput (ddiv (dadd (throughputCounter s) (d_of_Z 1))
                                            (simtime_dbl (now - lastThroughputUpdate s)))) s);
                    discriminate].
  reflexivity.
Qed.

(** Transactions leave the handover books alone. *)
Lemma handoverBooks_processTransaction (now : Z) (tx : Transaction D) (senderId : Z)
    (s : State D) :
  handoverBooks (processTransaction now tx senderId s) = handoverBooks s.
Proof.
  unfold processTransaction. rewrite handoverBooks_updateThroughput.
  set (s1 := set_transactions _ _ s).
  destruct (handoverBooks_consensus now (tx_id tx) s1) as [Hc Hp].
  change (usePBFT s1) with (usePBFT s).
  destruct (usePBFT s); [rewrite Hp | rewrite Hc]; reflexivity.
Qed.

Lemma handoverBooks_fields (s s' : State D) :
  handoverBooks s' = handoverBooks s ->
  rsuId s' = rsuId s /\ totalHandovers s' = totalHandovers s
  /\ successfulHandovers s' = successfulHandovers s
  /\ handoverOutcomes s' = handoverOutcomes s /\ scheduled s' = scheduled s.
Proof.
  unfold handoverBooks. intros Heq.
  split; [exact (f_equal (fun t => t.1.1.1.1) Heq) |].
  split; [exact (f_equal (fun t => t.1.1.1.2) Heq) |].
  split; [exact (f_equal (fun t => t.1.1.2) Heq) |].
  split; [exact (f_equal (fun t => t.1.2) Heq) | exact (f_equal (fun t => t.2) Heq)].
Qed.

Lemma successes_snoc (outcomes : list bool) (b : bool) :
  successes (outcomes ++ [b]) = (successes outcomes + (if b then 1 else 0))%nat.
Proof.
  unfold successes. rewrite count_occ_app. destruct b; simpl; reflexivity.
Qed.

Lemma successes_le_length (outcomes : list bool) :
  (successes outcomes <= length outcomes)%nat.
Proof. apply count_occ_bound. Qed.

(** One handover request: one outcome, counted; a request that names
    another RSU fails without a draw. *)
Lemma processHandoverRequest_books (now vehicleId : Z) (context : HandoverContext)
    (s : State D) :
  totalHandovers s < INT_MAX ->
  successfulHandovers s < INT_MAX ->
  exists (s' : State D) (b : bool),
    processHandoverRequest now vehicleId context s = Some s'
    /\ rsuId s' = rsuId s
    /\ totalHandovers s' = totalHandovers s + 1
    /\ successfulHandovers s' = successfulHandovers s + (if b then 1 else 0)
    /\ handoverOutcomes s' = handoverOutcomes s ++ [b]
    /\ length (scheduled s') = (length (scheduled s) + (if b then 1 else 0))%nat
    /\ (hc_targetRSU context <> rsuId s -> b = false /\ omnetCalls s' = omnetCalls s).
Proof.
  intros Htot Hsucc. unfold processHandoverRequest.
  destruct (Z.eqb_spec (totalHandovers s) INT_MAX) as [Heq | _]; [lia |].
  simpl rsuId.
  destruct (Z.eqb_spec (hc_targetRSU context) (rsuId s)) as [Hmine | Hother].
  - unfold isVehicleInRange.
    destruct (dltb (dlit 5 2) _) eqn:Hrange.
    + simpl successfulHandovers.
      destruct (Z.eqb_spec (successfulHandovers s) INT_MAX) as [Heq | _]; [lia |].
      eexists. exists true. split; [reflexivity |].
      unfold handoverOutcomes. simpl. rewrite !omap_app, length_app. simpl.
      rewrite app_nil_r.
      repeat split; try reflexivity; try lia; contradiction.
    + eexists. exists false. split; [reflexivity |].
      unfold handoverOutcomes. simpl. rewrite omap_app. simpl.
      repeat split; try reflexivity; try lia; contradiction.
  - eexists. exists false. split; [reflexivity |].
    unfold handoverOutcomes. simpl. rewrite omap_app. simpl.
    repeat split; try reflexivity; lia.
Qed.

Lemma run_handoversAccounted (packets : list (Z * Wire)) (s : State D) :
  handoversAccounted s ->
  totalHandovers s + Z.of_nat (handoverRequests packets) <= INT_MAX ->
  exists s' : State D,
    run packets s = Some s'
    /\ handoversAccounted s'
    /\ rsuId s' = rsuId s
    /\ totalHandovers s' = totalHandovers s + Z.of_nat (handoverRequests packets).
Proof.
  revert s. induction packets as [| [now w] packets IH]; intros s Hacc Hmax.
  - exists s. unfold handoverRequests. simpl. repeat split; try apply Hacc. lia.
  - simpl run. destruct w as [id orig ts target | vehicleId source target |].
    + simpl socketDataArrived.
      match goal with
      | |- context [processTransaction now ?tx ?o ?x] =>
          pose proof (handoverBooks_fields _ _
                        (handoverBooks_processTransaction now tx o x))
            as (Hid & Htot & Hsucc & Hout & Hsch);
          set (s1 := processTransaction now tx o x) in *
      end.
      simpl in Hid, Htot, Hsucc, Hout, Hsch.
      destruct (IH s1) as (s' & Hrun & Hacc' & Hid' & Htot').
      * unfold handoversAccounted. rewrite Htot, Hsucc, Hout, Hsch. exact Hacc.
      * rewrite Htot. exact Hmax.
      * exists s'. split; [exact Hrun |]. split; [exact Hacc' |].
        split; [rewrite Hid'; exact Hid |]. rewrite Htot', Htot. reflexivity.
    + simpl socketDataArrived.
      destruct Hacc as (Ht & Hs & Hsch).
      pose proof (successes_le_length (handoverOutcomes s)) as Hle.
      assert (Hreq : handoverRequests ((now, WHandover vehicleId source target) :: packets)
                     = S (handoverRequests packets)) by reflexivity.
      rewrite Hreq in Hmax |- *.
      match goal with
      | |- context [processHandoverRequest now vehicleId ?ctx s] =>
          destruct (processHandoverRequest_books now vehicleId ctx s)
            as (s1 & b & -> & Hid & Htot & Hsucc & Hout & Hsched & _); [lia | lia |]
      end.
      destruct (IH s1) as (s' & Hrun & Hacc' & Hid' & Htot').
      * unfold handoversAccounted.
        rewrite Htot, Hsucc, Hout, Hsched, length_app, successes_snoc, Ht, Hs, Hsch.
        simpl. destruct b; repeat split; lia.
      * lia.
      * exists s'. split; [exact Hrun |]. split; [exact Hacc' |].
        split; [rewrite Hid'; exact Hid |]. lia.
    + simpl socketDataArrived. apply (IH s Hacc). exact Hmax.
Qed.

(** X20: handover accounting.  An RSU that receives at most [INT_MAX]
    handover requests, among any other packets, completes the run; it
    emits one outcome per request, [totalHandovers] is their number,
    [successfulHandovers] the number of positive ones, which is also the
    number of scheduled completions, and 0 <= successfulHandovers <=
    totalHandovers. *)
Theorem run_handover_accounting (now index : Z) (pbft : bool) (radius : D)
    (packets : list (Z * Wire)) :
  Z.of_nat (handoverRequests packets) <= INT_MAX ->
  exists s : State D,
    run packets (initialize now index pbft radius) = Some s
    /\ totalHandovers s = Z.of_nat (handoverRequests packets)
    /\ length (handoverOutcomes s) = handoverRequests packets
    /\ successfulHandovers s = Z.of_nat (successes (handoverOutcomes s))
    /\ length (scheduled s) = successes (handoverOutcomes s)
    /\ 0 <= successfulHandovers s <= totalHandovers s.
Proof.
  intros Hmax.
  destruct (run_handoversAccounted packets (initialize now index pbft radius))
    as (s & Hrun & (Ht & Hs & Hsch) & _ & Htot).
  - repeat split.
  - simpl. exact Hmax.
  - simpl in Htot. exists s. split; [exact Hrun |]. split; [exact Htot |].
    split; [lia |]. split; [exact Hs |]. split; [exact Hsch |].
    pose proof (successes_le_length (handoverOutcomes s)). lia.
Qed.

(** X21: the RSU accepts every transaction.  A transaction packet is
    stored under its id with ten coordinates of semantic data and marked
    verified, under both consensus variants and whatever it contains; its
    start time is the arrival time, and the latency sample emitted for it
    is the consensus latency drawn (from 1-5 ms for CoCoChain, from
    10-50 ms for PBFT), independent of the data.  Only CoCoChain fills in
    the digest. *)
Theorem socketDataArrived_transaction_verified (now id orig ts target : Z) (s : State D) :
  exists (s' : State D) (tx : Transaction D),
    socketDataArrived now (WTransaction id orig ts target) s = Some s'
    /\ activeTransactions s' !! id = Some tx
    /\ verified tx = true
    /\ originator tx = orig
    /\ length (semanticData tx) = 10%nat
    /\ digest tx = (if usePBFT s then EmptyString
                    else renderSemanticData (semanticData tx))
    /\ transactionStartTimes s' !! id = Some now
    /\ authSamples s'
       = authSamples s
         ++ [simtime_of_double
               (if usePBFT s
                then uniform (omnetCalls s + 10) (dlit 10 3) (dlit 50 3)
                else uniform (omnetCalls s + 10) (dlit 1 3) (dlit 5 3))].
Proof.
  assert (Hthr : forall t (x : State D),
             activeTransactions (updateThroughput t x) = activeTransactions x
             /\ transactionStartTimes (updateThroughput t x) = transactionStartTimes x
             /\ authSamples (updateThroughput t x) = authSamples x).
  { intros t x. unfold updateThroughput, authSamples.
    destruct (SECOND <=? t - lastThroughputUpdate x); simpl;
      rewrite ?omap_app; simpl; rewrite ?app_nil_r; repeat split. }
  simpl socketDataArrived. unfold processTransaction. simpl usePBFT. simpl tx_id.
  destruct (usePBFT s); cbv iota;
    (eexists; eexists; split; [reflexivity |]);
    match goal with
    | |- context [updateThroughput now ?x] => destruct (Hthr now x) as (-> & -> & ->)
    end;
    unfold runPBFTConsensus, runCoCoChainConsensus, startTimeOf, authSamples;
    simpl; rewrite !lookup_insert_eq; simpl;
    (split; [apply lookup_insert_eq |]);
    do 4 (split; [reflexivity |]);
    (split; [apply lookup_insert_eq |]);
    rewrite omap_app; simpl; do 2 f_equal; lia.
Qed.

End RSUProperties.

(** ** Symmetry of the cosine similarity (CoCoChainApp) *)

Section CosineSymmetry.
Import CoCoChainApp.

(** The multiplication of binary64 is commutative, bit for bit. *)
Lemma float_mul_comm (x y : float) : PrimFloat.mul x y = PrimFloat.mul y x.
Proof.
  apply Prim2SF_inj. rewrite !FloatAxioms.mul_spec. unfold SF64mul, SFmul.
  destruct (Prim2SF x) as [sx | sx | | sx mx ex];
    destruct (Prim2SF y) as [sy | sy | | sy my ey];
    try reflexivity; try (rewrite (xorb_comm sx sy); reflexivity).
  rewrite (xorb_comm sx sy), (Pos.mul_comm mx my), (Z.add_comm ex ey). reflexivity.
Qed.

(** Exchanging the vectors exchanges the two norms the loop accumulates. *)
Lemma cosineLoop_swap (a b : list float) (dotProduct normA normB : float) :
  cosineLoop b a (dotProduct, normB, normA)
  = (fst (fst (cosineLoop a b (dotProduct, normA, normB))),
     snd (cosineLoop a b (dotProduct, normA, normB)),
     snd (fst (cosineLoop a b (dotProduct, normA, normB)))).
Proof.
  revert b dotProduct normA normB.
  induction a as [| x a IH]; intros [| y b] dotProduct normA normB; try reflexivity.
  simpl cosineLoop. rewrite <- IH.
  change (dmul y x) with (PrimFloat.mul y x). change (dmul x y) with (PrimFloat.mul x y).
  rewrite (float_mul_comm y x). reflexivity.
Qed.


End CosineSymmetry.

(** ** HighwayMetrics in exact arithmetic (HighwayStructures.h) *)

Section MetricsBounds.
Import HighwayMetrics.
Local Open Scope R_scope.

(** X24: the handover success rate is a rate.  In exact arithmetic, for
    counters with 0 <= successfulHandovers <= totalHandovers,
    [getHandoverSuccessRate] lies between 0 and 1; it is 1 exactly when a
    positive number of handovers all succeeded, and 0 when there was no
    handover. *)
Theorem getHandoverSuccessRate_unit_interval (m : HighwayMetrics R) :
  (0 <= successfulHandovers m <= totalHandovers m)%Z ->
  0 <= getHandoverSuccessRate m <= 1
  /\ (getHandoverSuccessRate m = 1
      <-> (0 < totalHandovers m)%Z /\ successfulHandovers m = totalHandovers m)
  /\ (totalHandovers m = 0%Z -> getHandoverSuccessRate m = 0).
Proof.
  intros [Hs Ht]. unfold getHandoverSuccessRate.
  destruct (Z.ltb_spec 0 (totalHandovers m)) as [Hpos | Hzero].
  - change (ddiv ?a ?b) with (a / b).
    change (d_of_Z (successfulHandovers m)) with (IZR (successfulHandovers m)).
    change (d_of_Z (totalHandovers m)) with (IZR (totalHandovers m)).
    pose proof (IZR_lt _ _ Hpos) as HposR. pose proof (IZR_le _ _ Hs) as HsR.
    pose proof (IZR_le _ _ Ht) as HtR.
    assert (Hrange : 0 <= IZR (successfulHandovers m) / IZR (totalHandovers m) <= 1).
    { split.
      - apply Rmult_le_reg_r with (r := IZR (totalHandovers m)); [exact HposR |].
        unfold Rdiv. rewrite Rmult_assoc, Rinv_l by lra. lra.
      - apply Rmult_le_reg_r with (r := IZR (totalHandovers m)); [exact HposR |].
        unfold Rdiv. rewrite Rmult_assoc, Rinv_l by lra. lra. }
    split; [exact Hrange |]. split.
    + split.
      * intros Hone. split; [exact Hpos |]. apply eq_IZR.
        apply (Rmult_eq_compat_r (IZR (totalHandovers m))) in Hone.
        unfold Rdiv in Hone. rewrite Rmult_assoc, Rinv_l in Hone by lra. lra.
      * intros [_ ->]. unfold Rdiv. apply Rinv_r. lra.
    + intros Hz. lia.
  - change (d_of_Z 0) with 0. split; [lra |]. split.
    + split; [intros Hone; lra | intros [Hpos _]; lia].
    + intros _. reflexivity.
Qed.

End MetricsBounds.

(** ** Throughput statistics (CoCoChainApp) *)

Section ThroughputProperties.
Context {D : Type} {DA : DoubleArith D} {DIO : DoubleIO D} {P : Platform D}.
Import CoCoChainApp.

Lemma sentCounted_durable (s s' : State D) :
  durable s' = durable s -> sentCounted s' = sentCounted s.
Proof.
  intros Heq. destruct (durable_fields _ _ Heq) as (_ & _ & _ & _ & _ & Hc & Hsig & _).
  pose proof (f_equal c_throughput Hc) as Ht. simpl in Ht.
  unfold sentCounted, throughputSamples. rewrite Ht, Hsig. reflexivity.
Qed.

Lemma sentCounted_emit (x : Signal D) (s : State D) :
  (forall n, x <> throughput n) -> sentCounted (emit x s) = sentCounted s.
Proof.
  intros Hx. unfold sentCounted, throughputSamples, emit. simpl. rewrite omap_app.
  destruct x as [? ? | ? | ? | ? ? | n]; simpl; rewrite ?app_nil_r; try reflexivity.
  exfalso. apply (Hx n). reflexivity.
Qed.

(** A sample moves the running counter into the statistics. *)
Lemma sentCounted_updateThroughputMetrics (now : Z) (s : State D) :
  sentCounted (updateThroughputMetrics now s) = sentCounted s.
Proof.
  unfold updateThroughputMetrics. split_if; [| reflexivity].
  unfold sentCounted, throughputSamples, emit. simpl.
  rewrite omap_app, foldr_app. simpl.
  generalize (omap (fun x : Signal D => match x with throughput n => Some n | _ => None end)
                (signals s)).
  intros l. induction l as [| n l IH]; simpl; lia.
Qed.

Lemma sentCounted_updateFalsePositiveRate (wasValid wasRejected : bool) (s : State D) :
  sentCounted (updateFalsePositiveRate wasValid wasRejected s) = sentCounted s.
Proof.
  unfold updateFalsePositiveRate.
  repeat split_if; try reflexivity;
    (etransitivity; [apply sentCounted_emit; discriminate | reflexivity]).
Qed.

Lemma sentCounted_processCocoChainConsensus (now : Z) (tx : Transaction D) (s : State D) :
  sentCounted (snd (processCocoChainConsensus now tx s)) = sentCounted s.
Proof.
  unfold processCocoChainConsensus.
  pose proof (sentCounted_durable _ _ (durable_verifySemanticIntegrity now tx s)) as Hv.
  destruct (verifySemanticIntegrity now tx s) as [ok s1]. simpl in Hv.
  unfold generateConceptVector.
  repeat (split_if; simpl);
    rewrite ?sentCounted_updateFalsePositiveRate;
    rewrite ?sentCounted_emit by discriminate;
    exact Hv.
Qed.

Lemma sentCounted_sendTo (p : Packet) (s : State D) :
  sentCounted (sendTo p s) = sentCounted s.
Proof. reflexivity. Qed.

Lemma sentCounted_processReceivedTransaction (now : Z) (tx : Transaction D) (s : State D) :
  sentCounted (processReceivedTransaction now tx s) = sentCounted s.
Proof.
  unfold processReceivedTransaction, startConsensus.
  pose proof (sentCounted_processCocoChainConsensus now tx s) as Hc.
  destruct (processCocoChainConsensus now tx s) as [cocoChainResult s1]. simpl in Hc.
  repeat (split_if; simpl); try reflexivity; try exact Hc;
    match goal with
    | |- context [verifySemanticIntegrity now tx ?x] =>
        pose proof (sentCounted_durable _ _ (durable_verifySemanticIntegrity now tx x)) as Hv;
        destruct (verifySemanticIntegrity now tx x) as [v s2]
    end;
    simpl in Hv; rewrite sentCounted_sendTo, Hv; exact Hc.
Qed.

Lemma sentCounted_finalizeTransaction (now txId : Z) (s : State D) :
  sentCounted (finalizeTransaction now txId s) = sentCounted s.
Proof.
  unfold finalizeTransaction.
  destruct (bool_decide (txId ∈ confirmedTransactions s)); [reflexivity |].
  simpl. destruct (transactionStartTimes s !! txId) as [started |]; [| reflexivity].
  etransitivity;
    [| apply (sentCounted_emit (endToEndLatency txId (now - started)) s); discriminate].
  reflexivity.
Qed.

Lemma sentCounted_processConsensusMessage (now : Z) (msg : ConsensusMessage)
    (s s' : State D) :
  processConsensusMessage now msg s = Some s' -> sentCounted s' = sentCounted s.
Proof.
  unfold processConsensusMessage. intros Hrun.
  destruct (negb (is_VOTE (msg_type msg))); [injection Hrun as <-; reflexivity |].
  destruct (requiredVotes _) as [required |]; [| discriminate Hrun].
  revert Hrun. repeat split_if; intros Hrun; injection Hrun as <-;
    rewrite ?sentCounted_finalizeTransaction; reflexivity.
Qed.

Lemma sentCounted_sendTransaction (now : Z) (s : State D) :
  sentCounted (sendTransaction now s) = sentCounted s + 1.
Proof.
  unfold sendTransaction, generateConceptVector.
  set (s1 := set_rngCalls _ (set_transactionCounter _ s)).
  assert (H1 : sentCounted s1 = sentCounted s) by reflexivity.
  destruct (isAdversarialNode s1).
  - match goal with
    | |- context [injectMalformedVector ?cv s1] =>
        pose proof (sentCounted_durable _ _ (durable_injectMalformedVector cv s1)) as Hd;
        destruct (injectMalformedVector cv s1) as [cv2 s2]
    end.
    simpl in Hd.
    rewrite sentCounted_sendTo, sentCounted_updateThroughputMetrics, <- H1, <- Hd.
    unfold sentCounted, throughputSamples. simpl. lia.
  - rewrite sentCounted_sendTo, sentCounted_updateThroughputMetrics, <- H1.
    unfold sentCounted, throughputSamples. simpl. lia.
Qed.

Lemma sentCounted_handle (e : Event) (s s' : State D) :
  handle e s = Some s' ->
  sentCounted s' = sentCounted s + (if isSendTimer e then 1 else 0).
Proof.
  destruct e as [now | now w]; simpl; intros Hrun.
  - injection Hrun as <-.
    transitivity (sentCounted (sendTransaction now s)); [reflexivity |].
    apply sentCounted_sendTransaction.
  - unfold socketDataArrived in Hrun.
    set (s0 := emit (consensusOverhead 1) _) in Hrun.
    assert (H0 : sentCounted s0 = sentCounted s).
    { unfold s0. rewrite sentCounted_emit by discriminate. reflexivity. }
    rewrite Z.add_0_r, <- H0.
    destruct w as [id orig ts | type txId sender v ts |].
    + simpl in Hrun. injection Hrun as <-.
      rewrite sentCounted_processReceivedTransaction. reflexivity.
    + exact (sentCounted_processConsensusMessage _ _ _ _ Hrun).
    + injection Hrun as <-. reflexivity.
Qed.

(** X26: no transaction is lost from the throughput statistics.  Along a
    run from the initial state, with at most [INT_MAX] timer events (the
    counter is an [int]), the run completes and the throughput samples
    emitted plus the running counter [totalThroughput] add up to the number
    of transactions the node sent. *)
Theorem run_throughput_accounts_for_every_transaction (p : Params D) (r : Z)
    (events : list Event) :
  requiredVotes p = Some r ->
  Z.of_nat (length (List.filter isSendTimer events)) <= INT_MAX ->
  exists s,
    run events (initialize p) = Some s
    /\ foldr Z.add 0 (throughputSamples s) + totalThroughput s
       = Z.of_nat (length (List.filter isSendTimer events))
    /\ Z.of_nat (length (transactionPackets s))
       = foldr Z.add 0 (throughputSamples s) + totalThroughput s.
Proof.
  intros Hreq _.
  destruct (run_accounted events (initialize p) r Hreq (accounted_initialize p))
    as (s & Hrun & _).
  exists s. split; [exact Hrun |].
  assert (Hcount : forall evs (a b : State D),
             run evs a = Some b ->
             sentCounted b = sentCounted a + Z.of_nat (length (List.filter isSendTimer evs))).
  { induction evs as [| e evs IH]; intros a b Hab; simpl in Hab.
    - injection Hab as <-. simpl. lia.
    - destruct (handle e a) as [a1 |] eqn:He; [| discriminate Hab].
      rewrite (IH a1 b Hab), (sentCounted_handle e a a1 He).
      destruct e; simpl; lia. }
  pose proof (Hcount events _ s Hrun) as Hs.
  change (sentCounted (initialize p)) with 0 in Hs. unfold sentCounted in Hs.
  split; [lia |].
  pose proof (books_run events _ s Hrun) as Hb.
  pose proof (f_equal (fun t => length t.2) Hb) as Hlen.
  unfold books in Hlen. simpl in Hlen. rewrite length_sentBy in Hlen. lia.
Qed.

End ThroughputProperties.

(** ** The further properties at concrete inputs *)

(** Node 1 with the threshold 1/64 (one vote required): a timer event, a
    vote and a packet that is neither a transaction nor a vote. *)
Lemma run_counts_received_packets_witness :
  CoCoChainApp.requiredVotes (demoParams 1 smallThreshold true) = Some 1
  /\ exists s,
       CoCoChainApp.run
         [CoCoChainApp.SendTimer 0;
          CoCoChainApp.DataArrived 5 (CoCoChainApp.WConsensus 1 1000001 2 true 5);
          CoCoChainApp.DataArrived 6 CoCoChainApp.WOther]
         (CoCoChainApp.initialize (demoParams 1 smallThreshold true)) = Some s
       /\ CoCoChainApp.totalMessagesReceived s = 2
       /\ overheadSamples s = [1; 1].
Proof.
  assert (Hreq : CoCoChainApp.requiredVotes (demoParams 1 smallThreshold true) = Some 1)
    by (vm_compute; reflexivity).
  split; [exact Hreq |].
  refine (run_counts_received_packets (demoParams 1 smallThreshold true) 1
            [CoCoChainApp.SendTimer 0;
             CoCoChainApp.DataArrived 5 (CoCoChainApp.WConsensus 1 1000001 2 true 5);
             CoCoChainApp.DataArrived 6 CoCoChainApp.WOther] Hreq _).
  vm_compute. discriminate.
Defined.

(** The same node receives two transactions of node 2 and a vote. *)
Lemma run_never_detects_malformed_witness :
  CoCoChainApp.requiredVotes (demoParams 1 smallThreshold true) = Some 1
  /\ exists s,
       CoCoChainApp.run
         [CoCoChainApp.DataArrived 1 (CoCoChainApp.WTransaction 2000001 2 0);
          CoCoChainApp.DataArrived 2 (CoCoChainApp.WTransaction 2000002 2 1);
          CoCoChainApp.DataArrived 5 (CoCoChainApp.WConsensus 1 2000001 2 true 5)]
         (CoCoChainApp.initialize (demoParams 1 smallThreshold true)) = Some s
       /\ CoCoChainApp.totalMalformedDetected s = 0
       /\ malformedSamples s = [].
Proof.
  assert (Hreq : CoCoChainApp.requiredVotes (demoParams 1 smallThreshold true) = Some 1)
    by (vm_compute; reflexivity).
  split; [exact Hreq |].
  exact (run_never_detects_malformed (demoParams 1 smallThreshold true) 1
           [CoCoChainApp.DataArrived 1 (CoCoChainApp.WTransaction 2000001 2 0);
            CoCoChainApp.DataArrived 2 (CoCoChainApp.WTransaction 2000002 2 1);
            CoCoChainApp.DataArrived 5 (CoCoChainApp.WConsensus 1 2000001 2 true 5)] Hreq).
Defined.

(** Node 3 sends at 0 s and at 1.5 s, a vote arriving in between. *)
Lemma run_sends_one_transaction_per_timer_witness :
  CoCoChainApp.requiredVotes (demoParams 3 smallThreshold true) = Some 1
  /\ exists s,
       CoCoChainApp.run
         [CoCoChainApp.SendTimer 0;
          CoCoChainApp.DataArrived 5 (CoCoChainApp.WConsensus 1 3000001 2 true 5);
          CoCoChainApp.SendTimer (3 * SECOND / 2)]
         (CoCoChainApp.initialize (demoParams 3 smallThreshold true)) = Some s
       /\ transactionPackets s = [(3000001, 3, 0); (3000002, 3, 1500000)]
       /\ CoCoChainApp.transactionCounter s = 2.
Proof.
  assert (Hreq : CoCoChainApp.requiredVotes (demoParams 3 smallThreshold true) = Some 1)
    by (vm_compute; reflexivity).
  split; [exact Hreq |].
  destruct (run_sends_one_transaction_per_timer (demoParams 3 smallThreshold true) 1
              [CoCoChainApp.SendTimer 0;
               CoCoChainApp.DataArrived 5 (CoCoChainApp.WConsensus 1 3000001 2 true 5);
               CoCoChainApp.SendTimer (3 * SECOND / 2)] Hreq)
    as (s & Hrun & Hpackets & _ & Hcounter).
  exists s. split; [exact Hrun |]. split; [exact Hpackets | exact Hcounter].
Defined.

(** Node 1 with the threshold 1/32 (three votes required) receives two
    votes for transaction 7. *)
Lemma votes_below_quorum_decide_nothing_witness :
  CoCoChainApp.requiredVotes (CoCoChainApp.params (demoNode 1 quorumThreshold)) = Some 3
  /\ exists s',
       CoCoChainApp.run (map (voteEvent 5 7) [(2, true); (3, false)])
         (demoNode 1 quorumThreshold) = Some s'
       /\ map CoCoChainApp.senderId (CoCoChainApp.votesOf s' 7) = [2; 3]
       /\ CoCoChainApp.confirmedTransactions s'
          = CoCoChainApp.confirmedTransactions (demoNode 1 quorumThreshold).
Proof.
  assert (Hreq : CoCoChainApp.requiredVotes (CoCoChainApp.params (demoNode 1 quorumThreshold))
                 = Some 3) by (vm_compute; reflexivity).
  split; [exact Hreq |].
  destruct (votes_below_quorum_decide_nothing 5 7 3 [(2, true); (3, false)]
              (demoNode 1 quorumThreshold) Hreq)
    as (s' & Hrun & Hvotes & Hconf & _).
  - vm_compute. reflexivity.
  - exists s'. split; [exact Hrun |]. split; [rewrite Hvotes; reflexivity | exact Hconf].
Defined.

(** The same node receives three accepting votes for transaction 7, for
    which it recorded no start time. *)
Lemma accepting_quorum_finalizes_witness :
  CoCoChainApp.requiredVotes (CoCoChainApp.params (demoNode 1 quorumThreshold)) = Some 3
  /\ (7 ∉ CoCoChainApp.confirmedTransactions (demoNode 1 quorumThreshold))
  /\ exists s',
       CoCoChainApp.run (map (voteEvent 5 7) [(2, true); (3, true); (4, true)])
         (demoNode 1 quorumThreshold) = Some s'
       /\ 7 ∈ CoCoChainApp.confirmedTransactions s'
       /\ CoCoChainApp.consensusVotes s' !! 7 = None
       /\ CoCoChainApp.latencySamples s' = [].
Proof.
  assert (Hreq : CoCoChainApp.requiredVotes (CoCoChainApp.params (demoNode 1 quorumThreshold))
                 = Some 3) by (vm_compute; reflexivity).
  assert (Hnew : 7 ∉ CoCoChainApp.confirmedTransactions (demoNode 1 quorumThreshold))
    by decide_by_evaluation.
  split; [exact Hreq |]. split; [exact Hnew |].
  destruct (accepting_quorum_finalizes 5 7 3 [(2, true); (3, true); (4, true)]
              (demoNode 1 quorumThreshold) Hreq)
    as (s' & Hrun & Hconf & Hvotes & _ & _ & Hlat).
  - unfold INT_MAX. lia.
  - vm_compute. reflexivity.
  - exact Hnew.
  - reflexivity.
  - repeat constructor.
  - exists s'. split; [exact Hrun |]. split; [exact Hconf |]. split; [exact Hvotes |].
    apply Hlat. vm_compute. reflexivity.
Defined.

(** One vote confirms transaction 7 at node 1 (threshold 1/64); a later
    transaction and a later vote leave it confirmed. *)
Lemma run_confirmed_only_grows_witness :
  exists s1 s2,
    CoCoChainApp.run [CoCoChainApp.DataArrived 5 (CoCoChainApp.WConsensus 1 7 2 true 5)]
      (demoNode 1 smallThreshold) = Some s1
    /\ CoCoChainApp.run
         [CoCoChainApp.SendTimer 6;
          CoCoChainApp.DataArrived 7 (CoCoChainApp.WConsensus 1 7 3 false 7)] s1 = Some s2
    /\ CoCoChainApp.confirmedTransactions s1 ⊆ CoCoChainApp.confirmedTransactions s2.
Proof.
  destruct (CoCoChainApp.run
              [CoCoChainApp.DataArrived 5 (CoCoChainApp.WConsensus 1 7 2 true 5)]
              (demoNode 1 smallThreshold)) as [s1 |] eqn:Hrun1;
    [| vm_compute in Hrun1; discriminate Hrun1].
  destruct (CoCoChainApp.run
              [CoCoChainApp.SendTimer 6;
               CoCoChainApp.DataArrived 7 (CoCoChainApp.WConsensus 1 7 3 false 7)] s1)
    as [s2 |] eqn:Hrun2.
  - exists s1, s2. split; [reflexivity |]. split; [exact Hrun2 |].
    exact (run_confirmed_only_grows _ s1 s2 Hrun2).
  - exfalso. vm_compute in Hrun1. injection Hrun1 as <-.
    vm_compute in Hrun2. discriminate Hrun2.
Defined.

(** Node 1 (three votes required) sends a transaction at time 0 and
    receives three accepting votes for it at 5 ms. *)
Lemma originator_measures_latency_witness :
  CoCoChainApp.requiredVotes (CoCoChainApp.params (demoNode 1 quorumThreshold)) = Some 3
  /\ exists s',
       CoCoChainApp.run
         (CoCoChainApp.SendTimer 0
          :: map (voteEvent (5 * 10 ^ 9) 1000001) [(2, true); (3, true); (4, true)])
         (demoNode 1 quorumThreshold) = Some s'
       /\ last (CoCoChainApp.signals s')
          = Some (CoCoChainApp.endToEndLatency 1000001 (5 * 10 ^ 9)).
Proof.
  assert (Hreq : CoCoChainApp.requiredVotes (CoCoChainApp.params (demoNode 1 quorumThreshold))
                 = Some 3) by (vm_compute; reflexivity).
  split; [exact Hreq |].
  destruct (originator_measures_latency 0 (5 * 10 ^ 9) 3 [(2, true); (3, true); (4, true)]
              (demoNode 1 quorumThreshold) Hreq)
    as (s' & Hrun & _ & Hlast & _).
  - unfold INT_MAX. lia.
  - vm_compute. reflexivity.
  - decide_by_evaluation.
  - reflexivity.
  - repeat constructor.
  - exists s'. split; [exact Hrun | exact Hlast].
Defined.

(** The vectors (0.5, 0.25) and (0.875, 0.125), with matching digests and
    small variances.  The first is top-k in no build: accepted, and no
    reference vector is drawn.  The second is top-k where [abs] is the
    absolute value of a double, and ten numbers are drawn; it is not where
    [abs] is that of [int], which gives 0 for 0.875: accepted, no draw. *)
Lemma verifySemanticIntegrity_accepts_iff_witness :
  CoCoChainApp.semanticVerification (CoCoChainApp.params (demoNode 1 defaultThreshold)) = true
  /\ CoCoChainApp.verifySemanticIntegrity 0
       (demoTransaction [0.5; 0.25]%float
          (CoCoChainApp.computeSemanticDigest (demoVector [0.5; 0.25]%float)))
       (demoNode 1 defaultThreshold)
     = (true, demoNode 1 defaultThreshold)
  /\ CoCoChainApp.verifySemanticIntegrity (P := intAbsPlatform) 0
       (demoTransaction [0.875; 0.125]%float
          (CoCoChainApp.computeSemanticDigest (demoVector [0.875; 0.125]%float)))
       (demoNode 1 defaultThreshold)
     = (true, demoNode 1 defaultThreshold)
  /\ CoCoChainApp.rngCalls
       (snd (CoCoChainApp.verifySemanticIntegrity (P := demoPlatform) 0
               (demoTransaction [0.875; 0.125]%float
                  (CoCoChainApp.computeSemanticDigest (demoVector [0.875; 0.125]%float)))
               (demoNode 1 defaultThreshold)))
     = (CoCoChainApp.rngCalls (demoNode 1 defaultThreshold) + 10)%nat.
Proof.
  split; [reflexivity |]. split; [| split].
  - destruct (verifySemanticIntegrity_accepts_iff 0
                (demoTransaction [0.5; 0.25]%float
                   (CoCoChainApp.computeSemanticDigest (demoVector [0.5; 0.25]%float)))
                (demoNode 1 defaultThreshold) eq_refl) as [Hiff Hstate].
    apply injective_projections.
    + apply Hiff. split; [reflexivity |]. split; [vm_compute; reflexivity |].
      intros Htop. vm_compute in Htop. discriminate Htop.
    + rewrite Hstate. vm_compute. reflexivity.
  - destruct (verifySemanticIntegrity_accepts_iff (P := intAbsPlatform) 0
                (demoTransaction [0.875; 0.125]%float
                   (CoCoChainApp.computeSemanticDigest (demoVector [0.875; 0.125]%float)))
                (demoNode 1 defaultThreshold) eq_refl) as [Hiff Hstate].
    apply injective_projections.
    + apply Hiff. split; [vm_compute; reflexivity |]. split; [vm_compute; reflexivity |].
      intros Htop. vm_compute in Htop. discriminate Htop.
    + rewrite Hstate. vm_compute. reflexivity.
  - destruct (verifySemanticIntegrity_accepts_iff (P := demoPlatform) 0
                (demoTransaction [0.875; 0.125]%float
                   (CoCoChainApp.computeSemanticDigest (demoVector [0.875; 0.125]%float)))
                (demoNode 1 defaultThreshold) eq_refl) as [_ Hstate].
    rewrite Hstate. vm_compute. reflexivity.
Defined.

(** The two readings of [abs(val)] in [isTopKConcept]: coordinates between
    0.8 and 1 in magnitude are top-k for the absolute value of a double
    only; from 1 on they are top-k for both. *)
Example isTopKConcept_builds :
  CoCoChainApp.isTopKConcept (P := demoPlatform) (demoVector [0.875; 0.125]%float) = true
  /\ CoCoChainApp.isTopKConcept (P := intAbsPlatform) (demoVector [0.875; 0.125]%float) = false
  /\ CoCoChainApp.isTopKConcept (P := demoPlatform) (demoVector [0.125; (-1.5)]%float) = true
  /\ CoCoChainApp.isTopKConcept (P := intAbsPlatform) (demoVector [0.125; (-1.5)]%float) = true
  /\ CoCoChainApp.isTopKConcept (P := demoPlatform) (demoVector [0.5; 0.25]%float) = false
  /\ CoCoChainApp.isTopKConcept (P := intAbsPlatform) (demoVector [0.5; 0.25]%float) = false.
Proof. repeat split; vm_compute; reflexivity. Qed.

(** A transaction of node 2 whose digest field is empty. *)
Lemma processReceivedTransaction_drops_tampered_witness :
  CoCoChainApp.computeSemanticDigest
    (CoCoChainApp.conceptVector (demoTransaction [0.5; 0.25]%float EmptyString))
  <> EmptyString
  /\ CoCoChainApp.pendingTransactions
       (CoCoChainApp.processReceivedTransaction 0
          (demoTransaction [0.5; 0.25]%float EmptyString) (demoNode 2 defaultThreshold))
     = CoCoChainApp.pendingTransactions (demoNode 2 defaultThreshold)
  /\ CoCoChainApp.sent
       (CoCoChainApp.processReceivedTransaction 0
          (demoTransaction [0.5; 0.25]%float EmptyString) (demoNode 2 defaultThreshold))
     = [].
Proof.
  assert (Hne : CoCoChainApp.computeSemanticDigest
                  (CoCoChainApp.conceptVector (demoTransaction [0.5; 0.25]%float EmptyString))
                <> EmptyString) by (vm_compute; discriminate).
  split; [exact Hne |].
  destruct (processReceivedTransaction_drops_tampered 0
              (demoTransaction [0.5; 0.25]%float EmptyString)
              (demoNode 2 defaultThreshold) eq_refl Hne) as (Hpending & _ & Hsent & _).
  split; [exact Hpending | exact Hsent].
Defined.

(** Node 1: its first and its second transaction. *)
Lemma transactionIdOf_same_node_witness :
  CoCoChainApp.transactionIdOf 1 0 <> CoCoChainApp.transactionIdOf 1 1.
Proof.
  apply transactionIdOf_same_node; [vm_compute; split; [discriminate | reflexivity] ..
                                   | discriminate].
Defined.

(** Node 1 and counter 5 on both sides. *)
Lemma transactionIdOf_bounded_injective_witness :
  CoCoChainApp.transactionIdOf 1 5 = CoCoChainApp.transactionIdOf 1 5
  /\ 1 = 1 /\ 5 = 5.
Proof.
  split; [reflexivity |].
  apply (transactionIdOf_bounded_injective 1 1 5 5);
    try (vm_compute; split; [discriminate | reflexivity]).
  reflexivity.
Defined.

(** Node 1 receives a transaction of node 2, for which the rate is
    computed with the divisor 1. *)
Lemma run_fprDivisors_positive_witness :
  exists s,
    CoCoChainApp.run [CoCoChainApp.DataArrived 1 (CoCoChainApp.WTransaction 2000001 2 0)]
      (CoCoChainApp.initialize (demoParams 1 smallThreshold true)) = Some s
    /\ Forall (fun divisor => 0 < divisor) (CoCoChainApp.fprDivisors s).
Proof.
  destruct (CoCoChainApp.run
              [CoCoChainApp.DataArrived 1 (CoCoChainApp.WTransaction 2000001 2 0)]
              (CoCoChainApp.initialize (demoParams 1 smallThreshold true)))
    as [s |] eqn:Hrun; [| vm_compute in Hrun; discriminate Hrun].
  exists s. split; [reflexivity |].
  exact (run_fprDivisors_positive _ _ s Hrun).
Defined.

(** Vehicle 1, attached to RSU 2 and in handover to RSU 3, sends its first
    transaction at 2 ms. *)
Lemma in_handover_sends_only_transaction_witness :
  VehicleApp.inHandover (demoVehicle 1 2 3 true) = true
  /\ VehicleApp.sent (VehicleApp.sendTransaction (2 * 10 ^ 9) (demoVehicle 1 2 3 true))
     = [VehicleApp.TransactionPacket 1000001 1 2 2]
  /\ VehicleApp.signals (VehicleApp.sendTransaction (2 * 10 ^ 9) (demoVehicle 1 2 3 true))
     = [].
Proof.
  split; [reflexivity |].
  destruct (in_handover_sends_only_transaction (D := float) (P := demoPlatform)
              (2 * 10 ^ 9) (demoVehicle 1 2 3 true) eq_refl)
    as (Hsent & Hsignals & _).
  split; [exact Hsent | exact Hsignals].
Defined.

(** Vehicle 1 hands over from RSU 2 to RSU 3. *)
Lemma handover_round_trip_witness :
  VehicleApp.inHandover (demoVehicle 1 2 (-1) false) = false
  /\ VehicleApp.sent (VehicleApp.initiateHandover 3 (demoVehicle 1 2 (-1) false))
     = [VehicleApp.HandoverPacket 1 2 3]
  /\ VehicleApp.currentRSU
       (VehicleApp.completeHandover 9 3 true
          (VehicleApp.initiateHandover 3 (demoVehicle 1 2 (-1) false))) = 3
  /\ VehicleApp.currentRSU
       (VehicleApp.completeHandover 9 3 false
          (VehicleApp.initiateHandover 3 (demoVehicle 1 2 (-1) false))) = 2.
Proof.
  split; [reflexivity |].
  destruct (handover_round_trip 9 3 (demoVehicle 1 2 (-1) false) eq_refl)
    as (Hsent & _ & _ & (Hok & _) & (Hfail & _)).
  split; [exact Hsent |]. split; [exact Hok | exact Hfail].
Defined.

(** On the platform over the reals the position drawn is 10000, the
    position of RSU 2. *)
Lemma findNearestRSU_nearest_witness :
  VehicleApp.mobility (demoVehicle 1 0 (-1) false) = true
  /\ fst (VehicleApp.findNearestRSU (P := demoPlatformR) (demoVehicle 1 0 (-1) false))
     <> -1
  /\ 0 <= fst (VehicleApp.findNearestRSU (P := demoPlatformR) (demoVehicle 1 0 (-1) false))
     < 5.
Proof.
  split; [reflexivity |].
  destruct (findNearestRSU_nearest (P := demoPlatformR) (demoVehicle 1 0 (-1) false) eq_refl)
    as [[_ Hfar] | (p & _ & Hrange & _)].
  - exfalso. apply Forall_inv_tail, Forall_inv_tail, Forall_inv in Hfar.
    simpl in Hfar.
    replace ((0 + 20000) / 2 - 10000)%R with 0%R in Hfar by lra.
    rewrite Rabs_R0 in Hfar. lra.
  - split; [lia | exact Hrange].
Defined.

(** On the platform that draws the position 4000, vehicle 1, attached to
    RSU 0, is out of range of every RSU. *)
Lemma checkRSURange_out_of_coverage_witness :
  fst (VehicleApp.findNearestRSU (P := gapPlatform) (demoVehicle 1 0 (-1) false)) = -1
  /\ VehicleApp.sent (VehicleApp.checkRSURange (P := gapPlatform) (demoVehicle 1 0 (-1) false))
     = [VehicleApp.HandoverPacket 1 0 (-1)]
  /\ VehicleApp.inHandover
       (VehicleApp.checkRSURange (P := gapPlatform) (demoVehicle 1 0 (-1) false)) = true.
Proof.
  assert (Hnone : fst (VehicleApp.findNearestRSU (P := gapPlatform)
                         (demoVehicle 1 0 (-1) false)) = -1)
    by (vm_compute; reflexivity).
  split; [exact Hnone |].
  destruct (checkRSURange_out_of_coverage (P := gapPlatform) (demoVehicle 1 0 (-1) false)
              Hnone) as (Hsent & _ & Hin & _).
  - simpl. lia.
  - reflexivity.
  - split; [exact Hsent | exact Hin].
Defined.

(** RSU 1 receives a handover request for itself, a transaction and a
    handover request for RSU 2. *)
Lemma run_handover_accounting_witness :
  exists s,
    RSUApp.run
      [(0, RSUApp.WHandover 4 0 1); (5, RSUApp.WTransaction 4000001 4 0 1);
       (7, RSUApp.WHandover 5 1 2)] (demoRSU 1 false) = Some s
    /\ RSUApp.totalHandovers s = 2
    /\ 0 <= RSUApp.successfulHandovers s <= RSUApp.totalHandovers s.
Proof.
  destruct (run_handover_accounting (D := float) 0 1 false 1000%float
              [(0, RSUApp.WHandover 4 0 1); (5, RSUApp.WTransaction 4000001 4 0 1);
               (7, RSUApp.WHandover 5 1 2)])
    as (s & Hrun & Htotal & _ & _ & _ & Hrange).
  - vm_compute. discriminate.
  - exists s. split; [exact Hrun |]. split; [exact Htotal | exact Hrange].
Defined.

(** Three of four handovers succeeded. *)
Lemma getHandoverSuccessRate_unit_interval_witness :
  (0 <= HighwayMetrics.getHandoverSuccessRate
          {| HighwayMetrics.authLatencies := []; HighwayMetrics.totalHandovers := 4;
             HighwayMetrics.successfulHandovers := 3;
             HighwayMetrics.throughputSamples := [];
             HighwayMetrics.speedBandLatencies := ∅;
             HighwayMetrics.speedBandHSR := ∅ |} <= 1)%R.
Proof.
  refine (proj1 (getHandoverSuccessRate_unit_interval
                   {| HighwayMetrics.authLatencies := []; HighwayMetrics.totalHandovers := 4;
                      HighwayMetrics.successfulHandovers := 3;
                      HighwayMetrics.throughputSamples := [];
                      HighwayMetrics.speedBandLatencies := ∅;
                      HighwayMetrics.speedBandHSR := ∅ |} _)).
  simpl. lia.
Defined.

(** Node 1 sends at 0 s and at 1.5 s: the second transaction closes an
    interval of more than a second, and a sample is emitted. *)
Lemma run_throughput_accounts_for_every_transaction_witness :
  CoCoChainApp.requiredVotes (demoParams 1 smallThreshold true) = Some 1
  /\ exists s,
       CoCoChainApp.run
         [CoCoChainApp.SendTimer 0; CoCoChainApp.SendTimer (3 * SECOND / 2);
          CoCoChainApp.DataArrived (2 * SECOND) CoCoChainApp.WOther]
         (CoCoChainApp.initialize (demoParams 1 smallThreshold true)) = Some s
       /\ foldr Z.add 0 (throughputSamples s) + CoCoChainApp.totalThroughput s = 2.
Proof.
  assert (Hreq : CoCoChainApp.requiredVotes (demoParams 1 smallThreshold true) = Some 1)
    by (vm_compute; reflexivity).
  split; [exact Hreq |].
  destruct (run_throughput_accounts_for_every_transaction
              (demoParams 1 smallThreshold true) 1
              [CoCoChainApp.SendTimer 0; CoCoChainApp.SendTimer (3 * SECOND / 2);
               CoCoChainApp.DataArrived (2 * SECOND) CoCoChainApp.WOther] Hreq)
    as (s & Hrun & Hsum & _).
  - vm_compute. discriminate.
  - exists s. split; [exact Hrun | exact Hsum].
Defined.

(** Vehicle 3: its first and its second transaction. *)
Lemma vehicle_never_repeats_an_id_witness :
  VehicleApp.transactionIdOf 3 0 <> VehicleApp.transactionIdOf 3 1.
Proof.
  apply vehicle_never_repeats_an_id; [vm_compute; split; [discriminate | reflexivity] ..
                                     | discriminate].
Defined.

